(** * SAMSIM server: shared state, ingestion, broadcast and query core

    A shallow embedding of [server/samsim_server.py] (class [SAMSIMServer])
    and the properties of its state synchronisation core.

    The program is a single asyncio event loop.  A method that awaits
    nothing but its last send runs without another coroutine touching
    [self] and is a function on the server object.  The broadcast loop
    awaits inside its iteration over the registry and between its
    turns: there the other coroutines run, and what they do to the
    server object is part of the model.

    Values are the Python values the program handles: whatever
    [json.loads] produced, plus the literals and dataclass defaults of
    the source.  Exceptions are explicit: an attribute that a value does
    not have raises, the [try]/[except] blocks of the source catch, and
    every assignment made before the exception stays in the state.

    Input and output are explicit too.  A datagram or a frame enters a
    method as the outcome of [json.loads] on it; the two sockets are
    oracles saying whether a send raises; logging, datagrams, frames,
    snapshots and serialisations leave a trace of events. *)

From Stdlib Require Import ZArith String List Bool Lia.
From Stdlib Require Import Floats.SpecFloat.
From stdpp Require Import base gmap sets list strings.

Set Warnings "-register-all,-clear-no-such-hyp".
Open Scope string_scope.
Open Scope Z_scope.
Open Scope list_scope.

(** ** Python values *)

(** The values [json.loads] builds: [None], [bool], [int] (unbounded),
    [float] (binary64, here its IEEE 754 datum), [str], [list] and
    [dict].  A [dict] keeps its items in insertion order.  The same type
    holds the dictionaries the server builds itself, whose keys may be
    any hashable value. *)
Inductive pyval : Type :=
| PNone
| PBool (b : bool)
| PInt (z : Z)
| PFloat (f : spec_float)
| PStr (s : string)
| PList (l : list pyval)
| PDict (d : list (pyval * pyval)).

(** [0.0] and [5.0], the float defaults of the [SAMSiteState] dataclass. *)
Definition float_0_0 : spec_float := S754_zero false.
Definition float_5_0 : spec_float := S754_finite false 5629499534213120 (-50).

(** *** Equality of dictionary keys

    A key matches a stored key when Python's [==] holds (or the two are
    the same object): [None] only with [None], strings by their
    characters, and [bool], [int] and [float] by numeric value, exactly
    ([True == 1 == 1.0]).  The decoder returns one shared object for
    every [NaN], which therefore matches itself as a key. *)
Inductive number : Type :=
| NInt (z : Z)
| NFloat (f : spec_float).

Definition as_number (v : pyval) : option number :=
  match v with
  | PBool b => Some (NInt (Z.b2z b))
  | PInt z => Some (NInt z)
  | PFloat f => Some (NFloat f)
  | _ => None
  end.

Definition int_eq_float (z : Z) (f : spec_float) : bool :=
  match f with
  | S754_zero _ => z =? 0
  | S754_finite s m e =>
      let v := if s then Z.neg m else Z.pos m in
      if 0 <=? e then z =? v * 2 ^ e else z * 2 ^ (- e) =? v
  | _ => false
  end.

Definition float_is_nan (f : spec_float) : bool :=
  match f with S754_nan => true | _ => false end.

Definition number_eqb (x y : number) : bool :=
  match x, y with
  | NInt a, NInt b => a =? b
  | NInt a, NFloat g => int_eq_float a g
  | NFloat f, NInt b => int_eq_float b f
  | NFloat f, NFloat g => SFeqb f g || (float_is_nan f && float_is_nan g)
  end.

Definition key_eqb (a b : pyval) : bool :=
  match a, b with
  | PNone, PNone => true
  | PStr s, PStr t => String.eqb s t
  | _, _ =>
      match as_number a, as_number b with
      | Some x, Some y => number_eqb x y
      | _, _ => false
      end
  end.

(** [list] and [dict] are unhashable: using one as a key is a
    [TypeError]. *)
Definition hashable (v : pyval) : bool :=
  match v with
  | PList _ | PDict _ => false
  | _ => true
  end.

(** [v == s] for a string literal [s]: false for every non-string. *)
Definition eq_str (v : pyval) (s : string) : bool :=
  match v with
  | PStr t => String.eqb t s
  | _ => false
  end.

(** *** Dictionaries: items in insertion order *)

Section Dict.
Context {V : Type}.

(** [d.get(k)] as an option. *)
Fixpoint dict_get (d : list (pyval * V)) (k : pyval) : option V :=
  match d with
  | [] => None
  | (k', v) :: d' => if key_eqb k' k then Some v else dict_get d' k
  end.

(** [d.get(k, default)]. *)
Definition dict_get_or (d : list (pyval * V)) (k : pyval) (default : V) : V :=
  match dict_get d k with Some v => v | None => default end.

(** [k in d]. *)
Definition dict_contains (d : list (pyval * V)) (k : pyval) : bool :=
  match dict_get d k with Some _ => true | None => false end.

(** [d[k] = v]: an existing key keeps its place (and its key object),
    a new key goes to the end. *)
Fixpoint dict_set (d : list (pyval * V)) (k : pyval) (v : V) : list (pyval * V) :=
  match d with
  | [] => [(k, v)]
  | (k', v') :: d' =>
      if key_eqb k' k then (k', v) :: d' else (k', v') :: dict_set d' k v
  end.

(** [list(d.keys())]. *)
Definition dict_keys (d : list (pyval * V)) : list pyval := map fst d.
End Dict.

(** A JSON object as [json.loads] builds it: the keys are strings and
    pairwise different. *)
Fixpoint json_object {V : Type} (d : list (pyval * V)) : bool :=
  match d with
  | [] => true
  | (PStr k, _) :: d' => negb (dict_contains d' (PStr k)) && json_object d'
  | _ => false
  end.

Definition is_dict (v : pyval) : bool :=
  match v with
  | PDict _ => true
  | _ => false
  end.

(** ** Exceptions *)

(** The exceptions this code can meet; all are subclasses of
    [Exception], the first one is what [except json.JSONDecodeError]
    selects. *)
Inductive exn : Type :=
| JSONDecodeError (msg : string)
| UnicodeDecodeError (msg : string)
| AttributeError (msg : string)
| TypeError (msg : string)
| KeyError (msg : string)
| OSError (msg : string)
| ConnectionClosed (msg : string)
| RuntimeError (msg : string).

(** [str(e)]. *)
Definition exn_str (e : exn) : string :=
  match e with
  | JSONDecodeError m | UnicodeDecodeError m | AttributeError m
  | TypeError m | KeyError m | OSError m | ConnectionClosed m
  | RuntimeError m => m
  end.

Definition type_name (v : pyval) : string :=
  match v with
  | PNone => "NoneType"
  | PBool _ => "bool"
  | PInt _ => "int"
  | PFloat _ => "float"
  | PStr _ => "str"
  | PList _ => "list"
  | PDict _ => "dict"
  end.

Definition no_attribute (v : pyval) (attr : string) : exn :=
  AttributeError
    ("'" ++ type_name v ++ "' object has no attribute '" ++ attr ++ "'")%string.

Definition unhashable (v : pyval) : exn :=
  TypeError ("unhashable type: '" ++ type_name v ++ "'")%string.

(** What [json.loads(data.decode('utf-8'))], [json.loads(message)] or
    [await request.json()] does with the bytes or text it is given. *)
Inductive loads_result : Type :=
| LoadsOk (v : pyval)
| LoadsRaises (e : exn).

(** Bytes or text as received, together with their decoding. *)
Record received : Type := mkReceived {
  raw : string;
  loads : loads_result
}.

(** ** The state *)

(** [@dataclass SAMSiteState].  Python does not check the annotations:
    a field holds whatever value the update carried. *)
Record SAMSiteState : Type := mkSAMSiteState {
  site_id : pyval;
  system_state : pyval;
  radar_mode : pyval;
  antenna_az : pyval;
  antenna_el : pyval;
  targets : pyval;
  tracked_target : pyval;
  track_quality : pyval;
  missiles_ready : pyval;
  missiles_in_flight : pyval;
  engagement_auth : pyval;
  auto_engage : pyval
}.

(** [SAMSiteState(site_id=site_id)]: the dataclass defaults. *)
Definition SAMSiteState_new (sid : pyval) : SAMSiteState :=
  {| site_id := sid;
     system_state := PInt 0;
     radar_mode := PInt 0;
     antenna_az := PFloat float_0_0;
     antenna_el := PFloat float_5_0;
     targets := PList [];
     tracked_target := PNone;
     track_quality := PInt 0;
     missiles_ready := PInt 6;
     missiles_in_flight := PInt 0;
     engagement_auth := PBool false;
     auto_engage := PBool false |}.

(** The attributes of [SAMSIMServer] that the core reads or writes.
    A subscriber (a websocket object) is a number; [ws_clients] is a
    Python [set]. *)
Record SAMSIMServer : Type := mkSAMSIMServer {
  running : bool;
  dcs_connected : bool;
  last_dcs_update : Z;
  mission_time : pyval;
  paused : pyval;
  sites : list (pyval * SAMSiteState);
  world_objects : pyval;
  ws_clients : gset nat
}.

(** [SAMSIMServer.__init__]. *)
Definition SAMSIMServer_init : SAMSIMServer :=
  {| running := false;
     dcs_connected := false;
     last_dcs_update := 0;
     mission_time := PInt 0;
     paused := PBool false;
     sites := [];
     world_objects := PList [];
     ws_clients := ∅ |}.

(** ** Effects *)

Inductive level : Type := DEBUG | INFO | WARNING | ERROR.

(** What a method does to the outside, in the order it does it.
    [EvSnapshot] is the construction of the [state] dictionary under
    [state_lock]; [EvDumps] is a call of [json.dumps]; the two send
    events record the call and whether it raised. *)
Inductive event : Type :=
| EvLog (l : level) (msg : string)
| EvSnapshot (state : pyval)
| EvDumps (v : pyval)
| EvSendto (data : string) (raised : bool)
| EvWsSend (client : nat) (data : string) (raised : bool).

Inductive outcome (A : Type) : Type :=
| Returned (a : A)
| Raised (e : exn).
Arguments Returned {A} a.
Arguments Raised {A} e.

(** A method body: from the server object to how it ended, the server
    object at that point, and the events on the way.  An exception
    keeps the state reached when it was raised. *)
Definition M (A : Type) : Type :=
  SAMSIMServer -> outcome A * SAMSIMServer * list event.

Definition ret {A : Type} (a : A) : M A := fun s => (Returned a, s, []).

Definition raise {A : Type} (e : exn) : M A := fun s => (Raised e, s, []).

Definition bind {A B : Type} (m : M A) (k : A -> M B) : M B :=
  fun s =>
    match m s with
    | (Returned a, s1, t1) =>
        match k a s1 with (r, s2, t2) => (r, s2, t1 ++ t2) end
    | (Raised e, s1, t1) => (Raised e, s1, t1)
    end.

(** [try: body except ... as e: handler e]. *)
Definition try_except {A : Type} (body : M A) (handler : exn -> M A) : M A :=
  fun s =>
    match body s with
    | (Raised e, s1, t1) =>
        match handler e s1 with (r, s2, t2) => (r, s2, t1 ++ t2) end
    | r => r
    end.

Definition get_self : M SAMSIMServer := fun s => (Returned s, s, []).

Definition modify_self (f : SAMSIMServer -> SAMSIMServer) : M unit :=
  fun s => (Returned tt, f s, []).

Definition emit (e : event) : M unit := fun s => (Returned tt, s, [e]).

Declare Scope py_scope.
Delimit Scope py_scope with py.
Notation "'let!' x ':=' m 'in' k" := (bind m (fun x => k))
  (at level 10, x name, m at level 100, k at level 200) : py_scope.
Notation "m1 '>>' m2" := (bind m1 (fun _ => m2))
  (at level 100, m2 at level 200, right associativity) : py_scope.
Open Scope py_scope.

(** [for x in xs: body x], left at the first exception. *)
Fixpoint for_each {A : Type} (xs : list A) (body : A -> M unit) : M unit :=
  match xs with
  | [] => ret tt
  | x :: xs' => body x >> for_each xs' body
  end.

Definition log (l : level) (msg : string) : M unit := emit (EvLog l msg).

(** [o.get(key, default)]: only a [dict] has [get]. *)
Definition py_get (o : pyval) (key : string) (default : pyval) : M pyval :=
  match o with
  | PDict d => ret (dict_get_or d (PStr key) default)
  | _ => raise (no_attribute o "get")
  end.

(** [o.items()]: only a [dict] has [items]. *)
Definition py_items (o : pyval) : M (list (pyval * pyval)) :=
  match o with
  | PDict d => ret d
  | _ => raise (no_attribute o "items")
  end.

(** *** Attribute assignment *)

(** [site.<field> = v] on a [SAMSiteState] object. *)
Definition set_system_state (v : pyval) (st : SAMSiteState) : SAMSiteState :=
  {| site_id := site_id st;
     system_state := v;
     radar_mode := radar_mode st;
     antenna_az := antenna_az st;
     antenna_el := antenna_el st;
     targets := targets st;
     tracked_target := tracked_target st;
     track_quality := track_quality st;
     missiles_ready := missiles_ready st;
     missiles_in_flight := missiles_in_flight st;
     engagement_auth := engagement_auth st;
     auto_engage := auto_engage st |}.

Definition set_radar_mode (v : pyval) (st : SAMSiteState) : SAMSiteState :=
  {| site_id := site_id st;
     system_state := system_state st;
     radar_mode := v;
     antenna_az := antenna_az st;
     antenna_el := antenna_el st;
     targets := targets st;
     tracked_target := tracked_target st;
     track_quality := track_quality st;
     missiles_ready := missiles_ready st;
     missiles_in_flight := missiles_in_flight st;
     engagement_auth := engagement_auth st;
     auto_engage := auto_engage st |}.

Definition set_antenna_az (v : pyval) (st : SAMSiteState) : SAMSiteState :=
  {| site_id := site_id st;
     system_state := system_state st;
     radar_mode := radar_mode st;
     antenna_az := v;
     antenna_el := antenna_el st;
     targets := targets st;
     tracked_target := tracked_target st;
     track_quality := track_quality st;
     missiles_ready := missiles_ready st;
     missiles_in_flight := missiles_in_flight st;
     engagement_auth := engagement_auth st;
     auto_engage := auto_engage st |}.

Definition set_antenna_el (v : pyval) (st : SAMSiteState) : SAMSiteState :=
  {| site_id := site_id st;
     system_state := system_state st;
     radar_mode := radar_mode st;
     antenna_az := antenna_az st;
     antenna_el := v;
     targets := targets st;
     tracked_target := tracked_target st;
     track_quality := track_quality st;
     missiles_ready := missiles_ready st;
     missiles_in_flight := missiles_in_flight st;
     engagement_auth := engagement_auth st;
     auto_engage := auto_engage st |}.

Definition set_targets (v : pyval) (st : SAMSiteState) : SAMSiteState :=
  {| site_id := site_id st;
     system_state := system_state st;
     radar_mode := radar_mode st;
     antenna_az := antenna_az st;
     antenna_el := antenna_el st;
     targets := v;
     tracked_target := tracked_target st;
     track_quality := track_quality st;
     missiles_ready := missiles_ready st;
     missiles_in_flight := missiles_in_flight st;
     engagement_auth := engagement_auth st;
     auto_engage := auto_engage st |}.

Definition set_tracked_target (v : pyval) (st : SAMSiteState) : SAMSiteState :=
  {| site_id := site_id st;
     system_state := system_state st;
     radar_mode := radar_mode st;
     antenna_az := antenna_az st;
     antenna_el := antenna_el st;
     targets := targets st;
     tracked_target := v;
     track_quality := track_quality st;
     missiles_ready := missiles_ready st;
     missiles_in_flight := missiles_in_flight st;
     engagement_auth := engagement_auth st;
     auto_engage := auto_engage st |}.

Definition set_track_quality (v : pyval) (st : SAMSiteState) : SAMSiteState :=
  {| site_id := site_id st;
     system_state := system_state st;
     radar_mode := radar_mode st;
     antenna_az := antenna_az st;
     antenna_el := antenna_el st;
     targets := targets st;
     tracked_target := tracked_target st;
     track_quality := v;
     missiles_ready := missiles_ready st;
     missiles_in_flight := missiles_in_flight st;
     engagement_auth := engagement_auth st;
     auto_engage := auto_engage st |}.

Definition set_missiles_ready (v : pyval) (st : SAMSiteState) : SAMSiteState :=
  {| site_id := site_id st;
     system_state := system_state st;
     radar_mode := radar_mode st;
     antenna_az := antenna_az st;
     antenna_el := antenna_el st;
     targets := targets st;
     tracked_target := tracked_target st;
     track_quality := track_quality st;
     missiles_ready := v;
     missiles_in_flight := missiles_in_flight st;
     engagement_auth := engagement_auth st;
     auto_engage := auto_engage st |}.

Definition set_missiles_in_flight (v : pyval) (st : SAMSiteState) : SAMSiteState :=
  {| site_id := site_id st;
     system_state := system_state st;
     radar_mode := radar_mode st;
     antenna_az := antenna_az st;
     antenna_el := antenna_el st;
     targets := targets st;
     tracked_target := tracked_target st;
     track_quality := track_quality st;
     missiles_ready := missiles_ready st;
     missiles_in_flight := v;
     engagement_auth := engagement_auth st;
     auto_engage := auto_engage st |}.

Definition set_engagement_auth (v : pyval) (st : SAMSiteState) : SAMSiteState :=
  {| site_id := site_id st;
     system_state := system_state st;
     radar_mode := radar_mode st;
     antenna_az := antenna_az st;
     antenna_el := antenna_el st;
     targets := targets st;
     tracked_target := tracked_target st;
     track_quality := track_quality st;
     missiles_ready := missiles_ready st;
     missiles_in_flight := missiles_in_flight st;
     engagement_auth := v;
     auto_engage := auto_engage st |}.

Definition set_auto_engage (v : pyval) (st : SAMSiteState) : SAMSiteState :=
  {| site_id := site_id st;
     system_state := system_state st;
     radar_mode := radar_mode st;
     antenna_az := antenna_az st;
     antenna_el := antenna_el st;
     targets := targets st;
     tracked_target := tracked_target st;
     track_quality := track_quality st;
     missiles_ready := missiles_ready st;
     missiles_in_flight := missiles_in_flight st;
     engagement_auth := engagement_auth st;
     auto_engage := v |}.

(** [self.<attribute> = v] on the server. *)
Definition set_dcs_connected (v : bool) (s : SAMSIMServer) : SAMSIMServer :=
  {| running := running s;
     dcs_connected := v;
     last_dcs_update := last_dcs_update s;
     mission_time := mission_time s;
     paused := paused s;
     sites := sites s;
     world_objects := world_objects s;
     ws_clients := ws_clients s |}.

Definition set_mission_time (v : pyval) (s : SAMSIMServer) : SAMSIMServer :=
  {| running := running s;
     dcs_connected := dcs_connected s;
     last_dcs_update := last_dcs_update s;
     mission_time := v;
     paused := paused s;
     sites := sites s;
     world_objects := world_objects s;
     ws_clients := ws_clients s |}.

Definition set_paused (v : pyval) (s : SAMSIMServer) : SAMSIMServer :=
  {| running := running s;
     dcs_connected := dcs_connected s;
     last_dcs_update := last_dcs_update s;
     mission_time := mission_time s;
     paused := v;
     sites := sites s;
     world_objects := world_objects s;
     ws_clients := ws_clients s |}.

Definition set_sites (v : list (pyval * SAMSiteState)) (s : SAMSIMServer) : SAMSIMServer :=
  {| running := running s;
     dcs_connected := dcs_connected s;
     last_dcs_update := last_dcs_update s;
     mission_time := mission_time s;
     paused := paused s;
     sites := v;
     world_objects := world_objects s;
     ws_clients := ws_clients s |}.

Definition set_world_objects (v : pyval) (s : SAMSIMServer) : SAMSIMServer :=
  {| running := running s;
     dcs_connected := dcs_connected s;
     last_dcs_update := last_dcs_update s;
     mission_time := mission_time s;
     paused := paused s;
     sites := sites s;
     world_objects := v;
     ws_clients := ws_clients s |}.

Definition set_ws_clients (v : gset nat) (s : SAMSIMServer) : SAMSIMServer :=
  {| running := running s;
     dcs_connected := dcs_connected s;
     last_dcs_update := last_dcs_update s;
     mission_time := mission_time s;
     paused := paused s;
     sites := sites s;
     world_objects := world_objects s;
     ws_clients := v |}.

(** *** The [sites] dictionary of the server *)

(** [site_id in self.sites]; hashes the key first. *)
Definition sites_contains (k : pyval) : M bool :=
  if hashable k
  then let! s := get_self in ret (dict_contains (sites s) k)
  else raise (unhashable k).

(** [self.sites[site_id] = st]. *)
Definition sites_setitem (k : pyval) (st : SAMSiteState) : M unit :=
  if hashable k
  then modify_self (fun s => set_sites (dict_set (sites s) k st) s)
  else raise (unhashable k).

(** [self.sites[site_id]]. *)
Definition sites_getitem (k : pyval) : M SAMSiteState :=
  if hashable k
  then
    let! s := get_self in
    match dict_get (sites s) k with
    | Some st => ret st
    | None => raise (KeyError (type_name k))
    end
  else raise (unhashable k).

(** [site.<field> = v] where [site] is the object [self.sites[k]]: the
    dictionary holds the object, so the assignment shows there. *)
Definition site_assign (k : pyval) (f : SAMSiteState -> SAMSiteState) : M unit :=
  modify_self (fun s =>
    match dict_get (sites s) k with
    | Some st => set_sites (dict_set (sites s) k (f st)) s
    | None => s
    end).

(** ** Snapshots *)

(** The per-site dictionary of a snapshot (lines 299-312 and 334-347). *)
Definition site_dict (site : SAMSiteState) : pyval :=
  PDict [ (PStr "siteId", site_id site);
          (PStr "systemState", system_state site);
          (PStr "radarMode", radar_mode site);
          (PStr "antennaAz", antenna_az site);
          (PStr "antennaEl", antenna_el site);
          (PStr "targets", targets site);
          (PStr "tracked", tracked_target site);
          (PStr "trackQuality", track_quality site);
          (PStr "missilesReady", missiles_ready site);
          (PStr "missilesInFlight", missiles_in_flight site);
          (PStr "engAuth", engagement_auth site);
          (PStr "autoEng", auto_engage site) ].

(** [{site_id: {...} for site_id, site in self.sites.items()}]: one item
    per item of [self.sites], in the same order. *)
Definition sites_dict (s : SAMSIMServer) : list (pyval * pyval) :=
  map (fun '(k, site) => (k, site_dict site)) (sites s).

(** The [state] dictionary built under [state_lock], in
    [_send_state_to_client] with type ["state"] and in [_broadcast_loop]
    with type ["update"]. *)
Definition state_dict (ty : string) (s : SAMSIMServer) : pyval :=
  PDict [ (PStr "type", PStr ty);
          (PStr "dcsConnected", PBool (dcs_connected s));
          (PStr "missionTime", mission_time s);
          (PStr "paused", paused s);
          (PStr "sites", PDict (sites_dict s));
          (PStr "worldObjects", world_objects s) ].

Definition snapshot (ty : string) : M pyval :=
  let! s := get_self in
  let state := state_dict ty s in
  emit (EvSnapshot state) >> ret state.

(** ** The methods of [SAMSIMServer] *)

Section Methods.

(** [json.dumps] and [str] as functions of the value; [sendto] and
    [ws_send] say what the datagram socket and a websocket do with a
    send: [None] when the call returns, the exception when it raises. *)
Variable json_dumps : pyval -> string.
Variable py_str : pyval -> string.
Variable sendto : string -> option exn.
Variable ws_send : nat -> string -> option exn.

Definition dumps (v : pyval) : M string :=
  emit (EvDumps v) >> ret (json_dumps v).

Definition json_loads (r : received) : M pyval :=
  match loads r with
  | LoadsOk v => ret v
  | LoadsRaises e => raise e
  end.

(** [self.udp_send_socket.sendto(data, (host, port))]. *)
Definition socket_sendto (data : string) : M unit :=
  match sendto data with
  | None => emit (EvSendto data false)
  | Some e => emit (EvSendto data true) >> raise e
  end.

(** [await websocket.send(text)]. *)
Definition websocket_send (websocket : nat) (text : string) : M unit :=
  match ws_send websocket text with
  | None => emit (EvWsSend websocket text false)
  | Some e => emit (EvWsSend websocket text true) >> raise e
  end.

(** [send_to_dcs] (lines 214-224). *)
Definition send_to_dcs (command : pyval) : M unit :=
  try_except
    (let! data := dumps command in
     socket_sendto data >>
     log DEBUG ("Sent to DCS: " ++ py_str command)%string)
    (fun e => log ERROR ("Failed to send to DCS: " ++ exn_str e)%string).

(** The body of the loop over [sites_data.items()] (lines 189-203). *)
Definition update_site (site_id site_data : pyval) : M unit :=
  let! present := sites_contains site_id in
  (if negb present
   then sites_setitem site_id (SAMSiteState_new site_id)
   else ret tt) >>
  let! _site := sites_getitem site_id in
  (let! v := py_get site_data "systemState" (PInt 0) in
   site_assign site_id (set_system_state v)) >>
  (let! v := py_get site_data "radarMode" (PInt 0) in
   site_assign site_id (set_radar_mode v)) >>
  (let! v := py_get site_data "antennaAz" (PInt 0) in
   site_assign site_id (set_antenna_az v)) >>
  (let! v := py_get site_data "antennaEl" (PInt 5) in
   site_assign site_id (set_antenna_el v)) >>
  (let! v := py_get site_data "targets" (PList []) in
   site_assign site_id (set_targets v)) >>
  (let! v := py_get site_data "tracked" PNone in
   site_assign site_id (set_tracked_target v)) >>
  (let! v := py_get site_data "trackQuality" (PInt 0) in
   site_assign site_id (set_track_quality v)) >>
  (let! v := py_get site_data "missilesReady" (PInt 6) in
   site_assign site_id (set_missiles_ready v)) >>
  (let! v := py_get site_data "missilesInFlight" (PInt 0) in
   site_assign site_id (set_missiles_in_flight v)) >>
  (let! v := py_get site_data "engAuth" (PBool false) in
   site_assign site_id (set_engagement_auth v)) >>
  (let! v := py_get site_data "autoEng" (PBool false) in
   site_assign site_id (set_auto_engage v)).

(** The [status] branch (lines 179-203). *)
Definition apply_status (message : pyval) : M unit :=
  modify_self (set_dcs_connected true) >>
  (let! v := py_get message "time" (PInt 0) in modify_self (set_mission_time v)) >>
  (let! v := py_get message "paused" (PBool false) in modify_self (set_paused v)) >>
  (let! v := py_get message "worldObjects" (PList []) in
   modify_self (set_world_objects v)) >>
  let! sites_data := py_get message "sites" (PDict []) in
  let! items := py_items sites_data in
  for_each items (fun item => update_site (fst item) (snd item)).

(** [_process_dcs_data] (lines 163-212). *)
Definition _process_dcs_data (data : received) : M unit :=
  try_except
    (let! message := json_loads data in
     let! msg_type := py_get message "type" (PStr "") in
     if eq_str msg_type "init" then
       modify_self (set_dcs_connected true) >> log INFO "DCS connected"
     else if eq_str msg_type "shutdown" then
       modify_self (set_dcs_connected false) >> log INFO "DCS disconnected"
     else if eq_str msg_type "status" then
       apply_status message
     else if eq_str msg_type "response" then
       ret tt
     else
       ret tt)
    (fun e =>
       match e with
       | JSONDecodeError _ =>
           log WARNING ("Invalid JSON from DCS: " ++ exn_str e)%string
       | _ =>
           log ERROR ("Error processing DCS data: " ++ exn_str e)%string
       end).

(** [_send_state_to_client] (lines 290-321). *)
Definition _send_state_to_client (websocket : nat) : M unit :=
  let! state := snapshot "state" in
  try_except
    (let! text := dumps state in websocket_send websocket text)
    (fun e => log ERROR ("Failed to send state to client: " ++ exn_str e)%string).

(** [_handle_ws_message] (lines 247-288). *)
Definition _handle_ws_message (websocket : nat) (message : received) : M unit :=
  try_except
    (let! data := json_loads message in
     let! cmd_type := py_get data "type" (PStr "") in
     if eq_str cmd_type "command" then
       let! command := py_get data "command" (PDict []) in
       send_to_dcs command >>
       let! cmd := py_get command "cmd" PNone in
       let! text := dumps (PDict [ (PStr "type", PStr "ack");
                                   (PStr "command", cmd) ]) in
       websocket_send websocket text
     else if eq_str cmd_type "init_site" then
       let! site_id := py_get data "siteId" PNone in
       let! group_name := py_get data "groupName" PNone in
       let command :=
         PDict [ (PStr "cmd", PStr "init_site");
                 (PStr "siteId", site_id);
                 (PStr "params", PDict [ (PStr "groupName", group_name) ]) ] in
       send_to_dcs command >>
       let! present := sites_contains site_id in
       if negb present
       then sites_setitem site_id (SAMSiteState_new site_id)
       else ret tt
     else if eq_str cmd_type "get_state" then
       _send_state_to_client websocket
     else
       ret tt)
    (fun e =>
       match e with
       | JSONDecodeError _ =>
           log WARNING ("Invalid JSON from WebSocket: " ++ raw message)%string
       | _ =>
           log ERROR ("Error handling WebSocket message: " ++ exn_str e)%string
       end).

(** [_api_status] (lines 395-404): the dictionary given to
    [web.json_response]. *)
Definition _api_status : M pyval :=
  let! s := get_self in
  ret (PDict [ (PStr "dcsConnected", PBool (dcs_connected s));
               (PStr "missionTime", mission_time s);
               (PStr "paused", paused s);
               (PStr "sites", PList (dict_keys (sites s))) ]).

(** [_api_command] (lines 406-413); [body] is what [await
    request.json()] does. *)
Definition _api_command (body : received) : M pyval :=
  try_except
    (let! data := json_loads body in
     send_to_dcs data >>
     ret (PDict [ (PStr "success", PBool true) ]))
    (fun e =>
       ret (PDict [ (PStr "success", PBool false);
                    (PStr "error", PStr (exn_str e)) ])).

(** The websocket [handler] of [_run_websocket_server]: registration
    (line 230) and the [finally] clause (line 240). *)
Definition handler_register (websocket : nat) : M unit :=
  modify_self (fun s => set_ws_clients (ws_clients s ∪ {[websocket]}) s).

Definition handler_unregister (websocket : nat) : M unit :=
  modify_self (fun s => set_ws_clients (ws_clients s ∖ {[websocket]}) s).

End Methods.

(** [start] sets [self.running] before the four loops begin. *)
Definition set_running (v : bool) (s : SAMSIMServer) : SAMSIMServer :=
  {| running := v;
     dcs_connected := dcs_connected s;
     last_dcs_update := last_dcs_update s;
     mission_time := mission_time s;
     paused := paused s;
     sites := sites s;
     world_objects := world_objects s;
     ws_clients := ws_clients s |}.

(** [_run_udp_receiver] (lines 140-151) over the successive results of
    [_recv_udp_data]: [None] when nothing was received, else the
    datagram.  An empty datagram is falsy and skipped. *)
Definition receiver_turn (r : option received) : M unit :=
  try_except
    (match r with
     | Some data =>
         if negb (String.eqb (raw data) "") then _process_dcs_data data else ret tt
     | None => ret tt
     end)
    (fun e =>
       let! s := get_self in
       if running s
       then log ERROR ("UDP receive error: " ++ exn_str e)%string
       else ret tt).

Fixpoint _run_udp_receiver (received_data : list (option received)) : M unit :=
  match received_data with
  | [] => ret tt
  | r :: rest =>
      let! s := get_self in
      if running s
      then receiver_turn r >> _run_udp_receiver rest
      else ret tt
  end.

(** *** Reading a run *)

Definition result_of {A : Type} (r : outcome A * SAMSIMServer * list event) : outcome A :=
  fst (fst r).

Definition state_of {A : Type} (r : outcome A * SAMSIMServer * list event) : SAMSIMServer :=
  snd (fst r).

Definition trace_of {A : Type} (r : outcome A * SAMSIMServer * list event) : list event :=
  snd r.

(** ** The broadcast loop among the other coroutines *)

(** What the two sockets do during one step. *)
Record sockets : Type := mkSockets {
  sendto_of : string -> option exn;
  ws_send_of : nat -> string -> option exn
}.

(** What the other coroutines can do while the broadcast loop is
    suspended at an [await]: a turn of the receiver loop, a subscriber
    being registered (line 230), sending a frame or being discarded
    (line 240), and the two query endpoints. *)
Inductive act : Type :=
| ActReceive (r : option received)
| ActConnect (websocket : nat)
| ActMessage (websocket : nat) (message : received)
| ActDisconnect (websocket : nat)
| ActApiStatus
| ActApiCommand (body : received).

Definition perform_act (json_dumps py_str : pyval -> string)
    (io : sockets) (a : act) : M unit :=
  match a with
  | ActReceive r => receiver_turn r
  | ActConnect ws => handler_register ws
  | ActMessage ws message =>
      _handle_ws_message json_dumps py_str (sendto_of io) (ws_send_of io) ws message
  | ActDisconnect ws => handler_unregister ws
  | ActApiStatus => _api_status >> ret tt
  | ActApiCommand body => _api_command json_dumps py_str (sendto_of io) body >> ret tt
  end.

(** The server object after the other coroutines have run. *)
Definition interfere (json_dumps py_str : pyval -> string)
    (acts : list (sockets * act)) (s : SAMSIMServer) : SAMSIMServer :=
  fold_left
    (fun s' step => state_of (perform_act json_dumps py_str (fst step) (snd step) s'))
    acts s.

(** An [await] at which the coroutine is suspended: the others run on
    the same server object.  Their events are theirs and do not enter
    the trace of the suspended coroutine. *)
Definition suspended (json_dumps py_str : pyval -> string)
    (acts : list (sockets * act)) : M unit :=
  modify_self (interfere json_dumps py_str acts).

(** What the iterator of a set raises when the set has another size
    than when the iteration began. *)
Definition set_changed_size : exn :=
  RuntimeError "Set changed size during iteration".

Section BroadcastLoop.

Variable json_dumps : pyval -> string.
Variable py_str : pyval -> string.

(** [ws_send] says what each send does; [during client] is what the
    other coroutines do while the send to [client] is awaited. *)
Variable ws_send : nat -> string -> option exn.
Variable during : nat -> list (sockets * act).

(** [await client.send(message)] (line 359). *)
Definition awaited_send (client : nat) (message : string) : M unit :=
  suspended json_dumps py_str (during client) >> websocket_send ws_send client message.

(** The [for client in self.ws_clients] loop (lines 356-361), already
    holding the [dead_clients] collected so far.  The loop iterates
    over the set itself, not over a copy.  [table] lists the keys the
    iterator comes to, slot after slot of the set's hash table, each
    as it stands when the iterator is there; [used] is the size of the
    set when the iterator was made.  Each step of the iterator first
    compares the size of the set with [used] and raises [RuntimeError]
    when they differ; then it goes on to the next slot whose key is in
    the set at that time, and the iteration ends after the last
    slot. *)
Fixpoint send_to_clients (table : list nat) (used : nat) (message : string)
    (dead_clients : gset nat) : M (gset nat) :=
  let! s := get_self in
  if negb (Nat.eqb (size (ws_clients s)) used) then
    raise set_changed_size
  else
    match table with
    | [] => ret dead_clients
    | client :: rest =>
        if bool_decide (client ∈ ws_clients s) then
          let! dead_clients' :=
            try_except
              (awaited_send client message >> ret dead_clients)
              (fun _ => ret (dead_clients ∪ {[client]})) in
          send_to_clients rest used message dead_clients'
        else
          send_to_clients rest used message dead_clients
    end.

(** One turn of the [while] loop of [_broadcast_loop] (lines 326-364),
    without the final sleep. *)
Definition broadcast_tick (table : list nat) : M unit :=
  let! s := get_self in
  if bool_decide (ws_clients s ≠ ∅) then
    let! state := snapshot "update" in
    let! message := dumps json_dumps state in
    let! s1 := get_self in
    let! dead_clients := send_to_clients table (size (ws_clients s1)) message ∅ in
    modify_self (fun s2 => set_ws_clients (ws_clients s2 ∖ dead_clients) s2)
  else
    ret tt.

End BroadcastLoop.

(** One turn of the loop as the environment shapes it: what the sends
    do, the slots of the registry, what the other coroutines do during
    each send and during the sleep that ends the turn (line 366). *)
Record turn : Type := mkTurn {
  turn_ws_send : nat -> string -> option exn;
  turn_table : list nat;
  turn_during : nat -> list (sockets * act);
  turn_sleep : list (sockets * act)
}.

(** [_broadcast_loop] (lines 323-366) for as many turns as are given. *)
Fixpoint _broadcast_loop (json_dumps py_str : pyval -> string)
    (turns : list turn) : M unit :=
  match turns with
  | [] => ret tt
  | t :: rest =>
      let! s := get_self in
      if running s
      then
        broadcast_tick json_dumps py_str (turn_ws_send t) (turn_during t) (turn_table t) >>
        suspended json_dumps py_str (turn_sleep t) >>
        _broadcast_loop json_dumps py_str rest
      else ret tt
  end.

(** ** Notions used to state the properties *)

(** A [status] message as the interface describes it: a JSON object
    whose [type] is ["status"] and whose [sites], when present, is a
    JSON object of JSON objects. *)
Definition status_update (message : pyval) : bool :=
  match message with
  | PDict m =>
      eq_str (dict_get_or m (PStr "type") (PStr "")) "status" &&
      match dict_get m (PStr "sites") with
      | None => true
      | Some (PDict sd) => json_object sd && forallb (fun item => is_dict (snd item)) sd
      | Some _ => false
      end
  | _ => false
  end.

(** The entities a message names, with their payloads. *)
Definition sites_of (message : pyval) : list (pyval * pyval) :=
  match message with
  | PDict m =>
      match dict_get m (PStr "sites") with
      | Some (PDict sd) => sd
      | _ => []
      end
  | _ => []
  end.

(** What a payload says about a field: its value, or the default of the
    update when the payload omits it. *)
Definition reported (payload : pyval) (key : string) (default : pyval) : pyval :=
  match payload with
  | PDict p => dict_get_or p (PStr key) default
  | _ => default
  end.

(** The record holding exactly what a payload reports. *)
Definition record_of (sid payload : pyval) : SAMSiteState :=
  {| site_id := sid;
     system_state := reported payload "systemState" (PInt 0);
     radar_mode := reported payload "radarMode" (PInt 0);
     antenna_az := reported payload "antennaAz" (PInt 0);
     antenna_el := reported payload "antennaEl" (PInt 5);
     targets := reported payload "targets" (PList []);
     tracked_target := reported payload "tracked" PNone;
     track_quality := reported payload "trackQuality" (PInt 0);
     missiles_ready := reported payload "missilesReady" (PInt 6);
     missiles_in_flight := reported payload "missilesInFlight" (PInt 0);
     engagement_auth := reported payload "engAuth" (PBool false);
     auto_engage := reported payload "autoEng" (PBool false) |}.

(** The identifier a record carries after an update of key [k]: the one
    it had, or [k] for a record created by the update. *)
Definition site_id_after (d : list (pyval * SAMSiteState)) (k : pyval) : pyval :=
  match dict_get d k with
  | Some st => site_id st
  | None => k
  end.

(** One entity written into the mapping, and a whole [sites] object. *)
Definition upsert_site (d : list (pyval * SAMSiteState)) (k payload : pyval) :
    list (pyval * SAMSiteState) :=
  dict_set d k (record_of (site_id_after d k) payload).

Definition upsert_sites (sd : list (pyval * pyval)) (d : list (pyval * SAMSiteState)) :
    list (pyval * SAMSiteState) :=
  fold_left (fun acc item => upsert_site acc (fst item) (snd item)) sd d.

(** The entity of identifier [k] in a snapshot. *)
Definition entity_of (state : pyval) (k : pyval) : option pyval :=
  match state with
  | PDict d =>
      match dict_get d (PStr "sites") with
      | Some (PDict sd) => dict_get sd k
      | _ => None
      end
  | _ => None
  end.

(** The state a well-formed [status] message leaves. *)
Definition status_applied (message : pyval) (s : SAMSIMServer) : SAMSIMServer :=
  match message with
  | PDict m =>
      set_sites (upsert_sites (sites_of message) (sites s))
        (set_world_objects (dict_get_or m (PStr "worldObjects") (PList []))
           (set_paused (dict_get_or m (PStr "paused") (PBool false))
              (set_mission_time (dict_get_or m (PStr "time") (PInt 0))
                 (set_dcs_connected true s))))
  | _ => s
  end.

(** The entity of a snapshot that shows identifier [sid] and, for each
    of the eleven fields, what [payload] reports. *)
Definition reported_entity (sid payload : pyval) : pyval :=
  PDict [ (PStr "siteId", sid);
          (PStr "systemState", reported payload "systemState" (PInt 0));
          (PStr "radarMode", reported payload "radarMode" (PInt 0));
          (PStr "antennaAz", reported payload "antennaAz" (PInt 0));
          (PStr "antennaEl", reported payload "antennaEl" (PInt 5));
          (PStr "targets", reported payload "targets" (PList []));
          (PStr "tracked", reported payload "tracked" PNone);
          (PStr "trackQuality", reported payload "trackQuality" (PInt 0));
          (PStr "missilesReady", reported payload "missilesReady" (PInt 6));
          (PStr "missilesInFlight", reported payload "missilesInFlight" (PInt 0));
          (PStr "engAuth", reported payload "engAuth" (PBool false));
          (PStr "autoEng", reported payload "autoEng" (PBool false)) ].

(** Datagrams processed one after the other. *)
Definition process_all (datagrams : list received) : M unit :=
  for_each datagrams _process_dcs_data.

(** A datagram the core does not apply: bytes that do not decode, a
    JSON value that is not an object, or an object whose [type] is none
    of ["init"], ["shutdown"] and ["status"]. *)
Definition not_applied (data : received) : bool :=
  match loads data with
  | LoadsRaises _ => true
  | LoadsOk (PDict m) =>
      let msg_type := dict_get_or m (PStr "type") (PStr "") in
      negb (eq_str msg_type "init") && negb (eq_str msg_type "shutdown")
      && negb (eq_str msg_type "status")
  | LoadsOk _ => true
  end.

Definition is_log (e : event) : bool :=
  match e with
  | EvLog _ _ => true
  | _ => false
  end.

(** *** Concrete messages *)

Definition quoted (s : string) : string :=
  (String (Ascii.ascii_of_nat 34) s ++ String (Ascii.ascii_of_nat 34) "")%string.

(** The [status] datagram of the example: time 42, not paused, site
    [S1] with [systemState] 2 and [radarMode] 1. *)
Definition example_payload : pyval :=
  PDict [ (PStr "systemState", PInt 2); (PStr "radarMode", PInt 1) ].

Definition example_status : pyval :=
  PDict [ (PStr "type", PStr "status");
          (PStr "time", PInt 42);
          (PStr "paused", PBool false);
          (PStr "sites", PDict [ (PStr "S1", example_payload) ]) ].

Definition example_datagram : received :=
  {| raw := ("{" ++ quoted "type" ++ ":" ++ quoted "status" ++ ","
             ++ quoted "time" ++ ":42," ++ quoted "paused" ++ ":false,"
             ++ quoted "sites" ++ ":{" ++ quoted "S1" ++ ":{"
             ++ quoted "systemState" ++ ":2," ++ quoted "radarMode" ++ ":1}}}")%string;
     loads := LoadsOk example_status |}.

(** An earlier update of [S1] with every field set. *)
Definition earlier_status : pyval :=
  PDict [ (PStr "type", PStr "status");
          (PStr "time", PInt 7);
          (PStr "paused", PBool true);
          (PStr "worldObjects", PList [PStr "MiG-21"]);
          (PStr "sites",
           PDict [ (PStr "S1",
                    PDict [ (PStr "systemState", PInt 4);
                            (PStr "radarMode", PInt 3);
                            (PStr "antennaAz", PInt 90);
                            (PStr "antennaEl", PInt 30);
                            (PStr "targets", PList [PInt 1; PInt 2]);
                            (PStr "tracked", PDict [ (PStr "id", PInt 1) ]);
                            (PStr "trackQuality", PInt 80);
                            (PStr "missilesReady", PInt 2);
                            (PStr "missilesInFlight", PInt 1);
                            (PStr "engAuth", PBool true);
                            (PStr "autoEng", PBool true) ]) ]) ].

Definition earlier_datagram : received :=
  {| raw := "earlier status datagram"; loads := LoadsOk earlier_status |}.

Definition shutdown_datagram : received :=
  {| raw := ("{" ++ quoted "type" ++ ":" ++ quoted "shutdown" ++ "}")%string;
     loads := LoadsOk (PDict [ (PStr "type", PStr "shutdown") ]) |}.

Definition init_datagram : received :=
  {| raw := ("{" ++ quoted "type" ++ ":" ++ quoted "init" ++ "}")%string;
     loads := LoadsOk (PDict [ (PStr "type", PStr "init") ]) |}.

(** The state after the example datagram. *)
Definition example_state : SAMSIMServer :=
  state_of (_process_dcs_data example_datagram SAMSIMServer_init).

(** [b"not json"]. *)
Definition malformed_datagram : received :=
  {| raw := "not json";
     loads := LoadsRaises (JSONDecodeError "Expecting value: line 1 column 1 (char 0)") |}.

(** *** Reading the trace of a broadcast tick *)

(** Whether [await client.send(text)] raises. *)
Definition send_raises (ws_send : nat -> string -> option exn)
    (client : nat) (text : string) : bool :=
  match ws_send client text with
  | Some _ => true
  | None => false
  end.

(** One send per client, in the order of the iteration. *)
Definition send_events (ws_send : nat -> string -> option exn)
    (clients : list nat) (text : string) : list event :=
  map (fun c => EvWsSend c text (send_raises ws_send c text)) clients.

(** No other coroutine runs during the sends. *)
Definition quiet (client : nat) : list (sockets * act) := [].

(** The slots of [table] whose key is registered. *)
Definition live (s : SAMSIMServer) (table : list nat) : list nat :=
  List.filter (fun c => bool_decide (c ∈ ws_clients s)) table.

(** [dead_clients] at the end of the iteration. *)
Fixpoint collect_dead (ws_send : nat -> string -> option exn)
    (clients : list nat) (text : string) (dead_clients : gset nat) : gset nat :=
  match clients with
  | [] => dead_clients
  | c :: rest =>
      collect_dead ws_send rest text
        (if send_raises ws_send c text then dead_clients ∪ {[c]} else dead_clients)
  end.

Definition is_snapshot (e : event) : bool :=
  match e with
  | EvSnapshot _ => true
  | _ => false
  end.

Definition is_dumps (e : event) : bool :=
  match e with
  | EvDumps _ => true
  | _ => false
  end.

Definition is_ws_send (e : event) : bool :=
  match e with
  | EvWsSend _ _ _ => true
  | _ => false
  end.

Definition count_events (p : event -> bool) (t : list event) : nat :=
  length (List.filter p t).

(** *** A registry and oracles for the examples *)

(** Three subscribers on top of the example state. *)
Definition example_registry : SAMSIMServer :=
  set_ws_clients ({[ 1%nat ]} ∪ {[ 2%nat ]} ∪ {[ 3%nat ]}) example_state.

(** A serialiser for the examples: only the type of the value. *)
Definition example_dumps (v : pyval) : string := type_name v.

(** Subscriber 2 has gone away; the others accept every frame. *)
Definition example_ws_send (client : nat) (text : string) : option exn :=
  if Nat.eqb client 2 then Some (ConnectionClosed "no close frame received or sent")
  else None.

(** *** The server at work *)

(** What can happen to the server, one entry at a time: a datagram
    read by the receiver loop, a subscriber connecting, sending a frame
    or leaving, a broadcast tick (with the slots of the registry and
    what the other coroutines do during its sends), and the two query
    endpoints.  Each comes with what the two sockets do during it. *)
Inductive op : Type :=
| OpReceive (r : option received)
| OpConnect (websocket : nat)
| OpMessage (websocket : nat) (message : received)
| OpDisconnect (websocket : nat)
| OpBroadcast (table : list nat) (during : nat -> list (sockets * act))
| OpApiStatus
| OpApiCommand (body : received).

Definition perform (json_dumps py_str : pyval -> string)
    (io : sockets) (o : op) : M unit :=
  match o with
  | OpReceive r => receiver_turn r
  | OpConnect ws => handler_register ws
  | OpMessage ws message =>
      _handle_ws_message json_dumps py_str (sendto_of io) (ws_send_of io) ws message
  | OpDisconnect ws => handler_unregister ws
  | OpBroadcast table during =>
      broadcast_tick json_dumps py_str (ws_send_of io) during table
  | OpApiStatus => _api_status >> ret tt
  | OpApiCommand body => _api_command json_dumps py_str (sendto_of io) body >> ret tt
  end.

(** The state after a sequence of them. *)
Definition session (json_dumps py_str : pyval -> string)
    (ops : list (sockets * op)) (s : SAMSIMServer) : SAMSIMServer :=
  fold_left (fun s' step => state_of (perform json_dumps py_str (fst step) (snd step) s'))
    ops s.

(** A method body under which every key of [self.sites] stays. *)
Definition keeps_sites {A : Type} (m : M A) : Prop :=
  forall s k,
    dict_contains (sites s) k = true ->
    dict_contains (sites (state_of (m s))) k = true.

(** The events of [send_to_dcs]: the serialisation, the datagram, and
    the log entry for how the send went. *)
Definition sink_trace (json_dumps py_str : pyval -> string)
    (sendto : string -> option exn) (command : pyval) : list event :=
  EvDumps command ::
  match sendto (json_dumps command) with
  | None =>
      [ EvSendto (json_dumps command) false;
        EvLog DEBUG ("Sent to DCS: " ++ py_str command)%string ]
  | Some e =>
      [ EvSendto (json_dumps command) true;
        EvLog ERROR ("Failed to send to DCS: " ++ exn_str e)%string ]
  end.

(** The command [_handle_ws_message] builds for [init_site]. *)
Definition init_site_command (site_id group_name : pyval) : pyval :=
  PDict [ (PStr "cmd", PStr "init_site");
          (PStr "siteId", site_id);
          (PStr "params", PDict [ (PStr "groupName", group_name) ]) ].

(** The claim that a failed forward shows in the answer of the command
    endpoint. *)
Definition sink_failure_is_reported : Prop :=
  forall (json_dumps py_str : pyval -> string) (sendto : string -> option exn)
         (body : received) (command : pyval) (e : exn) (s : SAMSIMServer),
    loads body = LoadsOk command ->
    sendto (json_dumps command) = Some e ->
    exists msg,
      result_of (_api_command json_dumps py_str sendto body s)
      = Returned (PDict [ (PStr "success", PBool false); (PStr "error", PStr msg) ]).

(** *** More concrete inputs *)

(** A socket whose [sendto] raises, and one that sends. *)
Definition failing_sendto (data : string) : option exn :=
  Some (OSError "[Errno 101] Network is unreachable").

Definition working_sendto (data : string) : option exn := None.

Definition example_command : pyval :=
  PDict [ (PStr "cmd", PStr "power"); (PStr "siteId", PStr "S1") ].

Definition example_command_body : received :=
  {| raw := "power command for S1"; loads := LoadsOk example_command |}.

Definition example_init_site : list (pyval * pyval) :=
  [ (PStr "type", PStr "init_site");
    (PStr "siteId", PStr "S2");
    (PStr "groupName", PStr "SA2-North") ].

Definition example_init_site_frame : received :=
  {| raw := "init_site frame for S2"; loads := LoadsOk (PDict example_init_site) |}.

Definition example_init_site_again : list (pyval * pyval) :=
  [ (PStr "type", PStr "init_site");
    (PStr "siteId", PStr "S1");
    (PStr "groupName", PStr "SA2-South") ].

(** A later update that does not mention [S1]. *)
Definition other_status : pyval :=
  PDict [ (PStr "type", PStr "status");
          (PStr "time", PInt 43);
          (PStr "sites", PDict [ (PStr "S9", PDict []) ]) ].

Definition other_datagram : received :=
  {| raw := "status datagram for S9"; loads := LoadsOk other_status |}.

Definition example_sockets : sockets :=
  {| sendto_of := working_sendto; ws_send_of := example_ws_send |}.

(** *** What the other coroutines do during a tick *)

Definition is_receive (a : act) : bool :=
  match a with
  | ActReceive _ => true
  | _ => false
  end.

(** A subscriber being registered or discarded. *)
Definition is_registration (a : act) : bool :=
  match a with
  | ActConnect _ | ActDisconnect _ => true
  | _ => false
  end.

(** A datagram or a subscriber's frame: what can write the simulation
    state or the entity mapping. *)
Definition is_input (a : act) : bool :=
  match a with
  | ActReceive _ | ActMessage _ _ => true
  | _ => false
  end.

Definition none_of (p : act -> bool) (acts : list (sockets * act)) : Prop :=
  Forall (fun step => p (snd step) = false) acts.

(** A subscriber connects while the send to subscriber 1 is awaited. *)
Definition connect_during_first (client : nat) : list (sockets * act) :=
  match client with
  | 1%nat => [ (example_sockets, ActConnect 4%nat) ]
  | _ => []
  end.

(** The connection of subscriber 2 is closed: its send raises, and its
    handler leaves at line 240 while that send is awaited. *)
Definition disconnect_during_failed (client : nat) : list (sockets * act) :=
  match client with
  | 2%nat => [ (example_sockets, ActDisconnect 2%nat) ]
  | _ => []
  end.

Definition example_turn (during : nat -> list (sockets * act)) : turn :=
  {| turn_ws_send := example_ws_send;
     turn_table := [1%nat; 2%nat; 3%nat];
     turn_during := during;
     turn_sleep := [] |}.

(** No other coroutine runs during the awaits of the turn. *)
Definition quiet_turn (t : turn) : Prop :=
  (forall c, turn_during t c = []) /\ turn_sleep t = [].

(** No subscriber is registered or discarded during the sends of the
    turn. *)
Definition steady_turn (t : turn) : Prop :=
  forall c, none_of is_registration (turn_during t c).

(** Neither a datagram nor a subscriber's frame arrives during the
    awaits of the turn. *)
Definition idle_turn (t : turn) : Prop :=
  (forall c, none_of is_input (turn_during t c)) /\ none_of is_input (turn_sleep t).

(** The simulation state is as it was, and every record that was there
    still is. *)
Definition same_simulation (s s' : SAMSIMServer) : Prop :=
  dcs_connected s' = dcs_connected s /\
  mission_time s' = mission_time s /\
  paused s' = paused s /\
  world_objects s' = world_objects s /\
  (forall k st, dict_get (sites s) k = Some st -> dict_get (sites s') k = Some st).

(** A session: the example datagram; then an update without [S1], a
    shutdown, a subscriber and a tick. *)
Definition example_before : list (sockets * op) :=
  [ (example_sockets, OpReceive (Some example_datagram)) ].

Definition example_after : list (sockets * op) :=
  [ (example_sockets, OpReceive (Some other_datagram));
    (example_sockets, OpReceive (Some shutdown_datagram));
    (example_sockets, OpConnect 1%nat);
    (example_sockets, OpBroadcast [1%nat] quiet) ].

(** *** More of the server: the connection handler *)

(** [try: body finally: cleanup]: the cleanup runs however the body
    ended, and the body's exception goes on afterwards. *)
Definition try_finally {A : Type} (body : M A) (cleanup : M unit) : M A :=
  fun s =>
    match body s with
    | (r, s1, t1) =>
        match cleanup s1 with
        | (Returned _, s2, t2) => (r, s2, t1 ++ t2)
        | (Raised e, s2, t2) => (Raised e, s2, t1 ++ t2)
        end
    end.

(** The [handler] of [_run_websocket_server] (lines 228-241), run on
    its own: [frames] are the messages the [async for] yields and
    [ending] is the exception that ends the iteration, if one does;
    [client_addr] is the text of [websocket.remote_address]. *)
Definition handler (json_dumps py_str : pyval -> string)
    (sendto : string -> option exn) (ws_send : nat -> string -> option exn)
    (client_addr : string) (websocket : nat)
    (frames : list received) (ending : option exn) : M unit :=
  handler_register websocket >>
  log INFO ("WebSocket client connected: " ++ client_addr)%string >>
  try_finally
    (try_except
       (for_each frames (_handle_ws_message json_dumps py_str sendto ws_send websocket) >>
        match ending with
        | Some e => raise e
        | None => ret tt
        end)
       (fun e =>
          match e with
          | ConnectionClosed _ => ret tt
          | _ => raise e
          end))
    (handler_unregister websocket >>
     log INFO ("WebSocket client disconnected: " ++ client_addr)%string).

(** *** Notions for the further properties *)

(** A method body whose every run is related by [R] to where it
    started. *)
Definition respects (R : SAMSIMServer -> SAMSIMServer -> Prop)
    {A : Type} (m : M A) : Prop :=
  forall s, R s (state_of (m s)).

(** The second state is the first one but for [sites]. *)
Definition same_but_sites (s s' : SAMSIMServer) : Prop :=
  s' = set_sites (sites s') s.

(** The second state is the first one but for [ws_clients]. *)
Definition same_but_registry (s s' : SAMSIMServer) : Prop :=
  s' = set_ws_clients (ws_clients s') s.

(** What the ingestion path leaves alone. *)
Definition same_registry (s s' : SAMSIMServer) : Prop :=
  ws_clients s' = ws_clients s /\ running s' = running s
  /\ last_dcs_update s' = last_dcs_update s.

(** Every record carries its own key as [site_id]. *)
Definition ids_are_keys (d : list (pyval * SAMSiteState)) : Prop :=
  Forall (fun item => site_id (snd item) = fst item) d.

(** No key matches a key stored before it. *)
Fixpoint keys_distinct (ks : list pyval) : Prop :=
  match ks with
  | [] => True
  | k :: ks' => Forall (fun k' => key_eqb k k' = false) ks' /\ keys_distinct ks'
  end.

(** The entity mapping as a dictionary of records that name their own
    key. *)
Definition sites_wf (s : SAMSIMServer) : Prop :=
  ids_are_keys (sites s) /\ keys_distinct (dict_keys (sites s)).

(** [P] holds after if it held before. *)
Definition invariant_step (P : SAMSIMServer -> Prop) (s s' : SAMSIMServer) : Prop :=
  P s -> P s'.

(** The registry lost subscribers at most, and nothing else changed. *)
Definition registry_shrinks (s s' : SAMSIMServer) : Prop :=
  same_but_registry s s' /\ ws_clients s' ⊆ ws_clients s.


(** [if k not in d: d[k] = SAMSiteState(site_id=k)]. *)
Definition ensure_site (d : list (pyval * SAMSiteState)) (k : pyval) :
    list (pyval * SAMSiteState) :=
  if dict_contains d k then d else dict_set d k (SAMSiteState_new k).

(** The state once the four top-level assignments of the [status]
    branch are done. *)
Definition status_header (m : list (pyval * pyval)) (s : SAMSIMServer) : SAMSIMServer :=
  set_world_objects (dict_get_or m (PStr "worldObjects") (PList []))
    (set_paused (dict_get_or m (PStr "paused") (PBool false))
       (set_mission_time (dict_get_or m (PStr "time") (PInt 0))
          (set_dcs_connected true s))).

(** The connection flag a datagram asks for, if it asks for one. *)
Definition flag_of (data : received) : option bool :=
  match loads data with
  | LoadsOk (PDict m) =>
      let msg_type := dict_get_or m (PStr "type") (PStr "") in
      if eq_str msg_type "init" then Some true
      else if eq_str msg_type "shutdown" then Some false
      else if eq_str msg_type "status" then Some true
      else None
  | _ => None
  end.

Definition last_flag (datagrams : list received) (flag : bool) : bool :=
  fold_left (fun b data => match flag_of data with Some b' => b' | None => b end)
    datagrams flag.


(** The identifiers of [sd] that [d] does not have yet. *)
Definition new_keys {V W : Type} (sd : list (pyval * V)) (d : list (pyval * W)) : list pyval :=
  List.filter (fun k => negb (dict_contains d k)) (dict_keys sd).

(** The second state is the first one. *)
Definition unchanged (s s' : SAMSIMServer) : Prop := s' = s.

(** What no method assigns after [start]. *)
Definition same_run_flags (s s' : SAMSIMServer) : Prop :=
  running s' = running s /\ last_dcs_update s' = last_dcs_update s.

(** *** Messages for the further examples *)

(** A [status] message whose [sites] is a list. *)
Definition status_with_sites_list : list (pyval * pyval) :=
  [ (PStr "type", PStr "status");
    (PStr "time", PInt 50);
    (PStr "paused", PBool true);
    (PStr "sites", PList [PStr "S1"]) ].

Definition status_with_sites_list_datagram : received :=
  {| raw := "status datagram with a list of sites";
     loads := LoadsOk (PDict status_with_sites_list) |}.

(** A [status] message in which the payload of the second of three
    sites is a number. *)
Definition status_with_bad_payload : list (pyval * pyval) :=
  [ (PStr "type", PStr "status");
    (PStr "time", PInt 60);
    (PStr "sites",
     PDict [ (PStr "S1", PDict [ (PStr "systemState", PInt 3) ]);
             (PStr "S2", PInt 5);
             (PStr "S3", PDict [ (PStr "systemState", PInt 1) ]) ]) ].

Definition status_with_bad_payload_datagram : received :=
  {| raw := "status datagram with a number as payload";
     loads := LoadsOk (PDict status_with_bad_payload) |}.

(** *** Reading what a subscriber's frame causes *)

(** The acknowledgement of a command. *)
Definition ack_of (command : list (pyval * pyval)) : pyval :=
  PDict [ (PStr "type", PStr "ack");
          (PStr "command", dict_get_or command (PStr "cmd") PNone) ].

(** What the handlers of [_handle_ws_message] log for an exception
    (lines 285-288). *)
Definition frame_error_log (message : received) (e : exn) : event :=
  match e with
  | JSONDecodeError _ => EvLog WARNING ("Invalid JSON from WebSocket: " ++ raw message)%string
  | _ => EvLog ERROR ("Error handling WebSocket message: " ++ exn_str e)%string
  end.

(** What the handler of [_send_state_to_client] logs (line 321). *)
Definition state_error_log (e : exn) : event :=
  EvLog ERROR ("Failed to send state to client: " ++ exn_str e)%string.

(** The events of sending [v] to one websocket inside a [try] whose
    handler logs [on_error]: the serialisation, the send, and the log
    entry when the send raised. *)
Definition reply_trace (json_dumps : pyval -> string)
    (ws_send : nat -> string -> option exn)
    (websocket : nat) (v : pyval) (on_error : exn -> event) : list event :=
  EvDumps v ::
  match ws_send websocket (json_dumps v) with
  | None => [ EvWsSend websocket (json_dumps v) false ]
  | Some e => [ EvWsSend websocket (json_dumps v) true; on_error e ]
  end.

(** A frame that is none of the three the server knows: it does not
    decode, or is not an object, or has another [type]. *)
Definition not_handled (message : received) : bool :=
  match loads message with
  | LoadsRaises _ => true
  | LoadsOk (PDict d) =>
      let cmd_type := dict_get_or d (PStr "type") (PStr "") in
      negb (eq_str cmd_type "command") && negb (eq_str cmd_type "init_site")
      && negb (eq_str cmd_type "get_state")
  | LoadsOk _ => true
  end.

Definition is_sendto (e : event) : bool :=
  match e with
  | EvSendto _ _ => true
  | _ => false
  end.

(** *** Frames for the further examples *)

Definition command_frame : received :=
  {| raw := "command frame";
     loads := LoadsOk (PDict [ (PStr "type", PStr "command");
                               (PStr "command", example_command) ]) |}.

(** A command frame whose [command] is a string. *)
Definition text_command_frame : received :=
  {| raw := "command frame with a string";
     loads := LoadsOk (PDict [ (PStr "type", PStr "command");
                               (PStr "command", PStr "fire") ]) |}.

Definition get_state_frame : received :=
  {| raw := "get_state frame";
     loads := LoadsOk (PDict [ (PStr "type", PStr "get_state") ]) |}.

(** An [init_site] frame whose [siteId] is a list. *)
Definition init_site_list_frame : received :=
  {| raw := "init_site frame with a list";
     loads := LoadsOk (PDict [ (PStr "type", PStr "init_site");
                               (PStr "siteId", PList [PStr "S2"]) ]) |}.

(** An [init_site] frame without [siteId]. *)
Definition init_site_anonymous_frame : received :=
  {| raw := "init_site frame without siteId";
     loads := LoadsOk (PDict [ (PStr "type", PStr "init_site");
                               (PStr "groupName", PStr "SA2-North") ]) |}.

Definition malformed_frame : received :=
  {| raw := "{type:";
     loads := LoadsRaises (JSONDecodeError "Expecting property name enclosed in double quotes") |}.

(** ** Dictionaries *)

Lemma SFeqb_refl (f : spec_float) :
  SFeqb f f || (float_is_nan f && float_is_nan f) = true.
Proof.
  destruct f as [sg|sg| |sg m e]; try (destruct sg); try reflexivity;
    unfold SFeqb; simpl; rewrite Z.compare_refl, Pos.compare_cont_refl; reflexivity.
Qed.

Lemma key_eqb_refl (k : pyval) : hashable k = true -> key_eqb k k = true.
Proof.
  destruct k; simpl; intros H; try discriminate; try reflexivity.
  - apply Z.eqb_refl.
  - apply Z.eqb_refl.
  - apply SFeqb_refl.
  - apply String.eqb_refl.
Qed.

Lemma key_eqb_str_inv (k : pyval) (a : string) :
  key_eqb k (PStr a) = true -> k = PStr a.
Proof.
  destruct k; simpl; try discriminate.
  intros H. apply String.eqb_eq in H. congruence.
Qed.

Section DictFacts.
Context {V : Type}.
Implicit Types (d : list (pyval * V)) (k : pyval) (v : V).

Lemma dict_get_set_same d k v :
  key_eqb k k = true -> dict_get (dict_set d k v) k = Some v.
Proof.
  intros Hk. induction d as [|[k' v'] d IH]; simpl.
  - now rewrite Hk.
  - destruct (key_eqb k' k) eqn:E; simpl; rewrite E; auto.
Qed.

Lemma dict_set_set_same d k v v' :
  key_eqb k k = true -> dict_set (dict_set d k v) k v' = dict_set d k v'.
Proof.
  intros Hk. induction d as [|[k' w] d IH]; simpl.
  - now rewrite Hk.
  - destruct (key_eqb k' k) eqn:E; simpl; rewrite E; congruence.
Qed.

Lemma dict_contains_set d k k' v :
  dict_contains d k = true -> dict_contains (dict_set d k' v) k = true.
Proof.
  unfold dict_contains. induction d as [|[k0 v0] d IH]; simpl.
  - discriminate.
  - destruct (key_eqb k0 k') eqn:E; simpl; destruct (key_eqb k0 k); auto.
Qed.

Lemma dict_get_set_other_str d (a b : string) v :
  a <> b -> dict_get (dict_set d (PStr a) v) (PStr b) = dict_get d (PStr b).
Proof.
  intros Hab. induction d as [|[k0 v0] d IH]; simpl.
  - destruct (String.eqb a b) eqn:E; [apply String.eqb_eq in E; contradiction | reflexivity].
  - destruct (key_eqb k0 (PStr a)) eqn:Ea; simpl.
    + apply key_eqb_str_inv in Ea. subst k0. simpl.
      destruct (String.eqb a b) eqn:E; [apply String.eqb_eq in E; contradiction | reflexivity].
    + destruct (key_eqb k0 (PStr b)); auto.
Qed.

Lemma dict_get_None_contains d k :
  dict_get d k = None <-> dict_contains d k = false.
Proof. unfold dict_contains. destruct (dict_get d k); split; congruence. Qed.

End DictFacts.

Lemma dict_get_map {V W : Type} (f : V -> W) (d : list (pyval * V)) (k : pyval) :
  dict_get (map (fun '(k', x) => (k', f x)) d) k = option_map f (dict_get d k).
Proof.
  induction d as [|[k' x] d IH]; simpl; [reflexivity|].
  destruct (key_eqb k' k); auto.
Qed.

(** ** Running method bodies *)

Lemma bind_returned {A B : Type} (m : M A) (k : A -> M B) s a s1 :
  m s = (Returned a, s1, []) -> bind m k s = k a s1.
Proof. intros H. unfold bind. rewrite H. destruct (k a s1) as [[r s2] t2]. reflexivity. Qed.

Lemma set_sites_id s : set_sites (sites s) s = s.
Proof. destruct s; reflexivity. Qed.

Lemma set_sites_twice d d' s : set_sites d (set_sites d' s) = set_sites d s.
Proof. reflexivity. Qed.

Lemma dict_set_get_id {V : Type} (d : list (pyval * V)) k v :
  dict_get d k = Some v -> dict_set d k v = d.
Proof.
  induction d as [|[k' v'] d IH]; simpl; [discriminate|].
  destruct (key_eqb k' k); intros H; [congruence | rewrite IH; auto].
Qed.

Lemma site_assign_run k f D S st :
  key_eqb k k = true ->
  site_assign k f (set_sites (dict_set D k st) S)
  = (Returned tt, set_sites (dict_set D k (f st)) S, []).
Proof.
  intros Hk. unfold site_assign, modify_self. simpl.
  rewrite dict_get_set_same by assumption.
  rewrite dict_set_set_same by assumption. reflexivity.
Qed.

Lemma get_assign_run k (x : pyval) (f : pyval -> SAMSiteState -> SAMSiteState) D S st :
  key_eqb k k = true ->
  (let! v := ret x in site_assign k (f v)) (set_sites (dict_set D k st) S)
  = (Returned tt, set_sites (dict_set D k (f x st)) S, []).
Proof.
  intros Hk. erewrite bind_returned by reflexivity. now apply site_assign_run.
Qed.

Lemma update_site_fields k p D S st :
  hashable k = true ->
  update_site k (PDict p) (set_sites (dict_set D k st) S)
  = (Returned tt, set_sites (dict_set D k (record_of (site_id st) (PDict p))) S, []).
Proof.
  intros Hh. pose proof (key_eqb_refl k Hh) as Hk.
  unfold update_site.
  erewrite bind_returned; cycle 1.
  { unfold sites_contains. rewrite Hh. unfold bind, get_self, ret. simpl. reflexivity. }
  unfold dict_contains. rewrite dict_get_set_same by assumption. simpl.
  erewrite bind_returned by reflexivity.
  erewrite bind_returned; cycle 1.
  { unfold sites_getitem. rewrite Hh. unfold bind, get_self. simpl.
    rewrite dict_get_set_same by assumption. reflexivity. }
  unfold py_get.
  do 10 (erewrite bind_returned by (apply get_assign_run; assumption)).
  rewrite get_assign_run by assumption.
  destruct st; reflexivity.
Qed.

Lemma update_site_dict k p s :
  hashable k = true ->
  update_site k (PDict p) s
  = (Returned tt, set_sites (upsert_site (sites s) k (PDict p)) s, []).
Proof.
  intros Hh. pose proof (key_eqb_refl k Hh) as Hk.
  unfold upsert_site, site_id_after.
  destruct (dict_get (sites s) k) as [st|] eqn:E.
  - rewrite <- (set_sites_id s) at 1. rewrite <- (dict_set_get_id (sites s) k st E) at 1.
    now apply update_site_fields.
  - unfold update_site.
    erewrite bind_returned; cycle 1.
    { unfold sites_contains. rewrite Hh. unfold bind, get_self, ret. simpl. reflexivity. }
    unfold dict_contains. rewrite E. simpl.
    erewrite bind_returned; cycle 1.
    { unfold sites_setitem. rewrite Hh. reflexivity. }
    pose proof (update_site_fields k p (sites s) s (SAMSiteState_new k) Hh) as H.
    unfold update_site in H.
    erewrite bind_returned in H; cycle 1.
    { unfold sites_contains. rewrite Hh. unfold bind, get_self, ret. simpl. reflexivity. }
    unfold dict_contains in H. rewrite dict_get_set_same in H by assumption. simpl in H.
    erewrite bind_returned in H by reflexivity.
    exact H.
Qed.

(** A payload that is not an object: the record exists (created with
    the defaults when new), and the update stops on [AttributeError]. *)
Lemma update_site_not_dict k v s :
  hashable k = true -> is_dict v = false ->
  update_site k v s
  = (Raised (no_attribute v "get"),
     (if dict_contains (sites s) k then s
      else set_sites (dict_set (sites s) k (SAMSiteState_new k)) s), []).
Proof.
  intros Hh Hv. pose proof (key_eqb_refl k Hh) as Hk.
  unfold update_site.
  erewrite bind_returned; cycle 1.
  { unfold sites_contains. rewrite Hh. unfold bind, get_self, ret. simpl. reflexivity. }
  destruct (dict_contains (sites s) k) eqn:E; simpl.
  - erewrite bind_returned by reflexivity.
    unfold dict_contains in E. destruct (dict_get (sites s) k) as [st|] eqn:G; [|discriminate].
    erewrite bind_returned; cycle 1.
    { unfold sites_getitem. rewrite Hh. unfold bind, get_self. simpl. rewrite G. reflexivity. }
    destruct v; try discriminate; reflexivity.
  - erewrite bind_returned; cycle 1.
    { unfold sites_setitem. rewrite Hh. reflexivity. }
    erewrite bind_returned; cycle 1.
    { unfold sites_getitem. rewrite Hh. unfold bind, get_self. simpl.
      rewrite dict_get_set_same by assumption. reflexivity. }
    destruct v; try discriminate; reflexivity.
Qed.

Lemma for_each_update_site sd s :
  json_object sd = true ->
  forallb (fun item => is_dict (snd item)) sd = true ->
  for_each sd (fun item => update_site (fst item) (snd item)) s
  = (Returned tt, set_sites (upsert_sites sd (sites s)) s, []).
Proof.
  revert s. induction sd as [|[k v] sd IH]; intros s Hj Hd; simpl.
  - now rewrite set_sites_id.
  - destruct k; try discriminate. simpl in Hj, Hd.
    apply andb_prop in Hj as [_ Hj]. apply andb_prop in Hd as [Hv Hd].
    destruct v; try discriminate.
    erewrite bind_returned by (now apply update_site_dict).
    rewrite IH by assumption. reflexivity.
Qed.

Lemma json_object_In {V : Type} (sd : list (pyval * V)) k v :
  json_object sd = true -> In (k, v) sd ->
  exists a, k = PStr a /\ dict_contains sd (PStr a) = true.
Proof.
  induction sd as [|[k0 v0] sd IH]; simpl; [tauto|].
  destruct k0; try discriminate. intros Hj [E|Hin].
  - inversion E; subst. exists s. split; [reflexivity|].
    unfold dict_contains. simpl. now rewrite String.eqb_refl.
  - apply andb_prop in Hj as [_ Hj]. destruct (IH Hj Hin) as (a & -> & Ha).
    exists a. split; [reflexivity|]. unfold dict_contains in *. simpl.
    destruct (String.eqb s a); [reflexivity | assumption].
Qed.

Lemma upsert_sites_other sd d (a : string) :
  json_object sd = true -> dict_contains sd (PStr a) = false ->
  dict_get (upsert_sites sd d) (PStr a) = dict_get d (PStr a).
Proof.
  revert d. induction sd as [|[k v] sd IH]; intros d Hj Hc; simpl; [reflexivity|].
  destruct k; try discriminate. simpl in Hj. apply andb_prop in Hj as [_ Hj].
  unfold dict_contains in Hc. simpl in Hc.
  destruct (String.eqb s a) eqn:E; [discriminate|].
  unfold upsert_sites in IH. rewrite IH by assumption.
  unfold upsert_site. simpl. apply dict_get_set_other_str.
  intros ->. now rewrite String.eqb_refl in E.
Qed.

Lemma upsert_sites_lookup sd d k payload :
  json_object sd = true -> In (k, payload) sd ->
  dict_get (upsert_sites sd d) k = Some (record_of (site_id_after d k) payload).
Proof.
  revert d. induction sd as [|[k0 v0] sd IH]; intros d Hj Hin; simpl; [destruct Hin|].
  pose proof Hj as Hj0.
  destruct k0; try discriminate. simpl in Hj. apply andb_prop in Hj as [Hn Hj].
  apply negb_true_iff in Hn.
  destruct Hin as [E|Hin].
  - inversion E; subst. fold (upsert_sites sd (upsert_site d (PStr s) payload)).
    rewrite upsert_sites_other by assumption.
    unfold upsert_site. apply dict_get_set_same. simpl. apply String.eqb_refl.
  - fold (upsert_sites sd (upsert_site d (PStr s) v0)).
    rewrite (IH _ Hj Hin). do 2 f_equal.
    destruct (json_object_In sd k payload Hj Hin) as (a & -> & Ha).
    unfold site_id_after, upsert_site.
    rewrite dict_get_set_other_str; [reflexivity|].
    intros ->. congruence.
Qed.

Lemma apply_status_run m s :
  status_update (PDict m) = true ->
  apply_status (PDict m) s = (Returned tt, status_applied (PDict m) s, []).
Proof.
  intros H. simpl in H. apply andb_prop in H as [_ H].
  unfold apply_status, status_applied, sites_of.
  erewrite bind_returned by reflexivity.
  unfold py_get.
  do 3 (erewrite bind_returned by (erewrite bind_returned by reflexivity; reflexivity)).
  erewrite bind_returned by reflexivity.
  unfold dict_get_or at 1.
  destruct (dict_get m (PStr "sites")) as [sd|] eqn:E.
  - destruct sd; try discriminate. apply andb_prop in H as [Hj Hd].
    erewrite bind_returned by reflexivity.
    rewrite for_each_update_site by assumption. reflexivity.
  - erewrite bind_returned by reflexivity. reflexivity.
Qed.

Lemma eq_str_true v (a : string) : eq_str v a = true -> v = PStr a.
Proof.
  destruct v; simpl; try discriminate. intros H. apply String.eqb_eq in H. congruence.
Qed.

Lemma process_status_update data message s :
  loads data = LoadsOk message -> status_update message = true ->
  _process_dcs_data data s = (Returned tt, status_applied message s, []).
Proof.
  intros Hl Hs. destruct message as [| | | | | |m]; try discriminate.
  pose proof Hs as Hs'. simpl in Hs'. apply andb_prop in Hs' as [Ht _].
  apply eq_str_true in Ht.
  unfold _process_dcs_data, try_except.
  erewrite bind_returned; cycle 1.
  { unfold json_loads. rewrite Hl. reflexivity. }
  erewrite bind_returned by reflexivity.
  rewrite Ht. simpl. now rewrite apply_status_run.
Qed.

(** [_process_dcs_data] never raises: both handlers only log. *)
Lemma process_returns data s :
  result_of (_process_dcs_data data s) = Returned tt.
Proof.
  unfold _process_dcs_data, try_except, result_of.
  match goal with |- context [match ?b s with _ => _ end] => destruct (b s) as [[[[]|e] s1] t1] end.
  - reflexivity.
  - destruct e; reflexivity.
Qed.

Lemma for_each_app_returns {A : Type} (f : A -> M unit) (xs : list A) (x : A) s :
  (forall y s', result_of (f y s') = Returned tt) ->
  state_of (for_each (xs ++ [x]) f s) = state_of (f x (state_of (for_each xs f s))) /\
  result_of (for_each (xs ++ [x]) f s) = Returned tt.
Proof.
  intros Hf. revert s. induction xs as [|y xs IH]; intros s; simpl.
  - unfold bind, ret, state_of, result_of. simpl.
    specialize (Hf x s). unfold result_of in Hf.
    destruct (f x s) as [[r s1] t1]. simpl in *. subst r. simpl. auto.
  - unfold bind. specialize (Hf y s). unfold result_of in Hf.
    destruct (f y s) as [[r s1] t1]. simpl in Hf. subst r.
    specialize (IH s1). unfold state_of, result_of in *.
    destruct (for_each (xs ++ [x]) f s1) as [[r2 s2] t2].
    destruct (for_each xs f s1) as [[r3 s3] t3]. simpl in *. exact IH.
Qed.

Lemma entity_of_state_dict ty s k :
  entity_of (state_dict ty s) k = option_map site_dict (dict_get (sites s) k).
Proof. unfold entity_of, state_dict, sites_dict. simpl. apply dict_get_map. Qed.

(** C1.  Whatever datagrams came before and whatever the state was, a
    snapshot taken after a [status] update shows, for every entity the
    update names, exactly what the update reports for each of the
    eleven fields (the default of the update where the payload omits
    the field): the last update wins and nothing of the earlier record
    is merged in. *)
Theorem last_status_update_wins
    (history : list received) (last : received) (message : pyval)
    (s : SAMSIMServer) (ty : string) (k payload : pyval) :
  loads last = LoadsOk message ->
  status_update message = true ->
  In (k, payload) (sites_of message) ->
  let before := state_of (process_all history s) in
  let after := state_of (process_all (history ++ [last]) s) in
  result_of (snapshot ty after) = Returned (state_dict ty after) /\
  entity_of (state_dict ty after) k
  = Some (reported_entity (site_id_after (sites before) k) payload).
Proof.
  intros Hl Hs Hin before after. split; [reflexivity|].
  subst before after. unfold process_all.
  destruct (for_each_app_returns _process_dcs_data history last s process_returns) as [-> _].
  rewrite (process_status_update _ _ _ Hl Hs). unfold state_of at 1. simpl fst. simpl snd.
  rewrite entity_of_state_dict.
  destruct message as [| | | | | |m]; try discriminate.
  unfold status_applied. simpl sites.
  assert (Hj : json_object (sites_of (PDict m)) = true).
  { simpl in Hs. apply andb_prop in Hs as [_ Hs]. unfold sites_of.
    destruct (dict_get m (PStr "sites")) as [[]|]; try reflexivity.
    now apply andb_prop in Hs as [Hj _]. }
  rewrite (upsert_sites_lookup _ _ _ _ Hj Hin). reflexivity.
Qed.

(** The witness of C1: site [S1] first reported with every field set,
    then by the example datagram, which only gives two fields. *)
Lemma last_status_update_wins_witness :
  loads example_datagram = LoadsOk example_status /\
  status_update example_status = true /\
  In (PStr "S1", example_payload) (sites_of example_status) /\
  entity_of
    (state_dict "update"
       (state_of (process_all ([earlier_datagram] ++ [example_datagram]) SAMSIMServer_init)))
    (PStr "S1")
  = Some (reported_entity (PStr "S1") example_payload).
Proof.
  split; [reflexivity|]. split; [reflexivity|]. split; [simpl; auto|].
  apply (last_status_update_wins [earlier_datagram] example_datagram example_status
           SAMSIMServer_init "update" (PStr "S1") example_payload);
    [reflexivity | reflexivity | simpl; auto].
Defined.

(** C10.  After a [status] update, a field that the payload of an
    entity omits holds the fixed default of the update, whatever the
    record held before. *)
Theorem omitted_fields_take_defaults
    (data : received) (message : pyval) (s : SAMSIMServer)
    (k : pyval) (p : list (pyval * pyval)) :
  loads data = LoadsOk message ->
  status_update message = true ->
  In (k, PDict p) (sites_of message) ->
  exists st,
    dict_get (sites (state_of (_process_dcs_data data s))) k = Some st /\
    (dict_get p (PStr "systemState") = None -> system_state st = PInt 0) /\
    (dict_get p (PStr "radarMode") = None -> radar_mode st = PInt 0) /\
    (dict_get p (PStr "antennaAz") = None -> antenna_az st = PInt 0) /\
    (dict_get p (PStr "antennaEl") = None -> antenna_el st = PInt 5) /\
    (dict_get p (PStr "targets") = None -> targets st = PList []) /\
    (dict_get p (PStr "tracked") = None -> tracked_target st = PNone) /\
    (dict_get p (PStr "trackQuality") = None -> track_quality st = PInt 0) /\
    (dict_get p (PStr "missilesReady") = None -> missiles_ready st = PInt 6) /\
    (dict_get p (PStr "missilesInFlight") = None -> missiles_in_flight st = PInt 0) /\
    (dict_get p (PStr "engAuth") = None -> engagement_auth st = PBool false) /\
    (dict_get p (PStr "autoEng") = None -> auto_engage st = PBool false).
Proof.
  intros Hl Hs Hin.
  rewrite (process_status_update _ _ _ Hl Hs). unfold state_of. simpl fst. simpl snd.
  destruct message as [| | | | | |m]; try discriminate.
  assert (Hj : json_object (sites_of (PDict m)) = true).
  { simpl in Hs. apply andb_prop in Hs as [_ Hs]. unfold sites_of.
    destruct (dict_get m (PStr "sites")) as [[]|]; try reflexivity.
    now apply andb_prop in Hs as [Hj _]. }
  unfold status_applied. simpl sites.
  rewrite (upsert_sites_lookup _ _ _ _ Hj Hin).
  eexists. split; [reflexivity|].
  unfold record_of, reported, dict_get_or. simpl.
  repeat split; intros ->; reflexivity.
Qed.

Lemma omitted_fields_take_defaults_witness :
  loads example_datagram = LoadsOk example_status /\
  status_update example_status = true /\
  In (PStr "S1", example_payload) (sites_of example_status) /\
  exists st,
    dict_get
      (sites (state_of (_process_dcs_data example_datagram
                          (state_of (_process_dcs_data earlier_datagram SAMSIMServer_init)))))
      (PStr "S1") = Some st /\
    antenna_az st = PInt 0 /\ antenna_el st = PInt 5 /\ targets st = PList [] /\
    tracked_target st = PNone /\ track_quality st = PInt 0 /\
    missiles_ready st = PInt 6 /\ missiles_in_flight st = PInt 0 /\
    engagement_auth st = PBool false /\ auto_engage st = PBool false.
Proof.
  split; [reflexivity|]. split; [reflexivity|]. split; [simpl; auto|].
  destruct (omitted_fields_take_defaults example_datagram example_status
              (state_of (_process_dcs_data earlier_datagram SAMSIMServer_init))
              (PStr "S1")
              [ (PStr "systemState", PInt 2); (PStr "radarMode", PInt 1) ])
    as (st & Hst & _ & _ & Haz & Hel & Htg & Htr & Htq & Hmr & Hmf & Hea & Hae);
    [reflexivity | reflexivity | simpl; auto |].
  exists st. split; [exact Hst|].
  repeat split; auto.
Defined.

Lemma process_init data m s :
  loads data = LoadsOk (PDict m) ->
  dict_get m (PStr "type") = Some (PStr "init") ->
  _process_dcs_data data s
  = (Returned tt, set_dcs_connected true s, [EvLog INFO "DCS connected"]).
Proof.
  intros Hl Ht. unfold _process_dcs_data, try_except, bind, json_loads, py_get, dict_get_or.
  rewrite Hl. simpl. rewrite Ht. reflexivity.
Qed.

Lemma process_shutdown data m s :
  loads data = LoadsOk (PDict m) ->
  dict_get m (PStr "type") = Some (PStr "shutdown") ->
  _process_dcs_data data s
  = (Returned tt, set_dcs_connected false s, [EvLog INFO "DCS disconnected"]).
Proof.
  intros Hl Ht. unfold _process_dcs_data, try_except, bind, json_loads, py_get, dict_get_or.
  rewrite Hl. simpl. rewrite Ht. reflexivity.
Qed.

(** C7.  [shutdown] then [init], with no [status] between them: each of
    the two only assigns the connection flag, so the flag ends true and
    the entity mapping, the world objects, the mission clock and the
    pause flag are what they were. *)
Theorem shutdown_then_init_keeps_data
    (s : SAMSIMServer) (d1 d2 : received) (m1 m2 : list (pyval * pyval)) :
  loads d1 = LoadsOk (PDict m1) ->
  dict_get m1 (PStr "type") = Some (PStr "shutdown") ->
  loads d2 = LoadsOk (PDict m2) ->
  dict_get m2 (PStr "type") = Some (PStr "init") ->
  let s2 := state_of (process_all [d1; d2] s) in
  state_of (_process_dcs_data d1 s) = set_dcs_connected false s /\
  (forall s', state_of (_process_dcs_data d2 s') = set_dcs_connected true s') /\
  s2 = set_dcs_connected true s /\
  dcs_connected s2 = true /\
  sites s2 = sites s /\
  world_objects s2 = world_objects s /\
  mission_time s2 = mission_time s /\
  paused s2 = paused s.
Proof.
  intros Hl1 Ht1 Hl2 Ht2 s2.
  assert (E : s2 = set_dcs_connected true s).
  { subst s2. unfold process_all. simpl. unfold bind.
    rewrite (process_shutdown _ _ _ Hl1 Ht1), (process_init _ _ _ Hl2 Ht2).
    reflexivity. }
  split; [now rewrite (process_shutdown _ _ _ Hl1 Ht1)|].
  split; [intros s'; now rewrite (process_init _ _ _ Hl2 Ht2)|].
  rewrite E. repeat split.
Qed.

Lemma shutdown_then_init_keeps_data_witness :
  let s := state_of (_process_dcs_data example_datagram SAMSIMServer_init) in
  let s2 := state_of (process_all [shutdown_datagram; init_datagram] s) in
  dict_get [ (PStr "type", PStr "shutdown") ] (PStr "type") = Some (PStr "shutdown") /\
  dict_get [ (PStr "type", PStr "init") ] (PStr "type") = Some (PStr "init") /\
  dcs_connected s2 = true /\ sites s2 = sites s /\ world_objects s2 = world_objects s /\
  mission_time s2 = mission_time s /\ paused s2 = paused s.
Proof.
  intros s s2. split; [reflexivity|]. split; [reflexivity|].
  apply (shutdown_then_init_keeps_data s shutdown_datagram init_datagram
           [ (PStr "type", PStr "shutdown") ] [ (PStr "type", PStr "init") ]);
    reflexivity.
Defined.

Lemma process_not_applied data s :
  not_applied data = true ->
  exists t, _process_dcs_data data s = (Returned tt, s, t) /\ forallb is_log t = true.
Proof.
  unfold not_applied, _process_dcs_data, try_except, bind, json_loads.
  destruct (loads data) as [v|e]; simpl.
  - destruct v; simpl; intros H; try (eexists; split; reflexivity).
    apply andb_prop in H as [H H3]. apply andb_prop in H as [H1 H2].
    apply negb_true_iff in H1, H2, H3. unfold py_get. simpl.
    rewrite H1, H2, H3.
    destruct (eq_str (dict_get_or d (PStr "type") (PStr "")) "response");
      eexists; split; reflexivity.
  - intros _. destruct e; eexists; split; reflexivity.
Qed.

Lemma receiver_turn_returns r s :
  result_of (receiver_turn r s) = Returned tt.
Proof.
  unfold receiver_turn, try_except, result_of.
  destruct r as [data|]; [|reflexivity].
  destruct (negb (raw data =? "")%string); [|reflexivity].
  pose proof (process_returns data s) as H. unfold result_of in H.
  destruct (_process_dcs_data data s) as [[r s1] t1]. simpl in H. now subst r.
Qed.

Lemma receiver_turn_not_applied data s :
  not_applied data = true ->
  exists t, receiver_turn (Some data) s = (Returned tt, s, t).
Proof.
  intros H. destruct (process_not_applied data s H) as (t & Hp & _).
  unfold receiver_turn, try_except.
  destruct (negb (raw data =? "")%string); [|eexists; reflexivity].
  rewrite Hp. eexists; reflexivity.
Qed.

(** The receiver loop runs through all it is given and returns. *)
Lemma run_udp_receiver_returns received_data s :
  result_of (_run_udp_receiver received_data s) = Returned tt.
Proof.
  revert s. induction received_data as [|r rest IH]; intros s; [reflexivity|].
  simpl. unfold bind, get_self. simpl. destruct (running s); [|reflexivity].
  pose proof (receiver_turn_returns r s) as H. unfold result_of in H.
  destruct (receiver_turn r s) as [[r1 s1] t1]. simpl in H. subst r1.
  specialize (IH s1). unfold result_of in *.
  destruct (_run_udp_receiver rest s1) as [[r2 s2] t2]. exact IH.
Qed.

(** C4.  A datagram that does not decode, and a message whose type is
    not [init], [shutdown] or [status], leave the whole server object
    as it was; processing returns (with log entries only), and the
    receiver loop goes on with the datagrams that follow, from the same
    state. *)
Theorem unrecognised_datagram_changes_nothing
    (data : received) (s : SAMSIMServer) :
  not_applied data = true ->
  (exists t, _process_dcs_data data s = (Returned tt, s, t) /\ forallb is_log t = true) /\
  (forall rest,
      state_of (_run_udp_receiver (Some data :: rest) s)
      = state_of (_run_udp_receiver rest s) /\
      result_of (_run_udp_receiver (Some data :: rest) s) = Returned tt).
Proof.
  intros H. split; [now apply process_not_applied|].
  intros rest. split; [|apply run_udp_receiver_returns].
  destruct (receiver_turn_not_applied data s H) as (t & Ht).
  change (_run_udp_receiver (Some data :: rest))
    with (let! s0 := get_self in
          if running s0
          then receiver_turn (Some data) >> _run_udp_receiver rest
          else ret tt).
  unfold bind at 1. unfold get_self. simpl.
  destruct (running s) eqn:Hr.
  - unfold bind. rewrite Ht. unfold state_of.
    destruct (_run_udp_receiver rest s) as [[r1 s1] t1]. reflexivity.
  - destruct rest as [|r rest]; [reflexivity|].
    simpl. unfold bind, get_self. simpl. now rewrite Hr.
Qed.

Lemma unrecognised_datagram_changes_nothing_witness :
  not_applied malformed_datagram = true /\
  state_of (_process_dcs_data malformed_datagram example_state) = example_state /\
  state_of (_run_udp_receiver [Some malformed_datagram; Some shutdown_datagram]
              (set_running true example_state))
  = set_dcs_connected false (set_running true example_state).
Proof.
  split; [reflexivity|].
  pose proof (unrecognised_datagram_changes_nothing malformed_datagram example_state eq_refl)
    as [(t & Hp & _) _].
  pose proof (unrecognised_datagram_changes_nothing malformed_datagram
                (set_running true example_state) eq_refl) as [_ Hloop].
  split.
  - rewrite Hp. reflexivity.
  - rewrite (proj1 (Hloop [Some shutdown_datagram])). reflexivity.
Defined.

(** ** The broadcast tick *)

Lemma count_events_app p (t1 t2 : list event) :
  count_events p (t1 ++ t2) = (count_events p t1 + count_events p t2)%nat.
Proof. unfold count_events. now rewrite List.filter_app, length_app. Qed.

Lemma elem_of_collect_dead ws_send clients message dead_clients x :
  x ∈ collect_dead ws_send clients message dead_clients
  <-> x ∈ dead_clients \/ (x ∈ clients /\ send_raises ws_send x message = true).
Proof.
  revert dead_clients. induction clients as [|c rest IH]; intros dead; simpl.
  - set_solver.
  - rewrite IH. destruct (send_raises ws_send c message) eqn:E.
    + set_solver.
    + split; [set_solver|]. intros [H|[H1 H2]]; [auto|].
      apply elem_of_cons in H1 as [->|H1]; [congruence | auto].
Qed.

Lemma count_send_events ws_send p clients text :
  (forall c b, p (EvWsSend c text b) = true) ->
  count_events p (send_events ws_send clients text) = length clients.
Proof.
  intros Hp. unfold count_events, send_events.
  induction clients as [|c rest IH]; simpl; [reflexivity|].
  rewrite Hp. simpl. now rewrite IH.
Qed.

Lemma count_send_events_none ws_send p clients text :
  (forall c b, p (EvWsSend c text b) = false) ->
  count_events p (send_events ws_send clients text) = 0%nat.
Proof.
  intros Hp. unfold count_events, send_events.
  induction clients as [|c rest IH]; simpl; [reflexivity|].
  now rewrite Hp.
Qed.

Lemma In_send_events ws_send e clients text :
  In e (send_events ws_send clients text)
  <-> exists c, e = EvWsSend c text (send_raises ws_send c text) /\ c ∈ clients.
Proof.
  unfold send_events. rewrite in_map_iff. split.
  - intros (c & <- & Hc). exists c. split; [reflexivity|]. now apply list_elem_of_In.
  - intros (c & -> & Hc). exists c. split; [reflexivity|]. now apply list_elem_of_In.
Qed.

Section Broadcast.
Variable json_dumps : pyval -> string.
Variable py_str : pyval -> string.
Variable ws_send : nat -> string -> option exn.
Variable during : nat -> list (sockets * act).

(** One step of the iterator: the size check, then the next slot; the
    other coroutines run before the send to a registered client is
    over. *)
Lemma send_to_clients_step table used message dead_clients s :
  send_to_clients json_dumps py_str ws_send during table used message dead_clients s
  = if negb (Nat.eqb (size (ws_clients s)) used)
    then (Raised set_changed_size, s, [])
    else
      match table with
      | [] => (Returned dead_clients, s, [])
      | client :: rest =>
          if bool_decide (client ∈ ws_clients s) then
            match
              send_to_clients json_dumps py_str ws_send during rest used message
                (if send_raises ws_send client message
                 then dead_clients ∪ {[client]} else dead_clients)
                (interfere json_dumps py_str (during client) s)
            with
            | (r, s', t) =>
                (r, s', EvWsSend client message (send_raises ws_send client message) :: t)
            end
          else
            send_to_clients json_dumps py_str ws_send during rest used message
              dead_clients s
      end.
Proof.
  destruct table as [|client rest]; simpl; unfold bind at 1; unfold get_self;
    destruct (negb (Nat.eqb (size (ws_clients s)) used)); try reflexivity.
  destruct (bool_decide (client ∈ ws_clients s)).
  - unfold bind at 1. unfold try_except, awaited_send, suspended, websocket_send, send_raises.
    unfold bind at 2 3. unfold modify_self.
    destruct (ws_send client message) as [e|]; simpl;
      destruct (send_to_clients json_dumps py_str ws_send during rest used message _ _)
        as [[r s'] t]; reflexivity.
  - destruct (send_to_clients json_dumps py_str ws_send during rest used message
                dead_clients s) as [[r s'] t].
    reflexivity.
Qed.

Lemma broadcast_tick_idle table s :
  ws_clients s = ∅ ->
  broadcast_tick json_dumps py_str ws_send during table s = (Returned tt, s, []).
Proof.
  intros He. unfold broadcast_tick.
  erewrite bind_returned by reflexivity.
  rewrite bool_decide_eq_false_2; [reflexivity|]. intros H. contradiction.
Qed.

(** A tick with subscribers: the snapshot, its serialisation, then the
    iteration; the registry loses the dead clients when the iteration
    came to its end. *)
Lemma broadcast_tick_busy table s :
  ws_clients s <> ∅ ->
  let state := state_dict "update" s in
  broadcast_tick json_dumps py_str ws_send during table s
  = match
      send_to_clients json_dumps py_str ws_send during table (size (ws_clients s))
        (json_dumps state) ∅ s
    with
    | (Returned dead_clients, s', t) =>
        (Returned tt, set_ws_clients (ws_clients s' ∖ dead_clients) s',
         EvSnapshot state :: EvDumps state :: t)
    | (Raised e, s', t) => (Raised e, s', EvSnapshot state :: EvDumps state :: t)
    end.
Proof.
  intros Hne state. unfold broadcast_tick.
  erewrite bind_returned by reflexivity.
  rewrite bool_decide_eq_true_2 by assumption.
  unfold bind at 1. unfold snapshot. unfold bind at 1 2. simpl.
  unfold bind at 1. unfold dumps. unfold bind at 1. simpl.
  unfold bind at 1. simpl. unfold bind. fold state.
  destruct (send_to_clients json_dumps py_str ws_send during table (size (ws_clients s))
              (json_dumps state) ∅ s) as [[[dead|e] s'] t]; simpl.
  - now rewrite app_nil_r.
  - reflexivity.
Qed.

End Broadcast.

(** C2.  The tick iterates over the registry itself and awaits inside
    the iteration.  With subscribers 1, 2 and 3 registered, and a
    fourth one connecting while the send to 1 is awaited, the iterator
    finds the set larger than it was and raises: the tick ends with
    [RuntimeError], and of the three registered subscribers only 1 has
    been sent the payload. *)
Theorem tick_ends_when_a_subscriber_connects :
  let s := example_registry in
  let state := state_dict "update" s in
  let r := broadcast_tick example_dumps example_dumps example_ws_send
             connect_during_first [1; 2; 3]%nat s in
  ws_clients s = {[ 1%nat ]} ∪ {[ 2%nat ]} ∪ {[ 3%nat ]} /\
  size (ws_clients s) = 3%nat /\
  r = (Raised (RuntimeError "Set changed size during iteration"),
       set_ws_clients ({[ 1%nat ]} ∪ {[ 2%nat ]} ∪ {[ 3%nat ]} ∪ {[ 4%nat ]}) s,
       [ EvSnapshot state; EvDumps state; EvWsSend 1 (example_dumps state) false ]) /\
  count_events is_ws_send (trace_of r) = 1%nat /\
  (forall text raised, ~ In (EvWsSend 2 text raised) (trace_of r)) /\
  (forall text raised, ~ In (EvWsSend 3 text raised) (trace_of r)).
Proof.
  intros s state r.
  assert (Hr : r = (Raised (RuntimeError "Set changed size during iteration"),
                    set_ws_clients ({[ 1%nat ]} ∪ {[ 2%nat ]} ∪ {[ 3%nat ]} ∪ {[ 4%nat ]}) s,
                    [ EvSnapshot state; EvDumps state;
                      EvWsSend 1 (example_dumps state) false ]))
    by (vm_compute; reflexivity).
  split; [reflexivity|]. split; [vm_compute; reflexivity|].
  split; [exact Hr|]. rewrite Hr. unfold trace_of. cbn [snd].
  split; [reflexivity|].
  split; intros text raised [H|[H|[H|[]]]]; discriminate.
Qed.

(** C5.  The send to subscriber 2 raises because its connection is
    closed, and the handler of that connection discards 2 from the
    registry (line 240) while the send is awaited.  The failure of the
    send is caught, but the iterator then finds the set smaller than it
    was and raises: the tick ends with [RuntimeError], subscriber 3 is
    not sent the payload, the removal after the iteration is not
    reached, and the loop ends there, so that 3 and 1, still
    registered, are sent nothing on any later turn. *)
Theorem failed_send_with_disconnect_ends_the_loop :
  let s := set_running true example_registry in
  let state := state_dict "update" s in
  let sent :=
    [ EvSnapshot state; EvDumps state;
      EvWsSend 1 (example_dumps state) false;
      EvWsSend 2 (example_dumps state) true ] in
  let tick := broadcast_tick example_dumps example_dumps example_ws_send
                disconnect_during_failed [1; 2; 3]%nat s in
  let loop := _broadcast_loop example_dumps example_dumps
                [ example_turn disconnect_during_failed; example_turn quiet;
                  example_turn quiet ] s in
  ws_clients s = {[ 1%nat ]} ∪ {[ 2%nat ]} ∪ {[ 3%nat ]} /\
  send_raises example_ws_send 2 (example_dumps state) = true /\
  send_raises example_ws_send 3 (example_dumps state) = false /\
  tick = (Raised (RuntimeError "Set changed size during iteration"),
          set_ws_clients ({[ 1%nat ]} ∪ {[ 3%nat ]}) s, sent) /\
  (forall text raised, ~ In (EvWsSend 3 text raised) (trace_of tick)) /\
  loop = (Raised (RuntimeError "Set changed size during iteration"),
          set_ws_clients ({[ 1%nat ]} ∪ {[ 3%nat ]}) s, sent) /\
  (3%nat ∈ ws_clients (state_of loop)) /\
  (forall text raised, ~ In (EvWsSend 3 text raised) (trace_of loop)).
Proof.
  intros s state sent tick loop.
  assert (Ht : tick = (Raised (RuntimeError "Set changed size during iteration"),
                       set_ws_clients ({[ 1%nat ]} ∪ {[ 3%nat ]}) s, sent))
    by (vm_compute; reflexivity).
  assert (Hl : loop = (Raised (RuntimeError "Set changed size during iteration"),
                       set_ws_clients ({[ 1%nat ]} ∪ {[ 3%nat ]}) s, sent))
    by (vm_compute; reflexivity).
  split; [reflexivity|]. split; [reflexivity|]. split; [reflexivity|].
  split; [exact Ht|].
  split; [rewrite Ht; intros text raised [H|[H|[H|[H|[]]]]]; discriminate|].
  split; [exact Hl|]. rewrite Hl. unfold state_of, trace_of. cbn [fst snd]. split.
  - simpl. set_solver.
  - intros text raised [H|[H|[H|[H|[]]]]]; discriminate.
Qed.

(** ** The command sink and its callers *)

Section Sink.
Variable json_dumps : pyval -> string.
Variable py_str : pyval -> string.
Variable sendto : string -> option exn.

(** [send_to_dcs] catches what the socket raises: it always returns,
    and only the log tells how the send went. *)
Lemma send_to_dcs_run command s :
  send_to_dcs json_dumps py_str sendto command s
  = (Returned tt, s, sink_trace json_dumps py_str sendto command).
Proof.
  unfold send_to_dcs, try_except, sink_trace, dumps, socket_sendto, bind, emit, ret, log.
  simpl. destruct (sendto (json_dumps command)); reflexivity.
Qed.

Lemma api_command_run body s :
  _api_command json_dumps py_str sendto body s
  = match loads body with
    | LoadsOk command =>
        (Returned (PDict [ (PStr "success", PBool true) ]), s,
         sink_trace json_dumps py_str sendto command)
    | LoadsRaises e =>
        (Returned (PDict [ (PStr "success", PBool false);
                           (PStr "error", PStr (exn_str e)) ]), s, [])
    end.
Proof.
  unfold _api_command, try_except, json_loads.
  destruct (loads body) as [command|e]; [|reflexivity].
  erewrite bind_returned by reflexivity.
  unfold bind. rewrite send_to_dcs_run. simpl. now rewrite app_nil_r.
Qed.

End Sink.

(** C3, as the code has it.  [send_to_dcs] never fails towards its
    caller: a send that raises is caught and logged there.  The command
    endpoint therefore answers [{success: true}] whenever the request
    body decodes, whether the datagram left or not, and answers
    [{success: false, error}] exactly when decoding the body raises;
    in neither case does the server object change. *)
Theorem api_command_reports_decoding_only
    (json_dumps py_str : pyval -> string) (sendto : string -> option exn)
    (body : received) (s : SAMSIMServer) :
  let r := _api_command json_dumps py_str sendto body s in
  (forall command s0,
     send_to_dcs json_dumps py_str sendto command s0
     = (Returned tt, s0, sink_trace json_dumps py_str sendto command)) /\
  state_of r = s /\
  match loads body with
  | LoadsOk command =>
      result_of r = Returned (PDict [ (PStr "success", PBool true) ]) /\
      trace_of r = sink_trace json_dumps py_str sendto command
  | LoadsRaises e =>
      result_of r = Returned (PDict [ (PStr "success", PBool false);
                                      (PStr "error", PStr (exn_str e)) ]) /\
      trace_of r = []
  end.
Proof.
  intros r. subst r. split; [intros; apply send_to_dcs_run|].
  rewrite api_command_run. destruct (loads body); repeat split.
Qed.

(** The send raises, the endpoint answers success. *)
Lemma sink_failure_is_not_reported : ~ sink_failure_is_reported.
Proof.
  intros H.
  destruct (H example_dumps example_dumps failing_sendto example_command_body
              example_command (OSError "[Errno 101] Network is unreachable")
              SAMSIMServer_init eq_refl eq_refl) as (msg & Hmsg).
  rewrite api_command_run in Hmsg. simpl in Hmsg. discriminate.
Qed.

(** ** [init_site] *)

Lemma dict_set_absent {V : Type} (d : list (pyval * V)) k v :
  dict_get d k = None -> dict_set d k v = d ++ [(k, v)].
Proof.
  induction d as [|[k' v'] d IH]; simpl; [reflexivity|].
  destruct (key_eqb k' k); [discriminate|]. intros H. now rewrite IH.
Qed.

(** C9.  An [init_site] frame with a (hashable) [siteId]: the
    [init_site] command for that identifier goes to the command sink,
    and afterwards the mapping has a record for it.  When the
    identifier was absent it is a new record at the end of the mapping,
    with the identifier and the defaults of the dataclass: state 0,
    mode 0, azimuth 0.0, elevation 5.0, no targets, no tracked target,
    quality 0, six missiles ready, none in flight, neither
    authorisation nor automatic engagement.  When the identifier was
    present the server object is as it was. *)
Theorem init_site_forwards_and_precreates
    (json_dumps py_str : pyval -> string) (sendto : string -> option exn)
    (ws_send : nat -> string -> option exn)
    (websocket : nat) (message : received) (d : list (pyval * pyval))
    (site_id : pyval) (s : SAMSIMServer) :
  loads message = LoadsOk (PDict d) ->
  dict_get d (PStr "type") = Some (PStr "init_site") ->
  dict_get d (PStr "siteId") = Some site_id ->
  hashable site_id = true ->
  let command := init_site_command site_id (dict_get_or d (PStr "groupName") PNone) in
  let r := _handle_ws_message json_dumps py_str sendto ws_send websocket message s in
  let five := S754_finite false 5629499534213120 (-50) in
  let new :=
    {| site_id := site_id;
       system_state := PInt 0;
       radar_mode := PInt 0;
       antenna_az := PFloat (S754_zero false);
       antenna_el := PFloat five;
       targets := PList [];
       tracked_target := PNone;
       track_quality := PInt 0;
       missiles_ready := PInt 6;
       missiles_in_flight := PInt 0;
       engagement_auth := PBool false;
       auto_engage := PBool false |} in
  result_of r = Returned tt /\
  trace_of r = sink_trace json_dumps py_str sendto command /\
  In (EvSendto (json_dumps command)
        (match sendto (json_dumps command) with Some _ => true | None => false end))
     (trace_of r) /\
  (exists st, dict_get (sites (state_of r)) site_id = Some st) /\
  (dict_get (sites s) site_id = None ->
   state_of r = set_sites (sites s ++ [(site_id, new)]) s /\
   dict_get (sites (state_of r)) site_id = Some new) /\
  (forall st, dict_get (sites s) site_id = Some st ->
   state_of r = s /\ dict_get (sites (state_of r)) site_id = Some st) /\
  int_eq_float 5 five = true /\
  SAMSiteState_new site_id = new.
Proof.
  intros Hl Ht Hid Hh command r five new.
  change new with (SAMSiteState_new site_id). clearbody new. clear new.
  pose proof (key_eqb_refl site_id Hh) as Hk.
  assert (Hr : r = (Returned tt,
                    (if dict_contains (sites s) site_id then s
                     else set_sites (dict_set (sites s) site_id (SAMSiteState_new site_id)) s),
                    sink_trace json_dumps py_str sendto command)).
  { subst r. unfold _handle_ws_message, try_except.
    erewrite bind_returned; cycle 1.
    { unfold json_loads. rewrite Hl. reflexivity. }
    assert (Htype : dict_get_or d (PStr "type") (PStr "") = PStr "init_site")
      by (unfold dict_get_or; now rewrite Ht).
    assert (Hsid : dict_get_or d (PStr "siteId") PNone = site_id)
      by (unfold dict_get_or; now rewrite Hid).
    unfold py_get. erewrite bind_returned by reflexivity.
    rewrite !Htype.
    change (eq_str (PStr "init_site") "command") with false.
    change (eq_str (PStr "init_site") "init_site") with true. cbv iota.
    do 2 (erewrite bind_returned by reflexivity).
    rewrite !Hsid.
    unfold bind at 1. rewrite send_to_dcs_run.
    unfold sites_contains. rewrite Hh. unfold bind, get_self, ret. simpl.
    fold command.
    destruct (dict_contains (sites s) site_id); simpl.
    - now rewrite app_nil_r.
    - unfold sites_setitem. rewrite Hh. unfold modify_self. simpl.
      now rewrite !app_nil_r. }
  rewrite Hr. unfold result_of, trace_of, state_of. simpl fst. simpl snd.
  split; [reflexivity|]. split; [reflexivity|].
  split.
  { unfold sink_trace. right. destruct (sendto (json_dumps command)); left; reflexivity. }
  unfold dict_contains.
  destruct (dict_get (sites s) site_id) as [st|] eqn:E.
  - split; [eauto|]. split; [discriminate|].
    split; [intros st' [= <-]; auto|]. split; reflexivity.
  - simpl sites. rewrite dict_get_set_same by assumption.
    split; [eauto|]. split; [|split; [discriminate | split; reflexivity]].
    intros _. now rewrite (dict_set_absent _ _ _ E).
Qed.

Lemma init_site_forwards_and_precreates_witness :
  let new := _handle_ws_message example_dumps example_dumps working_sendto example_ws_send
               1%nat example_init_site_frame example_state in
  let again := _handle_ws_message example_dumps example_dumps working_sendto example_ws_send
                 1%nat
                 {| raw := "init_site frame for S1";
                    loads := LoadsOk (PDict example_init_site_again) |}
                 example_state in
  hashable (PStr "S2") = true /\
  dict_get (sites example_state) (PStr "S2") = None /\
  dict_get (sites (state_of new)) (PStr "S2")
  = Some {| site_id := PStr "S2";
            system_state := PInt 0;
            radar_mode := PInt 0;
            antenna_az := PFloat (S754_zero false);
            antenna_el := PFloat (S754_finite false 5629499534213120 (-50));
            targets := PList [];
            tracked_target := PNone;
            track_quality := PInt 0;
            missiles_ready := PInt 6;
            missiles_in_flight := PInt 0;
            engagement_auth := PBool false;
            auto_engage := PBool false |} /\
  In (EvSendto (example_dumps (init_site_command (PStr "S2") (PStr "SA2-North"))) false)
     (trace_of new) /\
  state_of again = example_state.
Proof.
  intros new again.
  split; [reflexivity|]. split; [reflexivity|].
  destruct (init_site_forwards_and_precreates example_dumps example_dumps working_sendto
              example_ws_send 1%nat example_init_site_frame example_init_site (PStr "S2")
              example_state eq_refl eq_refl eq_refl eq_refl)
    as (_ & _ & Hsend & _ & Hnew & _).
  cbv zeta in Hnew.
  destruct (init_site_forwards_and_precreates example_dumps example_dumps working_sendto
              example_ws_send 1%nat
              {| raw := "init_site frame for S1";
                 loads := LoadsOk (PDict example_init_site_again) |}
              example_init_site_again (PStr "S1")
              example_state eq_refl eq_refl eq_refl eq_refl)
    as (_ & _ & _ & _ & _ & Hold & _).
  split; [apply (Hnew eq_refl)|].
  split; [exact Hsend|].
  destruct (Hold _ eq_refl) as [Hsame _]. exact Hsame.
Defined.

(** ** Keys of the entity mapping *)

Section KeepsSites.

Lemma keeps_ret {A : Type} (a : A) : keeps_sites (ret a).
Proof. intros s k H. exact H. Qed.

Lemma keeps_raise {A : Type} (e : exn) : keeps_sites (@raise A e).
Proof. intros s k H. exact H. Qed.

Lemma keeps_emit (e : event) : keeps_sites (emit e).
Proof. intros s k H. exact H. Qed.

Lemma keeps_get_self : keeps_sites get_self.
Proof. intros s k H. exact H. Qed.

Lemma keeps_bind {A B : Type} (m : M A) (f : A -> M B) :
  keeps_sites m -> (forall a, keeps_sites (f a)) -> keeps_sites (bind m f).
Proof.
  intros Hm Hf s k H. specialize (Hm s k H). unfold bind, state_of in *.
  destruct (m s) as [[[a|e] s1] t1]; simpl in *; [|exact Hm].
  specialize (Hf a s1 k Hm). unfold state_of in Hf.
  destruct (f a s1) as [[r s2] t2]. exact Hf.
Qed.

Lemma keeps_try_except {A : Type} (body : M A) (handler : exn -> M A) :
  keeps_sites body -> (forall e, keeps_sites (handler e)) ->
  keeps_sites (try_except body handler).
Proof.
  intros Hm Hh s k H. specialize (Hm s k H). unfold try_except, state_of in *.
  destruct (body s) as [[[a|e] s1] t1]; simpl in *; [exact Hm|].
  specialize (Hh e s1 k Hm). unfold state_of in Hh.
  destruct (handler e s1) as [[r s2] t2]. exact Hh.
Qed.

Lemma keeps_modify_self (f : SAMSIMServer -> SAMSIMServer) :
  (forall s k, dict_contains (sites s) k = true -> dict_contains (sites (f s)) k = true) ->
  keeps_sites (modify_self f).
Proof. intros Hf s k H. now apply Hf. Qed.

Lemma keeps_for_each {A : Type} (xs : list A) (body : A -> M unit) :
  (forall x, keeps_sites (body x)) -> keeps_sites (for_each xs body).
Proof.
  intros Hb. induction xs as [|x xs IH]; simpl.
  - apply keeps_ret.
  - apply keeps_bind; auto.
Qed.

Lemma keeps_sites_setitem k st : keeps_sites (sites_setitem k st).
Proof.
  unfold sites_setitem. destruct (hashable k); [|apply keeps_raise].
  apply keeps_modify_self. intros s k' H. simpl. now apply dict_contains_set.
Qed.

Lemma keeps_site_assign k f : keeps_sites (site_assign k f).
Proof.
  apply keeps_modify_self. intros s k' H.
  destruct (dict_get (sites s) k); [|exact H]. simpl. now apply dict_contains_set.
Qed.

Lemma keeps_sites_contains k : keeps_sites (sites_contains k).
Proof.
  unfold sites_contains. destruct (hashable k); [|apply keeps_raise].
  apply keeps_bind; [apply keeps_get_self | intros; apply keeps_ret].
Qed.

Lemma keeps_sites_getitem k : keeps_sites (sites_getitem k).
Proof.
  unfold sites_getitem. destruct (hashable k); [|apply keeps_raise].
  apply keeps_bind; [apply keeps_get_self|].
  intros s. destruct (dict_get (sites s) k); [apply keeps_ret | apply keeps_raise].
Qed.

Lemma keeps_py_get o key default : keeps_sites (py_get o key default).
Proof. destruct o; simpl; try apply keeps_raise. apply keeps_ret. Qed.

Lemma keeps_py_items o : keeps_sites (py_items o).
Proof. destruct o; simpl; try apply keeps_raise. apply keeps_ret. Qed.

Lemma keeps_log l msg : keeps_sites (log l msg).
Proof. apply keeps_emit. Qed.

Lemma keeps_json_loads r : keeps_sites (json_loads r).
Proof. unfold json_loads. destruct (loads r); [apply keeps_ret | apply keeps_raise]. Qed.

Lemma keeps_snapshot ty : keeps_sites (snapshot ty).
Proof.
  unfold snapshot. apply keeps_bind; [apply keeps_get_self|].
  intros s. apply keeps_bind; [apply keeps_emit | intros; apply keeps_ret].
Qed.

End KeepsSites.

Create HintDb keeps discriminated.
#[local] Hint Resolve keeps_ret keeps_raise keeps_emit keeps_get_self keeps_bind
  keeps_try_except keeps_for_each keeps_sites_setitem keeps_site_assign
  keeps_sites_contains keeps_sites_getitem keeps_py_get keeps_py_items keeps_log
  keeps_json_loads keeps_snapshot : keeps.

(** Goes through a method body: binds, handlers and branches. *)
Ltac keeps_step :=
  match goal with
  | |- keeps_sites (bind _ _) => apply keeps_bind; [|intros]
  | |- keeps_sites (try_except _ _) => apply keeps_try_except; [|intros]
  | |- keeps_sites (for_each _ _) => apply keeps_for_each; intros
  | |- keeps_sites (if ?b then _ else _) => destruct b
  | |- keeps_sites (match ?e with _ => _ end) => destruct e
  | |- keeps_sites (modify_self (set_dcs_connected _)) =>
      apply keeps_modify_self; intros ? ? H; exact H
  | |- keeps_sites (modify_self (set_mission_time _)) =>
      apply keeps_modify_self; intros ? ? H; exact H
  | |- keeps_sites (modify_self (set_paused _)) =>
      apply keeps_modify_self; intros ? ? H; exact H
  | |- keeps_sites (modify_self (set_world_objects _)) =>
      apply keeps_modify_self; intros ? ? H; exact H
  | |- keeps_sites (modify_self (fun _ => set_ws_clients _ _)) =>
      apply keeps_modify_self; intros ? ? H; exact H
  | |- keeps_sites _ => solve [auto with keeps]
  end.

Ltac keeps := repeat keeps_step.

Lemma keeps_update_site site_id site_data : keeps_sites (update_site site_id site_data).
Proof. unfold update_site. keeps. Qed.

Lemma keeps_process_dcs_data data : keeps_sites (_process_dcs_data data).
Proof.
  unfold _process_dcs_data, apply_status. keeps; apply keeps_update_site.
Qed.

Lemma keeps_receiver_turn r : keeps_sites (receiver_turn r).
Proof. unfold receiver_turn. keeps; apply keeps_process_dcs_data. Qed.

Section KeepsMethods.
Variable json_dumps : pyval -> string.
Variable py_str : pyval -> string.
Variable sendto : string -> option exn.
Variable ws_send : nat -> string -> option exn.

Lemma keeps_websocket_send ws text : keeps_sites (websocket_send ws_send ws text).
Proof. unfold websocket_send. keeps. Qed.

Lemma keeps_send_to_dcs command : keeps_sites (send_to_dcs json_dumps py_str sendto command).
Proof. unfold send_to_dcs, dumps, socket_sendto. keeps. Qed.

Lemma keeps_send_state_to_client ws :
  keeps_sites (_send_state_to_client json_dumps ws_send ws).
Proof. unfold _send_state_to_client, dumps. keeps; apply keeps_websocket_send. Qed.

Lemma keeps_handle_ws_message ws message :
  keeps_sites (_handle_ws_message json_dumps py_str sendto ws_send ws message).
Proof.
  unfold _handle_ws_message, dumps.
  keeps; first [apply keeps_send_to_dcs | apply keeps_websocket_send
               | apply keeps_send_state_to_client].
Qed.

Lemma keeps_api_status : keeps_sites _api_status.
Proof. unfold _api_status. keeps. Qed.

Lemma keeps_api_command body : keeps_sites (_api_command json_dumps py_str sendto body).
Proof. unfold _api_command. keeps; apply keeps_send_to_dcs. Qed.

End KeepsMethods.

(** Whatever the other coroutines do while the loop is suspended keeps
    the keys as well. *)
Lemma keeps_perform_act json_dumps py_str io a :
  keeps_sites (perform_act json_dumps py_str io a).
Proof.
  destruct a; simpl.
  - apply keeps_receiver_turn.
  - unfold handler_register. keeps.
  - apply keeps_handle_ws_message.
  - unfold handler_unregister. keeps.
  - keeps; apply keeps_api_status.
  - keeps; apply keeps_api_command.
Qed.

Lemma keeps_suspended json_dumps py_str acts :
  keeps_sites (suspended json_dumps py_str acts).
Proof.
  unfold suspended. apply keeps_modify_self. unfold interfere.
  induction acts as [|[io a] acts IH]; intros s k H; simpl; [exact H|].
  apply IH. now apply keeps_perform_act.
Qed.

Lemma keeps_send_to_clients json_dumps py_str ws_send during table used message dead_clients :
  keeps_sites
    (send_to_clients json_dumps py_str ws_send during table used message dead_clients).
Proof.
  revert dead_clients. induction table as [|c rest IH]; intros dead; simpl.
  - keeps.
  - unfold awaited_send.
    keeps; first [apply keeps_suspended | apply keeps_websocket_send | apply IH].
Qed.

Lemma keeps_broadcast_tick json_dumps py_str ws_send during table :
  keeps_sites (broadcast_tick json_dumps py_str ws_send during table).
Proof. unfold broadcast_tick, dumps. keeps; apply keeps_send_to_clients. Qed.

Lemma keeps_perform json_dumps py_str io o : keeps_sites (perform json_dumps py_str io o).
Proof.
  destruct o; simpl.
  - apply keeps_receiver_turn.
  - unfold handler_register. keeps.
  - apply keeps_handle_ws_message.
  - unfold handler_unregister. keeps.
  - apply keeps_broadcast_tick.
  - keeps; apply keeps_api_status.
  - keeps; apply keeps_api_command.
Qed.

Lemma session_keeps_sites json_dumps py_str ops s k :
  dict_contains (sites s) k = true ->
  dict_contains (sites (session json_dumps py_str ops s)) k = true.
Proof.
  revert s. induction ops as [|[io o] ops IH]; intros s H; simpl; [exact H|].
  apply IH. now apply keeps_perform.
Qed.

(** C6.  Nothing removes a key from the entity mapping: not a datagram
    of any kind, not a subscriber's frame, not a tick, not a query.  An
    identifier present at some point of a session is present at every
    later point, and every later snapshot has an entity for it. *)
Theorem entities_are_never_removed
    (json_dumps py_str : pyval -> string)
    (before after : list (sockets * op)) (s : SAMSIMServer)
    (k : pyval) (ty : string) :
  let s1 := session json_dumps py_str before s in
  let s2 := session json_dumps py_str (before ++ after) s in
  dict_contains (sites s1) k = true ->
  dict_contains (sites s2) k = true /\
  (exists entity, entity_of (state_dict ty s2) k = Some entity) /\
  (forall data, dict_contains (sites (state_of (_process_dcs_data data s1))) k = true).
Proof.
  intros s1 s2 H.
  assert (H2 : dict_contains (sites s2) k = true).
  { subst s1 s2. unfold session in *. rewrite fold_left_app.
    now apply session_keeps_sites. }
  split; [exact H2|]. split.
  - rewrite entity_of_state_dict. unfold dict_contains in H2.
    destruct (dict_get (sites s2) k); [eauto | discriminate].
  - intros data. now apply keeps_process_dcs_data.
Qed.

Lemma entities_are_never_removed_witness :
  dict_contains
    (sites (session example_dumps example_dumps example_before SAMSIMServer_init))
    (PStr "S1") = true /\
  dict_contains
    (sites (session example_dumps example_dumps (example_before ++ example_after)
              SAMSIMServer_init))
    (PStr "S1") = true.
Proof.
  pose proof (entities_are_never_removed example_dumps example_dumps
                example_before example_after SAMSIMServer_init (PStr "S1") "update") as H.
  cbv zeta in H.
  assert (H1 : dict_contains
                 (sites (session example_dumps example_dumps example_before
                           SAMSIMServer_init))
                 (PStr "S1") = true) by reflexivity.
  split; [exact H1|].
  destruct (H H1) as [H2 _]. exact H2.
Defined.

(** * Further properties of the server *)

(** ** Relations kept by method bodies *)

#[local] Instance unchanged_preorder : PreOrder unchanged.
Proof. split; [intros s; reflexivity | intros a b c H1 H2; unfold unchanged in *; congruence]. Qed.

#[local] Instance same_but_sites_preorder : PreOrder same_but_sites.
Proof.
  split.
  - intros s. unfold same_but_sites. now destruct s.
  - intros a b c H1 H2. unfold same_but_sites in *. rewrite H2, H1. reflexivity.
Qed.

#[local] Instance same_but_registry_preorder : PreOrder same_but_registry.
Proof.
  split.
  - intros s. unfold same_but_registry. now destruct s.
  - intros a b c H1 H2. unfold same_but_registry in *. rewrite H2, H1. reflexivity.
Qed.

#[local] Instance same_registry_preorder : PreOrder same_registry.
Proof.
  split.
  - intros s. repeat split.
  - intros a b c (H1 & H2 & H3) (H4 & H5 & H6). unfold same_registry. repeat split; congruence.
Qed.

#[local] Instance same_run_flags_preorder : PreOrder same_run_flags.
Proof.
  split.
  - intros s. split; reflexivity.
  - intros a b c (H1 & H2) (H3 & H4). unfold same_run_flags. split; congruence.
Qed.

Section Respects.
Context (R : SAMSIMServer -> SAMSIMServer -> Prop) `{!PreOrder R}.

Lemma respects_ret {A : Type} (a : A) : respects R (ret a).
Proof. intros s. reflexivity. Qed.

Lemma respects_raise {A : Type} (e : exn) : respects R (@raise A e).
Proof. intros s. reflexivity. Qed.

Lemma respects_emit (e : event) : respects R (emit e).
Proof. intros s. reflexivity. Qed.

Lemma respects_get_self : respects R get_self.
Proof. intros s. reflexivity. Qed.

Lemma respects_modify_self (f : SAMSIMServer -> SAMSIMServer) :
  (forall s, R s (f s)) -> respects R (modify_self f).
Proof. intros Hf s. apply Hf. Qed.

Lemma respects_bind {A B : Type} (m : M A) (f : A -> M B) :
  respects R m -> (forall a, respects R (f a)) -> respects R (bind m f).
Proof.
  intros Hm Hf s. specialize (Hm s). unfold bind, state_of in *.
  destruct (m s) as [[[a|e] s1] t1]; simpl in *; [|exact Hm].
  specialize (Hf a s1). unfold state_of in Hf.
  destruct (f a s1) as [[r s2] t2]. simpl in *. now transitivity s1.
Qed.

Lemma respects_try_except {A : Type} (body : M A) (h : exn -> M A) :
  respects R body -> (forall e, respects R (h e)) -> respects R (try_except body h).
Proof.
  intros Hm Hh s. specialize (Hm s). unfold try_except, state_of in *.
  destruct (body s) as [[[a|e] s1] t1]; simpl in *; [exact Hm|].
  specialize (Hh e s1). unfold state_of in Hh.
  destruct (h e s1) as [[r s2] t2]. simpl in *. now transitivity s1.
Qed.

Lemma respects_try_finally {A : Type} (body : M A) (cleanup : M unit) :
  respects R body -> respects R cleanup -> respects R (try_finally body cleanup).
Proof.
  intros Hm Hc s. specialize (Hm s). unfold try_finally, state_of in *.
  destruct (body s) as [[r s1] t1]. simpl in *.
  specialize (Hc s1). unfold state_of in Hc.
  destruct (cleanup s1) as [[[[]|e] s2] t2]; simpl in *; now transitivity s1.
Qed.

Lemma respects_for_each {A : Type} (xs : list A) (body : A -> M unit) :
  (forall x, respects R (body x)) -> respects R (for_each xs body).
Proof.
  intros Hb. induction xs as [|x xs IH]; simpl.
  - apply respects_ret.
  - apply respects_bind; auto.
Qed.

(** What changes nothing keeps every such relation. *)
Lemma respects_unchanged {A : Type} (m : M A) :
  respects unchanged m -> respects R m.
Proof. intros H s. rewrite (H s). reflexivity. Qed.

End Respects.

(** Goes through a method body; [leaf] proves [R s (f s)] for the
    assignments met on the way. *)
Ltac respects_step leaf :=
  match goal with
  | |- respects _ (bind _ _) => apply respects_bind; [typeclasses eauto| |intros]
  | |- respects _ (try_except _ _) => apply respects_try_except; [typeclasses eauto| |intros]
  | |- respects _ (try_finally _ _) => apply respects_try_finally; [typeclasses eauto| |]
  | |- respects _ (for_each _ _) => apply respects_for_each; [typeclasses eauto|intros]
  | |- respects _ (ret _) => apply respects_ret; typeclasses eauto
  | |- respects _ (raise _) => apply respects_raise; typeclasses eauto
  | |- respects _ (emit _) => apply respects_emit; typeclasses eauto
  | |- respects _ (log _ _) => apply respects_emit; typeclasses eauto
  | |- respects _ get_self => apply respects_get_self; typeclasses eauto
  | |- respects _ (modify_self _) => apply respects_modify_self; intros; leaf
  | |- respects _ (if ?b then _ else _) => destruct b
  | |- respects _ (match ?e with _ => _ end) => destruct e
  | |- respects _ (py_get _ _ _) => unfold py_get
  | |- respects _ (py_items _) => unfold py_items
  | |- respects _ (json_loads _) => unfold json_loads
  | |- respects _ (snapshot _) => unfold snapshot
  | |- respects _ (dumps _ _) => unfold dumps
  | |- respects _ (socket_sendto _ _) => unfold socket_sendto
  | |- respects _ (websocket_send _ _ _) => unfold websocket_send
  | |- respects _ (send_to_dcs _ _ _ _) => unfold send_to_dcs
  | |- respects _ (sites_contains _) => unfold sites_contains
  | |- respects _ (sites_getitem _) => unfold sites_getitem
  | |- respects _ (sites_setitem _ _) => unfold sites_setitem
  | |- respects _ (site_assign _ _) => unfold site_assign
  | |- respects _ (update_site _ _) => unfold update_site
  | |- respects _ (apply_status _) => unfold apply_status
  | |- respects _ (_send_state_to_client _ _ _) => unfold _send_state_to_client
  | |- respects _ (handler_register _) => unfold handler_register
  | |- respects _ (handler_unregister _) => unfold handler_unregister
  end.

Ltac respects_walk leaf := repeat (respects_step leaf).

(** *** What only reads the server object *)

Lemma unchanged_send_to_dcs json_dumps py_str sendto command :
  respects unchanged (send_to_dcs json_dumps py_str sendto command).
Proof. respects_walk idtac. Qed.

Lemma unchanged_send_state_to_client json_dumps ws_send ws :
  respects unchanged (_send_state_to_client json_dumps ws_send ws).
Proof. respects_walk idtac. Qed.

Lemma unchanged_api_status : respects unchanged _api_status.
Proof. unfold _api_status. respects_walk idtac. Qed.

Lemma unchanged_api_command json_dumps py_str sendto body :
  respects unchanged (_api_command json_dumps py_str sendto body).
Proof. unfold _api_command. respects_walk idtac. Qed.

(** *** What the ingestion path leaves alone *)

Ltac same_registry_leaf :=
  idtac;
  match goal with
  | |- same_registry ?s _ =>
      try (destruct (dict_get (sites s) _)); repeat split
  end.

Lemma same_registry_process data : respects same_registry (_process_dcs_data data).
Proof. unfold _process_dcs_data. respects_walk same_registry_leaf. Qed.

Lemma same_registry_receiver_turn r : respects same_registry (receiver_turn r).
Proof.
  unfold receiver_turn. respects_walk same_registry_leaf; apply same_registry_process.
Qed.

Lemma same_registry_run_udp_receiver received_data :
  respects same_registry (_run_udp_receiver received_data).
Proof.
  induction received_data as [|r rest IH]; simpl.
  - respects_walk same_registry_leaf.
  - respects_walk same_registry_leaf; [apply same_registry_receiver_turn | exact IH].
Qed.

(** ** The [status] branch *)

Ltac same_but_sites_leaf :=
  idtac;
  match goal with
  | |- same_but_sites ?s _ =>
      try (destruct (dict_get (sites s) _)); unfold same_but_sites; now destruct s
  end.

Lemma same_but_sites_update_site k v : respects same_but_sites (update_site k v).
Proof. respects_walk same_but_sites_leaf. Qed.

(** The [status] branch first makes its four assignments; what follows
    only works on [self.sites]. *)
Lemma apply_status_header m s :
  apply_status (PDict m) s
  = (let! items := py_items (dict_get_or m (PStr "sites") (PDict [])) in
     for_each items (fun item => update_site (fst item) (snd item))) (status_header m s).
Proof.
  unfold apply_status, status_header, py_get.
  erewrite bind_returned by reflexivity.
  do 3 (erewrite bind_returned by (erewrite bind_returned by reflexivity; reflexivity)).
  erewrite bind_returned by reflexivity. reflexivity.
Qed.

Lemma process_status_any data m s :
  loads data = LoadsOk (PDict m) ->
  dict_get m (PStr "type") = Some (PStr "status") ->
  _process_dcs_data data s
  = try_except (apply_status (PDict m))
      (fun e =>
         match e with
         | JSONDecodeError _ => log WARNING ("Invalid JSON from DCS: " ++ exn_str e)%string
         | _ => log ERROR ("Error processing DCS data: " ++ exn_str e)%string
         end) s.
Proof.
  intros Hl Ht. unfold _process_dcs_data, try_except at 1.
  unfold json_loads. rewrite Hl. unfold py_get.
  erewrite bind_returned by reflexivity. erewrite bind_returned by reflexivity.
  unfold dict_get_or. rewrite Ht. reflexivity.
Qed.

Lemma for_each_app_run {A : Type} (f : A -> M unit) (xs ys : list A) s s1 :
  for_each xs f s = (Returned tt, s1, []) ->
  for_each (xs ++ ys) f s = for_each ys f s1.
Proof.
  revert s. induction xs as [|x xs IH]; intros s H; simpl in *.
  - unfold ret in H. congruence.
  - unfold bind in *. destruct (f x s) as [[[[]|e] s2] t2]; [|discriminate].
    destruct (for_each xs f s2) as [[r3 s3] t3] eqn:E.
    injection H as -> -> Ht. apply app_eq_nil in Ht as [-> ->].
    rewrite (IH s2 E). destruct (for_each ys f s1) as [[r4 s4] t4]. reflexivity.
Qed.

Lemma json_object_app {V : Type} (xs ys : list (pyval * V)) :
  json_object (xs ++ ys) = true -> json_object xs = true /\ json_object ys = true.
Proof.
  induction xs as [|[k v] xs IH]; simpl; [auto|].
  destruct k; try discriminate. intros H. apply andb_prop in H as [Hn H].
  destruct (IH H) as [H1 H2]. split; [|exact H2].
  rewrite H1, andb_true_r. apply negb_true_iff. apply negb_true_iff in Hn.
  unfold dict_contains in *. clear -Hn.
  induction xs as [|[k' v'] xs IHx]; simpl in *; [reflexivity|].
  destruct (key_eqb k' (PStr s)); [discriminate | auto].
Qed.

(** X1.  A [status] message is applied from the top: the connection
    flag, the mission clock, the pause flag and the world objects are
    those of the message (or its defaults) even when its [sites] part
    then fails, and whatever follows only touches the entity mapping;
    processing returns. *)
Theorem status_header_always_applied
    (data : received) (m : list (pyval * pyval)) (s : SAMSIMServer) :
  loads data = LoadsOk (PDict m) ->
  dict_get m (PStr "type") = Some (PStr "status") ->
  let r := _process_dcs_data data s in
  result_of r = Returned tt /\
  dcs_connected (state_of r) = true /\
  mission_time (state_of r) = dict_get_or m (PStr "time") (PInt 0) /\
  paused (state_of r) = dict_get_or m (PStr "paused") (PBool false) /\
  world_objects (state_of r) = dict_get_or m (PStr "worldObjects") (PList []) /\
  state_of r = set_sites (sites (state_of r)) (status_header m s).
Proof.
  intros Hl Ht r.
  assert (H : same_but_sites (status_header m s) (state_of r)).
  { subst r. rewrite (process_status_any _ _ _ Hl Ht).
    assert (Hr : respects same_but_sites
                   (try_except
                      (let! items := py_items (dict_get_or m (PStr "sites") (PDict [])) in
                       for_each items (fun item => update_site (fst item) (snd item)))
                      (fun e =>
                         match e with
                         | JSONDecodeError _ =>
                             log WARNING ("Invalid JSON from DCS: " ++ exn_str e)%string
                         | _ => log ERROR ("Error processing DCS data: " ++ exn_str e)%string
                         end))).
    { respects_walk same_but_sites_leaf. }
    specialize (Hr (status_header m s)).
    unfold try_except in *. rewrite apply_status_header. exact Hr. }
  split; [apply process_returns|].
  unfold same_but_sites in H. rewrite H. repeat split.
Qed.

Lemma status_header_always_applied_witness :
  let r := _process_dcs_data status_with_sites_list_datagram example_state in
  dict_get status_with_sites_list (PStr "type") = Some (PStr "status") /\
  result_of r = Returned tt /\
  dcs_connected (state_of r) = true /\
  mission_time (state_of r) = PInt 50 /\
  paused (state_of r) = PBool true /\
  world_objects (state_of r) = PList [].
Proof.
  intros r. split; [reflexivity|].
  destruct (status_header_always_applied status_with_sites_list_datagram
              status_with_sites_list example_state eq_refl eq_refl)
    as (H1 & H2 & H3 & H4 & H5 & _).
  repeat split; assumption.
Defined.

(** X2.  A [status] message whose [sites] is not an object: the four
    top-level fields are assigned, the entity mapping is left as it
    was, and the only trace is the error logged for the missing
    [items] attribute. *)
Theorem status_with_non_object_sites
    (data : received) (m : list (pyval * pyval)) (v : pyval) (s : SAMSIMServer) :
  loads data = LoadsOk (PDict m) ->
  dict_get m (PStr "type") = Some (PStr "status") ->
  dict_get m (PStr "sites") = Some v ->
  is_dict v = false ->
  _process_dcs_data data s
  = (Returned tt, status_header m s,
     [EvLog ERROR ("Error processing DCS data: "
                   ++ exn_str (no_attribute v "items"))%string]).
Proof.
  intros Hl Ht Hs Hv. rewrite (process_status_any _ _ _ Hl Ht).
  unfold try_except. rewrite apply_status_header.
  unfold dict_get_or. rewrite Hs.
  destruct v; try discriminate; reflexivity.
Qed.

Lemma status_with_non_object_sites_witness :
  dict_get status_with_sites_list (PStr "sites") = Some (PList [PStr "S1"]) /\
  sites (state_of (_process_dcs_data status_with_sites_list_datagram example_state))
  = sites example_state /\
  trace_of (_process_dcs_data status_with_sites_list_datagram example_state)
  = [EvLog ERROR "Error processing DCS data: 'list' object has no attribute 'items'"].
Proof.
  split; [reflexivity|].
  rewrite (status_with_non_object_sites status_with_sites_list_datagram
             status_with_sites_list (PList [PStr "S1"]) example_state
             eq_refl eq_refl eq_refl eq_refl).
  split; vm_compute; reflexivity.
Defined.

(** X3.  A [status] message in which the payload of one entity is not
    an object: the entities before it are written, the record of that
    entity exists (created with the defaults when new) but is not
    written, the entities after it are not looked at, and the error is
    logged. *)
Theorem status_stops_at_non_object_payload
    (data : received) (m : list (pyval * pyval))
    (good rest : list (pyval * pyval)) (k v : pyval) (s : SAMSIMServer) :
  loads data = LoadsOk (PDict m) ->
  dict_get m (PStr "type") = Some (PStr "status") ->
  dict_get m (PStr "sites") = Some (PDict (good ++ (k, v) :: rest)) ->
  json_object (good ++ (k, v) :: rest) = true ->
  forallb (fun item => is_dict (snd item)) good = true ->
  is_dict v = false ->
  _process_dcs_data data s
  = (Returned tt,
     set_sites (ensure_site (upsert_sites good (sites s)) k) (status_header m s),
     [EvLog ERROR ("Error processing DCS data: "
                   ++ exn_str (no_attribute v "get"))%string]).
Proof.
  intros Hl Ht Hs Hj Hg Hv. rewrite (process_status_any _ _ _ Hl Ht).
  unfold try_except. rewrite apply_status_header.
  unfold dict_get_or. rewrite Hs. simpl py_items.
  erewrite bind_returned by reflexivity.
  destruct (json_object_app _ _ Hj) as [Hj1 Hj2].
  erewrite for_each_app_run by (apply for_each_update_site; assumption).
  assert (Hh : hashable k = true).
  { simpl in Hj2. destruct k; try discriminate; reflexivity. }
  simpl for_each. unfold bind.
  rewrite (update_site_not_dict k v _ Hh Hv). simpl.
  unfold ensure_site.
  destruct (dict_contains (upsert_sites good (sites s)) k);
    destruct v; try discriminate; reflexivity.
Qed.

Lemma status_stops_at_non_object_payload_witness :
  let s' := state_of (_process_dcs_data status_with_bad_payload_datagram example_state) in
  json_object [ (PStr "S1", PDict [ (PStr "systemState", PInt 3) ]);
                (PStr "S2", PInt 5);
                (PStr "S3", PDict [ (PStr "systemState", PInt 1) ]) ] = true /\
  option_map system_state (dict_get (sites s') (PStr "S1")) = Some (PInt 3) /\
  dict_get (sites s') (PStr "S2") = Some (SAMSiteState_new (PStr "S2")) /\
  dict_get (sites s') (PStr "S3") = None.
Proof.
  intros s'. split; [reflexivity|]. subst s'.
  rewrite (status_stops_at_non_object_payload status_with_bad_payload_datagram
             status_with_bad_payload
             [ (PStr "S1", PDict [ (PStr "systemState", PInt 3) ]) ]
             [ (PStr "S3", PDict [ (PStr "systemState", PInt 1) ]) ]
             (PStr "S2") (PInt 5) example_state
             eq_refl eq_refl eq_refl eq_refl eq_refl eq_refl).
  repeat split; vm_compute; reflexivity.
Defined.

(** ** Well-formed [status] updates and the mapping *)

Lemma dict_get_set_other_strkey {V : Type} (d : list (pyval * V)) (a : string) k v :
  key_eqb (PStr a) k = false ->
  dict_get (dict_set d (PStr a) v) k = dict_get d k.
Proof.
  intros Hk. induction d as [|[k0 v0] d IH]; cbn [dict_get dict_set].
  - now rewrite Hk.
  - destruct (key_eqb k0 (PStr a)) eqn:Ea; cbn [dict_get dict_set].
    + apply key_eqb_str_inv in Ea. subst k0. now rewrite Hk.
    + destruct (key_eqb k0 k); auto.
Qed.

Lemma upsert_sites_untouched sd d k :
  json_object sd = true -> dict_contains sd k = false ->
  dict_get (upsert_sites sd d) k = dict_get d k.
Proof.
  revert d. induction sd as [|[k0 v0] sd IH]; intros d Hj Hc; simpl; [reflexivity|].
  destruct k0; try discriminate. simpl in Hj. apply andb_prop in Hj as [_ Hj].
  unfold dict_contains in Hc. cbn [dict_get] in Hc.
  destruct (key_eqb (PStr s) k) eqn:E; [discriminate|].
  fold (upsert_sites sd (upsert_site d (PStr s) v0)).
  rewrite IH by assumption. unfold upsert_site. now apply dict_get_set_other_strkey.
Qed.

Lemma sites_of_json_object message :
  status_update message = true -> json_object (sites_of message) = true.
Proof.
  destruct message as [| | | | | |m]; try discriminate. simpl. intros Hs.
  apply andb_prop in Hs as [_ Hs].
  destruct (dict_get m (PStr "sites")) as [[]|]; try reflexivity.
  now apply andb_prop in Hs as [Hj _].
Qed.

(** X4.  A well-formed [status] update leaves the record of every
    identifier it does not name exactly as it was (and creates none for
    it). *)
Theorem status_update_leaves_other_entities
    (data : received) (message : pyval) (s : SAMSIMServer) (k : pyval) :
  loads data = LoadsOk message ->
  status_update message = true ->
  dict_contains (sites_of message) k = false ->
  dict_get (sites (state_of (_process_dcs_data data s))) k = dict_get (sites s) k.
Proof.
  intros Hl Hs Hk. rewrite (process_status_update _ _ _ Hl Hs).
  pose proof (sites_of_json_object _ Hs) as Hj.
  destruct message as [| | | | | |m]; try discriminate.
  unfold state_of, status_applied. simpl fst. simpl snd. simpl sites.
  now apply upsert_sites_untouched.
Qed.

Lemma status_update_leaves_other_entities_witness :
  status_update other_status = true /\
  dict_contains (sites_of other_status) (PStr "S1") = false /\
  dict_get (sites (state_of (_process_dcs_data other_datagram example_state))) (PStr "S1")
  = dict_get (sites example_state) (PStr "S1").
Proof.
  split; [reflexivity|]. split; [reflexivity|].
  apply (status_update_leaves_other_entities other_datagram other_status example_state
           (PStr "S1") eq_refl eq_refl eq_refl).
Defined.

Lemma upsert_site_fixed d k payload sid :
  dict_get d k = Some (record_of sid payload) -> upsert_site d k payload = d.
Proof.
  intros H. unfold upsert_site, site_id_after. rewrite H. simpl.
  now apply dict_set_get_id.
Qed.

Lemma upsert_sites_fixed l d :
  (forall k payload, In (k, payload) l -> upsert_site d k payload = d) ->
  upsert_sites l d = d.
Proof.
  induction l as [|[k payload] l IH]; intros H; simpl; [reflexivity|].
  rewrite (H k payload) by (left; reflexivity).
  apply IH. intros k' p' Hin. apply H. now right.
Qed.

Lemma upsert_sites_idempotent sd d :
  json_object sd = true -> upsert_sites sd (upsert_sites sd d) = upsert_sites sd d.
Proof.
  intros Hj. apply upsert_sites_fixed. intros k payload Hin.
  eapply upsert_site_fixed. now apply upsert_sites_lookup.
Qed.

(** X5.  Applying the same well-formed [status] datagram a second time
    changes nothing: a repeated datagram is harmless. *)
Theorem status_update_idempotent
    (data : received) (message : pyval) (s : SAMSIMServer) :
  loads data = LoadsOk message ->
  status_update message = true ->
  state_of (process_all [data; data] s) = state_of (process_all [data] s).
Proof.
  intros Hl Hs. unfold process_all. simpl. unfold bind.
  rewrite !(process_status_update _ _ _ Hl Hs). unfold state_of, ret. simpl.
  pose proof (sites_of_json_object _ Hs) as Hj.
  destruct message as [| | | | | |m]; try discriminate.
  unfold status_applied. simpl sites.
  rewrite (upsert_sites_idempotent _ _ Hj). reflexivity.
Qed.

Lemma status_update_idempotent_witness :
  status_update example_status = true /\
  state_of (process_all [example_datagram; example_datagram] SAMSIMServer_init)
  = state_of (process_all [example_datagram] SAMSIMServer_init).
Proof.
  split; [reflexivity|].
  apply (status_update_idempotent example_datagram example_status SAMSIMServer_init
           eq_refl eq_refl).
Defined.

Lemma dict_keys_set {V : Type} (d : list (pyval * V)) k v :
  dict_keys (dict_set d k v)
  = if dict_contains d k then dict_keys d else dict_keys d ++ [k].
Proof.
  unfold dict_contains, dict_keys. induction d as [|[k' v'] d IH]; simpl; [reflexivity|].
  destruct (key_eqb k' k); simpl; [reflexivity|].
  rewrite IH. now destruct (dict_get d k).
Qed.

Lemma new_keys_set {V : Type} (sd : list (pyval * V)) (d : list (pyval * SAMSiteState))
    (a : string) st :
  json_object sd = true -> dict_contains sd (PStr a) = false ->
  new_keys sd (dict_set d (PStr a) st) = new_keys sd d.
Proof.
  unfold new_keys, dict_keys. induction sd as [|[k v] sd IH]; simpl; [reflexivity|].
  destruct k; try discriminate. intros Hj Hc.
  apply andb_prop in Hj as [_ Hj]. unfold dict_contains in Hc. simpl in Hc.
  destruct (String.eqb s a) eqn:E; [discriminate|].
  assert (Hne : a <> s) by (intros ->; now rewrite String.eqb_refl in E).
  assert (Hd : dict_contains (dict_set d (PStr a) st) (PStr s) = dict_contains d (PStr s))
    by (unfold dict_contains; now rewrite (dict_get_set_other_str d a s st Hne)).
  rewrite Hd, IH by assumption. reflexivity.
Qed.

Lemma dict_keys_upsert_sites sd d :
  json_object sd = true ->
  dict_keys (upsert_sites sd d) = dict_keys d ++ new_keys sd d.
Proof.
  revert d. induction sd as [|[k v] sd IH]; intros d Hj; simpl.
  - unfold new_keys. simpl. now rewrite app_nil_r.
  - destruct k; try discriminate. simpl in Hj. apply andb_prop in Hj as [Hn Hj].
    apply negb_true_iff in Hn.
    fold (upsert_sites sd (upsert_site d (PStr s) v)).
    rewrite IH by assumption. unfold upsert_site.
    rewrite (new_keys_set sd d s _ Hj Hn), dict_keys_set.
    unfold new_keys at 2. simpl. fold (new_keys sd d).
    destruct (dict_contains d (PStr s)); simpl; [reflexivity|].
    now rewrite <- app_assoc.
Qed.

(** X6.  A well-formed [status] update keeps the identifiers already
    known in their order and puts the new ones after them, in the order
    the message names them; this is the list the status query
    answers with. *)
Theorem status_update_appends_new_identifiers
    (data : received) (message : pyval) (s : SAMSIMServer) :
  loads data = LoadsOk message ->
  status_update message = true ->
  let s' := state_of (_process_dcs_data data s) in
  dict_keys (sites s') = dict_keys (sites s) ++ new_keys (sites_of message) (sites s) /\
  exists flag clock pause,
    result_of (_api_status s')
    = Returned (PDict [ (PStr "dcsConnected", flag);
                        (PStr "missionTime", clock);
                        (PStr "paused", pause);
                        (PStr "sites",
                         PList (dict_keys (sites s)
                                ++ new_keys (sites_of message) (sites s))) ]).
Proof.
  intros Hl Hs s'.
  assert (Hk : dict_keys (sites s')
               = dict_keys (sites s) ++ new_keys (sites_of message) (sites s)).
  { subst s'. rewrite (process_status_update _ _ _ Hl Hs).
    pose proof (sites_of_json_object _ Hs) as Hj.
    destruct message as [| | | | | |m]; try discriminate.
    unfold state_of, status_applied. simpl fst. simpl snd. simpl sites.
    now apply dict_keys_upsert_sites. }
  split; [exact Hk|].
  eexists _, _, _. unfold _api_status, result_of, bind, get_self, ret. simpl.
  rewrite Hk. reflexivity.
Qed.

Lemma status_update_appends_new_identifiers_witness :
  status_update other_status = true /\
  dict_keys (sites (state_of (_process_dcs_data other_datagram example_state)))
  = [PStr "S1"; PStr "S9"].
Proof.
  split; [reflexivity|].
  destruct (status_update_appends_new_identifiers other_datagram other_status example_state
              eq_refl eq_refl) as [H _].
  rewrite H. vm_compute. reflexivity.
Defined.

(** ** Frames from a subscriber *)

Section Frames.
Variable json_dumps : pyval -> string.
Variable py_str : pyval -> string.
Variable sendto : string -> option exn.
Variable ws_send : nat -> string -> option exn.

Lemma handle_object ws message d s :
  loads message = LoadsOk (PDict d) ->
  _handle_ws_message json_dumps py_str sendto ws_send ws message s
  = try_except
      (let cmd_type := dict_get_or d (PStr "type") (PStr "") in
       if eq_str cmd_type "command" then
         let! command := py_get (PDict d) "command" (PDict []) in
         send_to_dcs json_dumps py_str sendto command >>
         let! cmd := py_get command "cmd" PNone in
         let! text := dumps json_dumps (PDict [ (PStr "type", PStr "ack");
                                                (PStr "command", cmd) ]) in
         websocket_send ws_send ws text
       else if eq_str cmd_type "init_site" then
         let! site_id := py_get (PDict d) "siteId" PNone in
         let! group_name := py_get (PDict d) "groupName" PNone in
         let command :=
           PDict [ (PStr "cmd", PStr "init_site");
                   (PStr "siteId", site_id);
                   (PStr "params", PDict [ (PStr "groupName", group_name) ]) ] in
         send_to_dcs json_dumps py_str sendto command >>
         let! present := sites_contains site_id in
         if negb present
         then sites_setitem site_id (SAMSiteState_new site_id)
         else ret tt
       else if eq_str cmd_type "get_state" then
         _send_state_to_client json_dumps ws_send ws
       else
         ret tt)
      (fun e =>
         match e with
         | JSONDecodeError _ =>
             log WARNING ("Invalid JSON from WebSocket: " ++ raw message)%string
         | _ =>
             log ERROR ("Error handling WebSocket message: " ++ exn_str e)%string
         end) s.
Proof.
  intros Hl. unfold _handle_ws_message, try_except.
  unfold json_loads. rewrite Hl.
  erewrite bind_returned by reflexivity.
  unfold py_get at 1. erewrite bind_returned by reflexivity. reflexivity.
Qed.

Lemma reply_run ws v s :
  (let! text := dumps json_dumps v in websocket_send ws_send ws text) s
  = (match ws_send ws (json_dumps v) with
     | None => Returned tt
     | Some e => Raised e
     end, s,
     EvDumps v ::
     [ EvWsSend ws (json_dumps v)
         (match ws_send ws (json_dumps v) with Some _ => true | None => false end) ]).
Proof.
  unfold dumps, websocket_send, bind, emit, ret. simpl.
  destruct (ws_send ws (json_dumps v)); reflexivity.
Qed.

(** The [command] branch, for a [command] that is an object. *)
Lemma handle_command_object ws message d c s :
  loads message = LoadsOk (PDict d) ->
  dict_get d (PStr "type") = Some (PStr "command") ->
  dict_get_or d (PStr "command") (PDict []) = PDict c ->
  _handle_ws_message json_dumps py_str sendto ws_send ws message s
  = (Returned tt, s,
     sink_trace json_dumps py_str sendto (PDict c)
     ++ reply_trace json_dumps ws_send ws (ack_of c) (frame_error_log message)).
Proof.
  intros Hl Ht Hc. rewrite (handle_object _ _ _ _ Hl). cbv zeta.
  assert (Htype : dict_get_or d (PStr "type") (PStr "") = PStr "command")
    by (unfold dict_get_or; now rewrite Ht).
  rewrite Htype. change (eq_str (PStr "command") "command") with true. cbv iota.
  unfold try_except, py_get at 1. erewrite bind_returned by reflexivity.
  rewrite Hc. unfold bind at 1. rewrite send_to_dcs_run.
  rewrite (bind_returned (py_get (PDict c) "cmd" PNone) _ s
             (dict_get_or c (PStr "cmd") PNone) s eq_refl).
  fold (ack_of c). rewrite reply_run. unfold reply_trace.
  destruct (ws_send ws (json_dumps (ack_of c))) as [e|]; simpl.
  - destruct e; simpl; now rewrite <- app_assoc.
  - reflexivity.
Qed.

(** The [command] branch, for a [command] that is not an object. *)
Lemma handle_command_other ws message d v s :
  loads message = LoadsOk (PDict d) ->
  dict_get d (PStr "type") = Some (PStr "command") ->
  dict_get d (PStr "command") = Some v ->
  is_dict v = false ->
  _handle_ws_message json_dumps py_str sendto ws_send ws message s
  = (Returned tt, s,
     sink_trace json_dumps py_str sendto v
     ++ [EvLog ERROR ("Error handling WebSocket message: "
                      ++ exn_str (no_attribute v "get"))%string]).
Proof.
  intros Hl Ht Hc Hv. rewrite (handle_object _ _ _ _ Hl). cbv zeta.
  assert (Htype : dict_get_or d (PStr "type") (PStr "") = PStr "command")
    by (unfold dict_get_or; now rewrite Ht).
  rewrite Htype. change (eq_str (PStr "command") "command") with true. cbv iota.
  unfold try_except, py_get at 1. erewrite bind_returned by reflexivity.
  unfold dict_get_or. rewrite Hc. unfold bind at 1. rewrite send_to_dcs_run.
  destruct v; try discriminate; unfold bind; simpl; now rewrite app_nil_r.
Qed.

(** The [init_site] branch, whatever the identifier is. *)
Lemma handle_init_site ws message d s :
  loads message = LoadsOk (PDict d) ->
  dict_get d (PStr "type") = Some (PStr "init_site") ->
  let site_id := dict_get_or d (PStr "siteId") PNone in
  let command := init_site_command site_id (dict_get_or d (PStr "groupName") PNone) in
  _handle_ws_message json_dumps py_str sendto ws_send ws message s
  = if hashable site_id then
      (Returned tt,
       (if dict_contains (sites s) site_id then s
        else set_sites (dict_set (sites s) site_id (SAMSiteState_new site_id)) s),
       sink_trace json_dumps py_str sendto command)
    else
      (Returned tt, s,
       sink_trace json_dumps py_str sendto command
       ++ [EvLog ERROR ("Error handling WebSocket message: "
                        ++ exn_str (unhashable site_id))%string]).
Proof.
  intros Hl Ht site_id command. rewrite (handle_object _ _ _ _ Hl). cbv zeta.
  assert (Htype : dict_get_or d (PStr "type") (PStr "") = PStr "init_site")
    by (unfold dict_get_or; now rewrite Ht).
  rewrite Htype.
  change (eq_str (PStr "init_site") "command") with false.
  change (eq_str (PStr "init_site") "init_site") with true. cbv iota.
  unfold try_except, py_get. do 2 (erewrite bind_returned by reflexivity).
  fold site_id. unfold bind at 1. rewrite send_to_dcs_run.
  fold (init_site_command site_id (dict_get_or d (PStr "groupName") PNone)). fold command.
  unfold sites_contains, sites_setitem.
  destruct (hashable site_id) eqn:Hh.
  - unfold bind, get_self, ret. simpl.
    destruct (dict_contains (sites s) site_id); simpl; now rewrite ?app_nil_r.
  - unfold bind, raise. simpl. rewrite app_nil_r.
    unfold unhashable. reflexivity.
Qed.

(** The [get_state] branch. *)
Lemma handle_get_state ws message d s :
  loads message = LoadsOk (PDict d) ->
  dict_get d (PStr "type") = Some (PStr "get_state") ->
  _handle_ws_message json_dumps py_str sendto ws_send ws message s
  = (Returned tt, s,
     EvSnapshot (state_dict "state" s)
     :: reply_trace json_dumps ws_send ws (state_dict "state" s) state_error_log).
Proof.
  intros Hl Ht. rewrite (handle_object _ _ _ _ Hl). cbv zeta.
  assert (Htype : dict_get_or d (PStr "type") (PStr "") = PStr "get_state")
    by (unfold dict_get_or; now rewrite Ht).
  rewrite Htype.
  change (eq_str (PStr "get_state") "command") with false.
  change (eq_str (PStr "get_state") "init_site") with false.
  change (eq_str (PStr "get_state") "get_state") with true. cbv iota.
  unfold try_except at 1, _send_state_to_client.
  unfold bind at 1. unfold snapshot. unfold bind at 1 2. simpl.
  unfold try_except. rewrite reply_run. unfold reply_trace.
  destruct (ws_send ws (json_dumps (state_dict "state" s))) as [e|]; reflexivity.
Qed.

(** Any other frame. *)
Lemma handle_not_handled ws message s :
  not_handled message = true ->
  exists t, _handle_ws_message json_dumps py_str sendto ws_send ws message s = (Returned tt, s, t) /\ forallb is_log t = true.
Proof.
  unfold not_handled. destruct (loads message) as [v|e] eqn:Hl.
  - destruct v as [| | | | | |d];
      try (intros _; unfold _handle_ws_message, try_except, json_loads; rewrite Hl;
           eexists; split; reflexivity).
    intros H. apply andb_prop in H as [H H3]. apply andb_prop in H as [H1 H2].
    apply negb_true_iff in H1, H2, H3.
    rewrite (handle_object _ _ _ _ Hl). cbv zeta. rewrite H1, H2, H3.
    eexists; split; reflexivity.
  - intros _. unfold _handle_ws_message, try_except, json_loads. rewrite Hl.
    destruct e; eexists; split; reflexivity.
Qed.

End Frames.

Lemma type_of_frame d (a : string) :
  eq_str (dict_get_or d (PStr "type") (PStr "")) a = true -> a <> "" ->
  dict_get d (PStr "type") = Some (PStr a).
Proof.
  unfold dict_get_or. intros H Ha.
  destruct (dict_get d (PStr "type")) as [v|].
  - apply eq_str_true in H. now subst v.
  - simpl in H. destruct a; [contradiction | discriminate].
Qed.

Lemma no_ws_send_in_sink_trace json_dumps py_str sendto command c text raised :
  ~ In (EvWsSend c text raised) (sink_trace json_dumps py_str sendto command).
Proof.
  unfold sink_trace. destruct (sendto (json_dumps command)); simpl; intuition discriminate.
Qed.

Lemma ws_send_in_reply_trace json_dumps ws_send ws v on_error c text raised :
  (forall e c' text' raised', on_error e <> EvWsSend c' text' raised') ->
  In (EvWsSend c text raised) (reply_trace json_dumps ws_send ws v on_error) -> c = ws.
Proof.
  intros Hlog. unfold reply_trace.
  destruct (ws_send ws (json_dumps v)) as [e|]; simpl; intros [H|[H|H]];
    try discriminate; try congruence; try contradiction.
  destruct H as [H|[]]. now apply Hlog in H.
Qed.

Lemma frame_error_log_is_log message e c text raised :
  frame_error_log message e <> EvWsSend c text raised.
Proof. destruct e; discriminate. Qed.

Lemma count_sendto_sink_trace json_dumps py_str sendto command :
  count_events is_sendto (sink_trace json_dumps py_str sendto command) = 1%nat.
Proof. unfold sink_trace. destruct (sendto (json_dumps command)); reflexivity. Qed.

Lemma count_sendto_reply_trace json_dumps ws_send ws v on_error :
  (forall e, is_sendto (on_error e) = false) ->
  count_events is_sendto (reply_trace json_dumps ws_send ws v on_error) = 0%nat.
Proof.
  intros H. unfold reply_trace, count_events.
  destruct (ws_send ws (json_dumps v)) as [e|]; simpl; [now rewrite H | reflexivity].
Qed.

Lemma count_logs_only p (t : list event) :
  (forall e, is_log e = true -> p e = false) ->
  forallb is_log t = true -> count_events p t = 0%nat.
Proof.
  intros Hp. unfold count_events. induction t as [|e t IH]; simpl; [reflexivity|].
  intros H. apply andb_prop in H as [He Ht]. rewrite (Hp e He). auto.
Qed.

(** What a frame can do to the server object and to the outside,
    whatever the frame: the state stays, or one default record is
    appended; frames go to the sender only; at most one datagram
    leaves. *)
Lemma handle_frame_effects json_dumps py_str sendto ws_send ws message s :
  let r := _handle_ws_message json_dumps py_str sendto ws_send ws message s in
  result_of r = Returned tt /\
  (state_of r = s \/
   exists k, dict_get (sites s) k = None /\
             state_of r = set_sites (sites s ++ [(k, SAMSiteState_new k)]) s) /\
  (forall c text raised, In (EvWsSend c text raised) (trace_of r) -> c = ws) /\
  (count_events is_sendto (trace_of r) <= 1)%nat.
Proof.
  intros r. subst r.
  destruct (not_handled message) eqn:Hn.
  { destruct (handle_not_handled json_dumps py_str sendto ws_send ws message s Hn)
      as (t & -> & Ht).
    unfold result_of, state_of, trace_of; cbn [fst snd].
    split; [reflexivity|]. split; [now left|]. split.
    - intros c text raised Hin. exfalso. clear -Ht Hin.
      induction t as [|e t IH]; simpl in *; [contradiction|].
      apply andb_prop in Ht as [He Ht]. destruct Hin as [->|Hin]; [discriminate | auto].
    - rewrite (count_logs_only is_sendto t); [lia | | exact Ht].
      intros e He. now destruct e. }
  unfold not_handled in Hn. destruct (loads message) as [v|e] eqn:Hl; [|discriminate].
  destruct v as [| | | | | |d]; try discriminate.
  destruct (eq_str (dict_get_or d (PStr "type") (PStr "")) "command") eqn:E1.
  { pose proof (type_of_frame d "command" E1 ltac:(discriminate)) as Ht.
    destruct (dict_get_or d (PStr "command") (PDict [])) as [| | | | | |c] eqn:Ec.
    7:{ rewrite (handle_command_object json_dumps py_str sendto ws_send ws message d c s
                   Hl Ht Ec).
        unfold result_of, state_of, trace_of; cbn [fst snd].
        split; [reflexivity|]. split; [now left|]. split.
        - intros c0 text raised Hin. apply in_app_or in Hin as [Hin|Hin].
          + now apply no_ws_send_in_sink_trace in Hin.
          + eapply ws_send_in_reply_trace; [|exact Hin].
            intros. apply frame_error_log_is_log.
        - rewrite count_events_app, count_sendto_sink_trace, count_sendto_reply_trace; [lia|].
          intros e. now destruct e. }
    all: unfold dict_get_or in Ec;
      destruct (dict_get d (PStr "command")) as [v|] eqn:Ev; [subst v | discriminate];
      rewrite (handle_command_other json_dumps py_str sendto ws_send ws message d _ s
                 Hl Ht Ev eq_refl);
      unfold result_of, state_of, trace_of; cbn [fst snd];
      (split; [reflexivity|]); (split; [now left|]); split;
      [ intros c0 text raised Hin; apply in_app_or in Hin as [Hin|[Hin|[]]];
        [now apply no_ws_send_in_sink_trace in Hin | discriminate]
      | rewrite count_events_app, count_sendto_sink_trace; unfold count_events; simpl; lia ]. }
  destruct (eq_str (dict_get_or d (PStr "type") (PStr "")) "init_site") eqn:E2.
  { pose proof (type_of_frame d "init_site" E2 ltac:(discriminate)) as Ht.
    pose proof (handle_init_site json_dumps py_str sendto ws_send ws message d s Hl Ht) as H.
    cbv zeta in H. rewrite H. clear H.
    set (site_id := dict_get_or d (PStr "siteId") PNone).
    destruct (hashable site_id).
    - unfold result_of, state_of, trace_of; cbn [fst snd].
      split; [reflexivity|]. split.
      + unfold dict_contains. destruct (dict_get (sites s) site_id) eqn:Eg; [now left|].
        right. exists site_id. split; [exact Eg|]. now rewrite (dict_set_absent _ _ _ Eg).
      + split.
        * intros c0 text raised Hin. now apply no_ws_send_in_sink_trace in Hin.
        * rewrite count_sendto_sink_trace. lia.
    - unfold result_of, state_of, trace_of; cbn [fst snd].
      split; [reflexivity|]. split; [now left|]. split.
      + intros c0 text raised Hin. apply in_app_or in Hin as [Hin|[Hin|[]]];
          [now apply no_ws_send_in_sink_trace in Hin | discriminate].
      + rewrite count_events_app, count_sendto_sink_trace. unfold count_events. simpl. lia. }
  destruct (eq_str (dict_get_or d (PStr "type") (PStr "")) "get_state") eqn:E3.
  { pose proof (type_of_frame d "get_state" E3 ltac:(discriminate)) as Ht.
    rewrite (handle_get_state json_dumps py_str sendto ws_send ws message d s Hl Ht).
    unfold result_of, state_of, trace_of; cbn [fst snd].
    split; [reflexivity|]. split; [now left|]. split.
    - intros c0 text raised [Hin|Hin]; [discriminate|].
      eapply ws_send_in_reply_trace; [|exact Hin]. intros. discriminate.
    - change (EvSnapshot (state_dict "state" s)
              :: reply_trace json_dumps ws_send ws (state_dict "state" s) state_error_log)
        with ([EvSnapshot (state_dict "state" s)]
              ++ reply_trace json_dumps ws_send ws (state_dict "state" s) state_error_log).
      rewrite count_events_app, count_sendto_reply_trace; [unfold count_events; simpl; lia|].
      intros e. reflexivity. }
  simpl in Hn. discriminate.
Qed.

(** X7.  A [command] frame whose [command] is an object (or is
    missing, which stands for the empty object): the command goes to
    the command sink as it is, then the acknowledgement naming its
    [cmd] is sent to the sender, whether the datagram left or the send
    raised; the server object does not change. *)
Theorem command_frame_is_acknowledged_regardless
    (json_dumps py_str : pyval -> string) (sendto : string -> option exn)
    (ws_send : nat -> string -> option exn)
    (ws : nat) (message : received) (d c : list (pyval * pyval)) (s : SAMSIMServer) :
  loads message = LoadsOk (PDict d) ->
  dict_get d (PStr "type") = Some (PStr "command") ->
  dict_get_or d (PStr "command") (PDict []) = PDict c ->
  let r := _handle_ws_message json_dumps py_str sendto ws_send ws message s in
  let ack := PDict [ (PStr "type", PStr "ack");
                     (PStr "command", dict_get_or c (PStr "cmd") PNone) ] in
  r = (Returned tt, s,
       sink_trace json_dumps py_str sendto (PDict c)
       ++ reply_trace json_dumps ws_send ws ack (frame_error_log message)) /\
  In (EvSendto (json_dumps (PDict c))
        (match sendto (json_dumps (PDict c)) with Some _ => true | None => false end))
     (trace_of r) /\
  In (EvWsSend ws (json_dumps ack) (send_raises ws_send ws (json_dumps ack))) (trace_of r).
Proof.
  intros Hl Ht Hc r ack. subst r ack.
  rewrite (handle_command_object json_dumps py_str sendto ws_send ws message d c s Hl Ht Hc).
  fold (ack_of c). split; [reflexivity|]. unfold trace_of. cbn [snd]. split.
  - apply in_or_app. left. unfold sink_trace. right.
    destruct (sendto (json_dumps (PDict c))); left; reflexivity.
  - apply in_or_app. right. unfold reply_trace, send_raises. right.
    destruct (ws_send ws (json_dumps (ack_of c))); left; reflexivity.
Qed.

Lemma command_frame_is_acknowledged_regardless_witness :
  let r := _handle_ws_message example_dumps example_dumps failing_sendto example_ws_send
             1%nat command_frame example_state in
  dict_get_or [ (PStr "type", PStr "command"); (PStr "command", example_command) ]
    (PStr "command") (PDict []) = example_command /\
  In (EvSendto (example_dumps example_command) true) (trace_of r) /\
  In (EvWsSend 1%nat
        (example_dumps (PDict [ (PStr "type", PStr "ack"); (PStr "command", PStr "power") ]))
        false)
     (trace_of r) /\
  state_of r = example_state.
Proof.
  intros r. split; [reflexivity|].
  destruct (command_frame_is_acknowledged_regardless example_dumps example_dumps
              failing_sendto example_ws_send 1%nat command_frame
              [ (PStr "type", PStr "command"); (PStr "command", example_command) ]
              [ (PStr "cmd", PStr "power"); (PStr "siteId", PStr "S1") ]
              example_state eq_refl eq_refl eq_refl) as (Hr & Hs & Ha).
  split; [exact Hs|]. split; [exact Ha|]. subst r. now rewrite Hr.
Defined.

(** X8.  A [command] frame whose [command] is not an object: the value
    still goes to the command sink, but no acknowledgement follows; the
    missing [get] attribute is logged and the frame is done. *)
Theorem command_frame_without_object_is_not_acknowledged
    (json_dumps py_str : pyval -> string) (sendto : string -> option exn)
    (ws_send : nat -> string -> option exn)
    (ws : nat) (message : received) (d : list (pyval * pyval)) (v : pyval)
    (s : SAMSIMServer) :
  loads message = LoadsOk (PDict d) ->
  dict_get d (PStr "type") = Some (PStr "command") ->
  dict_get d (PStr "command") = Some v ->
  is_dict v = false ->
  let r := _handle_ws_message json_dumps py_str sendto ws_send ws message s in
  r = (Returned tt, s,
       sink_trace json_dumps py_str sendto v
       ++ [EvLog ERROR ("Error handling WebSocket message: "
                        ++ exn_str (no_attribute v "get"))%string]) /\
  count_events is_sendto (trace_of r) = 1%nat /\
  count_events is_ws_send (trace_of r) = 0%nat.
Proof.
  intros Hl Ht Hc Hv r. subst r.
  rewrite (handle_command_other json_dumps py_str sendto ws_send ws message d v s
             Hl Ht Hc Hv).
  split; [reflexivity|]. unfold trace_of. cbn [snd].
  rewrite !count_events_app, count_sendto_sink_trace. split; [reflexivity|].
  unfold sink_trace. destruct (sendto (json_dumps v)); reflexivity.
Qed.

Lemma command_frame_without_object_is_not_acknowledged_witness :
  let r := _handle_ws_message example_dumps example_dumps working_sendto example_ws_send
             1%nat text_command_frame example_state in
  is_dict (PStr "fire") = false /\
  count_events is_sendto (trace_of r) = 1%nat /\
  count_events is_ws_send (trace_of r) = 0%nat.
Proof.
  intros r.
  split; [reflexivity|].
  destruct (command_frame_without_object_is_not_acknowledged example_dumps example_dumps
              working_sendto example_ws_send 1%nat text_command_frame
              [ (PStr "type", PStr "command"); (PStr "command", PStr "fire") ]
              (PStr "fire") example_state eq_refl eq_refl eq_refl eq_refl)
    as (_ & H1 & H2).
  split; assumption.
Defined.

(** X9.  A [get_state] frame: one snapshot is taken and sent to the
    sender alone; it is the dictionary a broadcast tick would send but
    for its [type]; a send that raises is logged and nothing else
    happens.  The server object does not change. *)
Theorem get_state_replies_to_sender
    (json_dumps py_str : pyval -> string) (sendto : string -> option exn)
    (ws_send : nat -> string -> option exn)
    (ws : nat) (message : received) (d : list (pyval * pyval)) (s : SAMSIMServer) :
  loads message = LoadsOk (PDict d) ->
  dict_get d (PStr "type") = Some (PStr "get_state") ->
  let r := _handle_ws_message json_dumps py_str sendto ws_send ws message s in
  r = (Returned tt, s,
       EvSnapshot (state_dict "state" s)
       :: reply_trace json_dumps ws_send ws (state_dict "state" s) state_error_log) /\
  (forall c text raised, In (EvWsSend c text raised) (trace_of r) ->
     c = ws /\ text = json_dumps (state_dict "state" s)) /\
  (exists rest,
     state_dict "state" s = PDict ((PStr "type", PStr "state") :: rest) /\
     state_dict "update" s = PDict ((PStr "type", PStr "update") :: rest)).
Proof.
  intros Hl Ht r. subst r.
  rewrite (handle_get_state json_dumps py_str sendto ws_send ws message d s Hl Ht).
  split; [reflexivity|]. split.
  - unfold trace_of, reply_trace. cbn [snd]. intros c text raised.
    destruct (ws_send ws (json_dumps (state_dict "state" s))); simpl;
      intros [H|[H|[H|H]]]; try discriminate; try (injection H as <- <- _; auto);
      try contradiction.
    destruct H as [H|[]]. discriminate.
  - eexists. split; reflexivity.
Qed.

Lemma get_state_replies_to_sender_witness :
  let r := _handle_ws_message example_dumps example_dumps working_sendto example_ws_send
             2%nat get_state_frame example_state in
  r = (Returned tt, example_state,
       [ EvSnapshot (state_dict "state" example_state);
         EvDumps (state_dict "state" example_state);
         EvWsSend 2%nat "dict" true;
         EvLog ERROR "Failed to send state to client: no close frame received or sent" ]).
Proof.
  intros r.
  destruct (get_state_replies_to_sender example_dumps example_dumps working_sendto
              example_ws_send 2%nat get_state_frame
              [ (PStr "type", PStr "get_state") ] example_state eq_refl eq_refl)
    as (Hr & _). subst r. rewrite Hr. reflexivity.
Defined.

(** X10.  An [init_site] frame whose [siteId] is a list or an object:
    the command has already gone to the command sink when the
    identifier turns out to be unhashable; no record is created, the
    [TypeError] is logged, and the server object does not change. *)
Theorem init_site_with_unhashable_id
    (json_dumps py_str : pyval -> string) (sendto : string -> option exn)
    (ws_send : nat -> string -> option exn)
    (ws : nat) (message : received) (d : list (pyval * pyval)) (s : SAMSIMServer) :
  loads message = LoadsOk (PDict d) ->
  dict_get d (PStr "type") = Some (PStr "init_site") ->
  hashable (dict_get_or d (PStr "siteId") PNone) = false ->
  let site_id := dict_get_or d (PStr "siteId") PNone in
  let command := init_site_command site_id (dict_get_or d (PStr "groupName") PNone) in
  _handle_ws_message json_dumps py_str sendto ws_send ws message s
  = (Returned tt, s,
     sink_trace json_dumps py_str sendto command
     ++ [EvLog ERROR ("Error handling WebSocket message: unhashable type: '"
                      ++ type_name site_id ++ "'")%string]).
Proof.
  intros Hl Ht Hh site_id command.
  pose proof (handle_init_site json_dumps py_str sendto ws_send ws message d s Hl Ht) as H.
  cbv zeta in H. rewrite H. fold site_id. subst site_id. rewrite Hh. reflexivity.
Qed.

Lemma init_site_with_unhashable_id_witness :
  let r := _handle_ws_message example_dumps example_dumps working_sendto example_ws_send
             1%nat init_site_list_frame example_state in
  hashable (PList [PStr "S2"]) = false /\
  state_of r = example_state /\
  count_events is_sendto (trace_of r) = 1%nat.
Proof.
  intros r. split; [reflexivity|]. subst r.
  rewrite (init_site_with_unhashable_id example_dumps example_dumps working_sendto
             example_ws_send 1%nat init_site_list_frame
             [ (PStr "type", PStr "init_site"); (PStr "siteId", PList [PStr "S2"]) ]
             example_state eq_refl eq_refl eq_refl).
  split; reflexivity.
Defined.

(** X11.  An [init_site] frame without [siteId]: the identifier is
    [None]; the command is forwarded with it, and a record keyed by
    [None] is appended when the mapping has none, so that the status
    query lists [None] among the identifiers. *)
Theorem init_site_without_id_uses_none
    (json_dumps py_str : pyval -> string) (sendto : string -> option exn)
    (ws_send : nat -> string -> option exn)
    (ws : nat) (message : received) (d : list (pyval * pyval)) (s : SAMSIMServer) :
  loads message = LoadsOk (PDict d) ->
  dict_get d (PStr "type") = Some (PStr "init_site") ->
  dict_get d (PStr "siteId") = None ->
  dict_get (sites s) PNone = None ->
  let r := _handle_ws_message json_dumps py_str sendto ws_send ws message s in
  r = (Returned tt,
       set_sites (sites s ++ [(PNone, SAMSiteState_new PNone)]) s,
       sink_trace json_dumps py_str sendto
         (init_site_command PNone (dict_get_or d (PStr "groupName") PNone))) /\
  dict_keys (sites (state_of r)) = dict_keys (sites s) ++ [PNone].
Proof.
  intros Hl Ht Hid Hnone r. subst r.
  pose proof (handle_init_site json_dumps py_str sendto ws_send ws message d s Hl Ht) as H.
  cbv zeta in H. rewrite H. clear H.
  assert (Hsid : dict_get_or d (PStr "siteId") PNone = PNone)
    by (unfold dict_get_or; now rewrite Hid).
  rewrite !Hsid. simpl hashable. cbv iota.
  unfold dict_contains. rewrite Hnone. rewrite (dict_set_absent _ _ _ Hnone).
  split; [reflexivity|].
  unfold state_of, dict_keys. simpl. now rewrite map_app.
Qed.

Lemma init_site_without_id_uses_none_witness :
  let r := _handle_ws_message example_dumps example_dumps working_sendto example_ws_send
             1%nat init_site_anonymous_frame example_state in
  dict_get (sites example_state) PNone = None /\
  dict_keys (sites (state_of r)) = [PStr "S1"; PNone].
Proof.
  intros r. split; [reflexivity|].
  destruct (init_site_without_id_uses_none example_dumps example_dumps working_sendto
              example_ws_send 1%nat init_site_anonymous_frame
              [ (PStr "type", PStr "init_site"); (PStr "groupName", PStr "SA2-North") ]
              example_state eq_refl eq_refl eq_refl eq_refl) as (_ & H).
  subst r. rewrite H. reflexivity.
Defined.

(** X12.  Whatever a subscriber sends, handling the frame returns; it
    leaves the server object as it was or appends one record with the
    defaults; it sends frames to that subscriber only, and at most one
    datagram to the simulation. *)
Theorem subscriber_frame_effects_are_bounded
    (json_dumps py_str : pyval -> string) (sendto : string -> option exn)
    (ws_send : nat -> string -> option exn)
    (ws : nat) (message : received) (s : SAMSIMServer) :
  let r := _handle_ws_message json_dumps py_str sendto ws_send ws message s in
  result_of r = Returned tt /\
  (state_of r = s \/
   exists k, dict_get (sites s) k = None /\
             state_of r = set_sites (sites s ++ [(k, SAMSiteState_new k)]) s) /\
  (forall c text raised, In (EvWsSend c text raised) (trace_of r) -> c = ws) /\
  (count_events is_sendto (trace_of r) <= 1)%nat.
Proof. apply handle_frame_effects. Qed.

(** X13.  A frame that does not decode, is not an object, or has a
    [type] the server does not know: nothing is sent to anyone and the
    server object does not change; a decoding error is logged as a
    warning with the text of the frame, an unknown [type] is not logged
    at all. *)
Theorem unknown_frame_is_dropped
    (json_dumps py_str : pyval -> string) (sendto : string -> option exn)
    (ws_send : nat -> string -> option exn)
    (ws : nat) (message : received) (s : SAMSIMServer) :
  not_handled message = true ->
  let r := _handle_ws_message json_dumps py_str sendto ws_send ws message s in
  result_of r = Returned tt /\ state_of r = s /\
  forallb is_log (trace_of r) = true /\
  (forall msg, loads message = LoadsRaises (JSONDecodeError msg) ->
     trace_of r = [EvLog WARNING ("Invalid JSON from WebSocket: " ++ raw message)%string]) /\
  (forall d, loads message = LoadsOk (PDict d) -> trace_of r = []).
Proof.
  intros Hn r. subst r.
  destruct (handle_not_handled json_dumps py_str sendto ws_send ws message s Hn)
    as (t & Hr & Ht).
  rewrite Hr. unfold result_of, state_of, trace_of. cbn [fst snd].
  split; [reflexivity|]. split; [reflexivity|]. split; [exact Ht|].
  split.
  - intros msg Hl. unfold _handle_ws_message, try_except, json_loads in Hr.
    rewrite Hl in Hr. simpl in Hr. congruence.
  - intros d Hl. rewrite (handle_object _ _ _ _ _ _ _ _ Hl) in Hr. cbv zeta in Hr.
    unfold not_handled in Hn. rewrite Hl in Hn.
    apply andb_prop in Hn as [Hn H3]. apply andb_prop in Hn as [H1 H2].
    apply negb_true_iff in H1, H2, H3. rewrite H1, H2, H3 in Hr.
    unfold try_except, ret in Hr. congruence.
Qed.

Lemma unknown_frame_is_dropped_witness :
  let r := _handle_ws_message example_dumps example_dumps working_sendto example_ws_send
             1%nat malformed_frame example_state in
  not_handled malformed_frame = true /\
  state_of r = example_state /\
  trace_of r = [EvLog WARNING "Invalid JSON from WebSocket: {type:"].
Proof.
  intros r. split; [reflexivity|].
  destruct (unknown_frame_is_dropped example_dumps example_dumps working_sendto
              example_ws_send 1%nat malformed_frame example_state eq_refl)
    as (_ & Hs & _ & Hw & _).
  split; [exact Hs|]. subst r. now rewrite (Hw _ eq_refl).
Defined.

(** ** The receiver loop *)

Lemma process_all_cons data datagrams s :
  state_of (process_all (data :: datagrams) s)
  = state_of (process_all datagrams (state_of (_process_dcs_data data s))).
Proof.
  unfold process_all. simpl. unfold bind, state_of.
  pose proof (process_returns data s) as H. unfold result_of in H.
  destruct (_process_dcs_data data s) as [[r s1] t1]. simpl in *. subst r.
  destruct (for_each datagrams _process_dcs_data s1) as [[r2 s2] t2]. reflexivity.
Qed.






(** ** The connection handler *)






(** ** Invariants of the entity mapping *)

#[local] Instance invariant_step_preorder (P : SAMSIMServer -> Prop) :
  PreOrder (invariant_step P).
Proof. split; [intros s H; exact H | intros a b c H1 H2 H; auto]. Qed.

(** [if k not in self.sites: self.sites[k] = SAMSiteState(site_id=k)],
    followed by more: the record is created only where the key was
    absent. *)
Lemma respects_ensure_then (R : SAMSIMServer -> SAMSIMServer -> Prop) `{!PreOrder R}
    {B : Type} (k : pyval) (rest : unit -> M B) :
  (forall s, dict_get (sites s) k = None ->
             R s (set_sites (sites s ++ [(k, SAMSiteState_new k)]) s)) ->
  (forall a, respects R (rest a)) ->
  respects R
    (let! present := sites_contains k in
     bind (if negb present then sites_setitem k (SAMSiteState_new k) else ret tt) rest).
Proof.
  intros Hnew Hrest s. unfold sites_contains, sites_setitem.
  destruct (hashable k); [|reflexivity].
  unfold bind at 1. unfold bind at 1. unfold get_self, ret at 1. cbn [fst snd].
  unfold dict_contains. destruct (dict_get (sites s) k) as [st|] eqn:E; cbn [negb].
  - pose proof (Hrest tt s) as H. unfold bind, ret, state_of in *.
    destruct (rest tt s) as [[r1 s1] t1]. exact H.
  - specialize (Hnew s E). rewrite <- (dict_set_absent _ _ (SAMSiteState_new k) E) in Hnew.
    pose proof (Hrest tt (set_sites (dict_set (sites s) k (SAMSiteState_new k)) s)) as H.
    unfold bind, modify_self, state_of in *. cbn [fst snd] in *.
    destruct (rest tt (set_sites (dict_set (sites s) k (SAMSiteState_new k)) s))
      as [[r1 s1] t1].
    cbn [fst snd] in *. etransitivity; eassumption.
Qed.

Lemma dict_get_None_keys {V : Type} (d : list (pyval * V)) k :
  dict_get d k = None -> Forall (fun k' => key_eqb k' k = false) (dict_keys d).
Proof.
  induction d as [|[k' v] d IH]; simpl; [constructor|].
  destruct (key_eqb k' k) eqn:E; [discriminate|]. intros H. constructor; auto.
Qed.

Lemma keys_distinct_snoc ks k :
  keys_distinct ks -> Forall (fun k' => key_eqb k' k = false) ks ->
  keys_distinct (ks ++ [k]).
Proof.
  induction ks as [|k0 ks IH]; simpl.
  - intros _ _. split; [constructor | exact I].
  - intros [H1 H2] Hk. inversion Hk as [|? ? Hk0 Hks]; subst. split.
    + apply Forall_app. split; [exact H1 | constructor; [exact Hk0 | constructor]].
    + now apply IH.
Qed.

Lemma sites_wf_append s k :
  dict_get (sites s) k = None -> sites_wf s ->
  sites_wf (set_sites (sites s ++ [(k, SAMSiteState_new k)]) s).
Proof.
  intros Hn [Hi Hd]. split; simpl.
  - apply Forall_app. split; [exact Hi | constructor; [reflexivity | constructor]].
  - unfold dict_keys in *. rewrite map_app. simpl.
    apply keys_distinct_snoc; [exact Hd | now apply dict_get_None_keys].
Qed.

Lemma ids_are_keys_set d k st st' :
  dict_get d k = Some st -> site_id st' = site_id st ->
  ids_are_keys d -> ids_are_keys (dict_set d k st').
Proof.
  intros Hg Hid. unfold ids_are_keys.
  induction d as [|[k0 st0] d IH]; simpl in *; [discriminate|].
  intros H. inversion H as [|? ? H0 Hd]; subst.
  destruct (key_eqb k0 k).
  - injection Hg as ->. constructor; [simpl in *; congruence | exact Hd].
  - constructor; [exact H0 | auto].
Qed.

Lemma sites_wf_assign s k st st' :
  dict_get (sites s) k = Some st -> site_id st' = site_id st ->
  sites_wf s -> sites_wf (set_sites (dict_set (sites s) k st') s).
Proof.
  intros Hg Hid [Hi Hd]. split; simpl.
  - eapply ids_are_keys_set; eassumption.
  - rewrite dict_keys_set. unfold dict_contains. now rewrite Hg.
Qed.

Ltac sites_wf_leaf :=
  idtac;
  match goal with
  | |- invariant_step sites_wf ?s (match dict_get (sites ?s) ?k with _ => _ end) =>
      let E := fresh "E" in
      destruct (dict_get (sites s) k) eqn:E;
      [ intros H; eapply sites_wf_assign; [exact E | reflexivity | exact H]
      | intros H; exact H ]
  | |- invariant_step sites_wf _ _ => intros H; exact H
  end.

Lemma sites_wf_update_site k v : respects (invariant_step sites_wf) (update_site k v).
Proof.
  unfold update_site. apply respects_ensure_then; [typeclasses eauto | |].
  - intros s Hn H. now apply sites_wf_append.
  - intros _. respects_walk sites_wf_leaf.
Qed.

Lemma sites_wf_process data : respects (invariant_step sites_wf) (_process_dcs_data data).
Proof.
  unfold _process_dcs_data, apply_status.
  repeat first [ apply sites_wf_update_site | respects_step sites_wf_leaf ].
Qed.

Lemma sites_wf_receiver_turn r : respects (invariant_step sites_wf) (receiver_turn r).
Proof.
  unfold receiver_turn.
  repeat first [ apply sites_wf_process | respects_step sites_wf_leaf ].
Qed.

(** ** The broadcast loop among the other coroutines *)

#[local] Instance registry_shrinks_preorder : PreOrder registry_shrinks.
Proof.
  split.
  - intros s. split; [reflexivity | set_solver].
  - intros a b c [H1 H2] [H3 H4]. split; [now transitivity b | set_solver].
Qed.

#[local] Instance same_simulation_preorder : PreOrder same_simulation.
Proof.
  split.
  - intros s. repeat split. auto.
  - intros a b c (H1 & H2 & H3 & H4 & H5) (H6 & H7 & H8 & H9 & H10).
    unfold same_simulation. repeat split; try congruence. auto.
Qed.

Lemma dict_get_app_Some {V : Type} (d d' : list (pyval * V)) k v :
  dict_get d k = Some v -> dict_get (d ++ d') k = Some v.
Proof.
  induction d as [|[k0 v0] d IH]; simpl; [discriminate|].
  destruct (key_eqb k0 k); auto.
Qed.

Lemma elem_of_live s table c : c ∈ live s table <-> c ∈ table /\ c ∈ ws_clients s.
Proof.
  unfold live.
  rewrite list_elem_of_In, List.filter_In, <- list_elem_of_In, bool_decide_eq_true.
  reflexivity.
Qed.

Lemma NoDup_live s table : NoDup table -> NoDup (live s table).
Proof.
  induction 1 as [|c rest Hc _ IH]; [constructor|].
  unfold live. cbn [List.filter]. fold (live s rest).
  destruct (bool_decide _); [|exact IH].
  constructor; [|exact IH]. rewrite elem_of_live. tauto.
Qed.

(** The registered clients among the slots, when the slots list every
    registered client once. *)
Lemma live_registry table s :
  NoDup table -> (forall c, c ∈ ws_clients s -> c ∈ table) ->
  (forall c, c ∈ live s table <-> c ∈ ws_clients s) /\
  length (live s table) = size (ws_clients s).
Proof.
  intros Hnd Hall.
  assert (Hl : forall c, c ∈ live s table <-> c ∈ ws_clients s).
  { intros c. rewrite elem_of_live. split; [now intros [_ H] | auto]. }
  split; [exact Hl|].
  assert (Hp : live s table ≡ₚ elements (ws_clients s)).
  { apply NoDup_Permutation.
    - now apply NoDup_live.
    - apply NoDup_elements.
    - intros c. now rewrite Hl, elem_of_elements. }
  now rewrite Hp.
Qed.

Section Coroutines.
Variable json_dumps : pyval -> string.
Variable py_str : pyval -> string.

(** *** What the other coroutines do to the server object *)

(** An act other than a datagram changes the registry at most, or
    appends one default record. *)
Lemma act_other_cases io a s :
  is_receive a = false ->
  let s' := state_of (perform_act json_dumps py_str io a s) in
  s' = set_ws_clients (ws_clients s') s \/
  exists k, dict_get (sites s) k = None /\
            s' = set_sites (sites s ++ [(k, SAMSiteState_new k)]) s.
Proof.
  intros Ha s'. subst s'. destruct a as [r|ws|ws message|ws| |body]; simpl;
    try discriminate.
  - left. reflexivity.
  - destruct (handle_frame_effects json_dumps py_str (sendto_of io) (ws_send_of io)
                ws message s) as (_ & [->|H] & _); [left; now destruct s | right; exact H].
  - left. reflexivity.
  - left. now destruct s.
  - left. pose proof (unchanged_api_command json_dumps py_str (sendto_of io) body s) as H.
    unfold unchanged, bind, ret, state_of in *.
    destruct (_api_command json_dumps py_str (sendto_of io) body s) as [[[a|e] s1] t1];
      simpl in *; subst s1; now destruct s.
Qed.

Lemma sites_wf_perform_act io a :
  respects (invariant_step sites_wf) (perform_act json_dumps py_str io a).
Proof.
  intros s. destruct (is_receive a) eqn:Ea.
  - destruct a; try discriminate. apply sites_wf_receiver_turn.
  - destruct (act_other_cases io a s Ea) as [H|(k & Hn & H)]; rewrite H; intros Hwf;
      [exact Hwf | now apply sites_wf_append].
Qed.

Lemma same_run_flags_perform_act io a :
  respects same_run_flags (perform_act json_dumps py_str io a).
Proof.
  intros s. destruct (is_receive a) eqn:Ea.
  - destruct a as [r| | | | | ]; try discriminate.
    destruct (same_registry_receiver_turn r s) as (_ & H1 & H2). split; assumption.
  - destruct (act_other_cases io a s Ea) as [H|(k & Hn & H)]; rewrite H; split; reflexivity.
Qed.

Lemma same_simulation_perform_act io a :
  is_receive a = false ->
  respects same_simulation (perform_act json_dumps py_str io a).
Proof.
  intros Ea s.
  destruct (act_other_cases io a s Ea) as [H|(k & Hn & H)]; rewrite H;
    repeat split; intros k0 st0 Hk; [exact Hk | simpl; now apply dict_get_app_Some].
Qed.

Lemma same_but_registry_perform_act io a :
  is_input a = false ->
  respects same_but_registry (perform_act json_dumps py_str io a).
Proof.
  intros Ea s. destruct a as [r|ws|ws message|ws| |body]; try discriminate; simpl.
  - reflexivity.
  - reflexivity.
  - unfold same_but_registry. now destruct s.
  - pose proof (unchanged_api_command json_dumps py_str (sendto_of io) body s) as H.
    unfold unchanged, bind, ret, state_of in *.
    destruct (_api_command json_dumps py_str (sendto_of io) body s) as [[[a|e] s1] t1];
      simpl in *; subst s1; unfold same_but_registry; now destruct s.
Qed.

Lemma registry_perform_act io a s :
  is_registration a = false ->
  ws_clients (state_of (perform_act json_dumps py_str io a s)) = ws_clients s.
Proof.
  intros Ea. destruct (is_receive a) eqn:Er.
  - destruct a as [r| | | | | ]; try discriminate.
    now destruct (same_registry_receiver_turn r s) as (H & _).
  - destruct a as [r|ws|ws message|ws| |body]; try discriminate.
    + destruct (act_other_cases io (ActMessage ws message) s eq_refl)
        as [H|(k & Hn & H)]; rewrite H.
      * simpl. destruct (handle_frame_effects json_dumps py_str (sendto_of io)
                           (ws_send_of io) ws message s) as (_ & [->|(k & _ & ->)] & _);
          reflexivity.
      * reflexivity.
    + destruct (act_other_cases io ActApiStatus s eq_refl) as [H|(k & Hn & H)];
        [reflexivity | rewrite H; reflexivity].
    + pose proof (unchanged_api_command json_dumps py_str (sendto_of io) body s) as H.
      simpl. unfold unchanged, bind, ret, state_of in *.
      destruct (_api_command json_dumps py_str (sendto_of io) body s) as [[[a|e] s1] t1];
        simpl in *; now subst s1.
Qed.

(** *** While the loop is suspended *)

Lemma interfere_respects R `{!PreOrder R} acts :
  Forall (fun step => respects R (perform_act json_dumps py_str (fst step) (snd step)))
    acts ->
  forall s, R s (interfere json_dumps py_str acts s).
Proof.
  unfold interfere. induction 1 as [|[io a] acts Ha _ IH]; intros s; simpl; [reflexivity|].
  etransitivity; [apply (Ha s) | apply IH].
Qed.

Lemma acts_respect (R : SAMSIMServer -> SAMSIMServer -> Prop) (p : act -> bool) acts :
  (forall io a, p a = false -> respects R (perform_act json_dumps py_str io a)) ->
  none_of p acts ->
  Forall (fun step => respects R (perform_act json_dumps py_str (fst step) (snd step)))
    acts.
Proof.
  intros Hp. induction 1 as [|[io a] acts Ha _ IH]; constructor; [|exact IH].
  now apply Hp.
Qed.

Lemma all_acts_respect (R : SAMSIMServer -> SAMSIMServer -> Prop) acts :
  (forall io a, respects R (perform_act json_dumps py_str io a)) ->
  Forall (fun step => respects R (perform_act json_dumps py_str (fst step) (snd step)))
    acts.
Proof. intros Hp. induction acts as [|[io a] acts IH]; constructor; [apply Hp | exact IH]. Qed.

Lemma interfere_registry acts s :
  none_of is_registration acts ->
  ws_clients (interfere json_dumps py_str acts s) = ws_clients s.
Proof.
  unfold interfere. intros H. revert s.
  induction H as [|[io a] acts Ha _ IH]; intros s; simpl; [reflexivity|].
  rewrite IH. now apply registry_perform_act.
Qed.

(** *** The iteration and the tick, whatever the others do *)

Section Tick.
Variable ws_send : nat -> string -> option exn.
Variable during : nat -> list (sockets * act).

Lemma respects_send_to_clients R `{!PreOrder R} table used message dead_clients :
  (forall c,
     Forall (fun step => respects R (perform_act json_dumps py_str (fst step) (snd step)))
       (during c)) ->
  respects R
    (send_to_clients json_dumps py_str ws_send during table used message dead_clients).
Proof.
  intros Hd. revert dead_clients.
  induction table as [|c rest IH]; intros dead s; unfold state_of;
    rewrite send_to_clients_step; destruct (negb _); try reflexivity.
  destruct (bool_decide _).
  - specialize (IH (if send_raises ws_send c message then dead ∪ {[c]} else dead)
                  (interfere json_dumps py_str (during c) s)).
    unfold state_of in IH.
    destruct (send_to_clients json_dumps py_str ws_send during rest used message _ _)
      as [[r s'] t].
    cbn [fst snd] in *.
    transitivity (interfere json_dumps py_str (during c) s); [|exact IH].
    apply interfere_respects; [assumption | apply Hd].
  - apply IH.
Qed.

Lemma respects_broadcast_tick R `{!PreOrder R} table :
  (forall s dead, R s (set_ws_clients (ws_clients s ∖ dead) s)) ->
  (forall c,
     Forall (fun step => respects R (perform_act json_dumps py_str (fst step) (snd step)))
       (during c)) ->
  respects R (broadcast_tick json_dumps py_str ws_send during table).
Proof.
  intros Hreg Hd s. destruct (decide (ws_clients s = ∅)) as [He|Hne].
  - rewrite broadcast_tick_idle by assumption. reflexivity.
  - rewrite broadcast_tick_busy by assumption. cbv zeta.
    pose proof (respects_send_to_clients R table (size (ws_clients s))
                  (json_dumps (state_dict "update" s)) ∅ Hd s) as H.
    unfold state_of in *.
    destruct (send_to_clients json_dumps py_str ws_send during table _ _ _ s)
      as [[[dead|e] s'] t]; simpl in *.
    + etransitivity; [exact H | apply Hreg].
    + exact H.
Qed.

(** The iteration ends by returning or with the iterator's error, and
    sends nothing but [message], to clients found in the slots. *)
Lemma send_to_clients_general table used message dead_clients s :
  let r := send_to_clients json_dumps py_str ws_send during table used message
             dead_clients s in
  ((exists d, result_of r = Returned d) \/ result_of r = Raised set_changed_size) /\
  Forall (fun e => exists c, c ∈ table /\
                             e = EvWsSend c message (send_raises ws_send c message))
    (trace_of r).
Proof.
  revert dead_clients s.
  induction table as [|c rest IH]; intros dead s; cbv zeta;
    rewrite send_to_clients_step; destruct (negb _);
    try (split; [right; reflexivity | constructor]).
  - split; [left; eexists; reflexivity | constructor].
  - destruct (bool_decide _).
    + specialize (IH (if send_raises ws_send c message then dead ∪ {[c]} else dead)
                    (interfere json_dumps py_str (during c) s)).
      cbv zeta in IH. unfold result_of, trace_of in *.
      destruct (send_to_clients json_dumps py_str ws_send during rest used message _ _)
        as [[r s'] t].
      simpl in *. destruct IH as [Hr Ht]. split; [exact Hr|].
      constructor.
      * exists c. split; [set_solver | reflexivity].
      * eapply List.Forall_impl; [|exact Ht].
        intros e (c' & Hc' & He). exists c'. split; [set_solver | exact He].
    + specialize (IH dead s). cbv zeta in IH. destruct IH as [Hr Ht]. split; [exact Hr|].
      eapply List.Forall_impl; [|exact Ht].
      intros e (c' & Hc' & He). exists c'. split; [set_solver | exact He].
Qed.

(** A tick ends by returning or with the iterator's error; it takes the
    snapshot and serialises it before the first send, and whatever it
    sends is that one text. *)
Lemma broadcast_tick_general table s :
  let state := state_dict "update" s in
  let r := broadcast_tick json_dumps py_str ws_send during table s in
  (result_of r = Returned tt \/ result_of r = Raised set_changed_size) /\
  exists sends,
    trace_of r
    = (if bool_decide (ws_clients s = ∅) then [] else [EvSnapshot state; EvDumps state])
      ++ sends /\
    Forall (fun e => exists c, c ∈ table /\
                               e = EvWsSend c (json_dumps state)
                                     (send_raises ws_send c (json_dumps state)))
      sends.
Proof.
  intros state r. subst r. destruct (decide (ws_clients s = ∅)) as [He|Hne].
  - rewrite broadcast_tick_idle by assumption.
    rewrite bool_decide_eq_true_2 by assumption.
    split; [now left|]. exists []. split; [reflexivity | constructor].
  - rewrite broadcast_tick_busy by assumption. cbv zeta.
    rewrite bool_decide_eq_false_2 by assumption. fold state.
    destruct (send_to_clients_general table (size (ws_clients s)) (json_dumps state) ∅ s)
      as [Hr Ht].
    unfold result_of, trace_of in *.
    destruct (send_to_clients json_dumps py_str ws_send during table _ _ _ s)
      as [[[dead|e] s'] t]; simpl in *.
    + split; [now left|]. exists t. split; [reflexivity | exact Ht].
    + split; [right; destruct Hr as [[d Hd]|Hr]; [discriminate | now injection Hr as ->]|].
      exists t. split; [reflexivity | exact Ht].
Qed.

Lemma broadcast_tick_one_text table s c text raised :
  In (EvWsSend c text raised)
     (trace_of (broadcast_tick json_dumps py_str ws_send during table s)) ->
  text = json_dumps (state_dict "update" s) /\ c ∈ table /\
  raised = send_raises ws_send c text.
Proof.
  destruct (broadcast_tick_general table s) as (_ & sends & -> & Hs).
  intros Hin. apply in_app_or in Hin as [Hin|Hin].
  - destruct (bool_decide _); [destruct Hin | destruct Hin as [H|[H|[]]]; discriminate].
  - rewrite List.Forall_forall in Hs. destruct (Hs _ Hin) as (c' & Hc' & [= -> -> ->]).
    auto.
Qed.

Lemma count_sends_none p (sends : list event) (table : list nat) text :
  (forall c b, p (EvWsSend c text b) = false) ->
  Forall (fun e => exists c, c ∈ table /\
                             e = EvWsSend c text (send_raises ws_send c text)) sends ->
  count_events p sends = 0%nat.
Proof.
  intros Hp. unfold count_events.
  induction 1 as [|e sends (c & _ & ->) _ IH]; simpl; [reflexivity|].
  now rewrite Hp.
Qed.

Lemma broadcast_tick_counts table s :
  let r := broadcast_tick json_dumps py_str ws_send during table s in
  (count_events is_snapshot (trace_of r) <= 1)%nat /\
  count_events is_dumps (trace_of r) = count_events is_snapshot (trace_of r).
Proof.
  intros r. subst r. destruct (broadcast_tick_general table s) as (_ & sends & -> & Hs).
  rewrite !count_events_app.
  rewrite (count_sends_none is_snapshot sends table _ (fun _ _ => eq_refl) Hs).
  rewrite (count_sends_none is_dumps sends table _ (fun _ _ => eq_refl) Hs).
  destruct (bool_decide _); unfold count_events; simpl; split; lia.
Qed.

(** *** The tick when nobody is registered or discarded meanwhile *)

Lemma send_to_clients_steady table message s :
  (forall c, none_of is_registration (during c)) ->
  forall dead_clients s0,
    ws_clients s0 = ws_clients s ->
    let r := send_to_clients json_dumps py_str ws_send during table (size (ws_clients s))
               message dead_clients s0 in
    result_of r = Returned (collect_dead ws_send (live s table) message dead_clients) /\
    trace_of r = send_events ws_send (live s table) message /\
    ws_clients (state_of r) = ws_clients s.
Proof.
  intros Hd. induction table as [|c rest IH]; intros dead s0 Hs0; cbv zeta;
    rewrite send_to_clients_step, Hs0, Nat.eqb_refl; cbn [negb].
  - repeat split. exact Hs0.
  - unfold live. cbn [List.filter]. fold (live s rest).
    destruct (bool_decide (c ∈ ws_clients s)).
    + specialize (IH (if send_raises ws_send c message then dead ∪ {[c]} else dead)
                    (interfere json_dumps py_str (during c) s0)).
      cbv zeta in IH. unfold result_of, trace_of, state_of in *.
      destruct (send_to_clients json_dumps py_str ws_send during rest _ message _ _)
        as [[r s'] t].
      cbn [fst snd] in *.
      destruct IH as (Hr & Ht & Hw); [rewrite interfere_registry; auto|].
      cbn [collect_dead send_events map]. rewrite Hr, Ht. repeat split. exact Hw.
    + apply IH. exact Hs0.
Qed.

Lemma broadcast_tick_steady table s :
  (forall c, none_of is_registration (during c)) ->
  ws_clients s <> ∅ ->
  let state := state_dict "update" s in
  let r := broadcast_tick json_dumps py_str ws_send during table s in
  result_of r = Returned tt /\
  trace_of r
  = [EvSnapshot state; EvDumps state]
    ++ send_events ws_send (live s table) (json_dumps state) /\
  ws_clients (state_of r)
  = ws_clients s ∖ collect_dead ws_send (live s table) (json_dumps state) ∅.
Proof.
  intros Hd Hne state r. subst r. rewrite broadcast_tick_busy by assumption. cbv zeta.
  fold state.
  destruct (send_to_clients_steady table (json_dumps state) s Hd ∅ s eq_refl)
    as (Hr & Ht & Hw).
  unfold result_of, trace_of, state_of in *.
  destruct (send_to_clients json_dumps py_str ws_send during table _ _ _ s)
    as [[r s'] t].
  cbn [fst snd] in *. subst r t. cbn [fst snd]. repeat split. simpl. now rewrite Hw.
Qed.

Lemma broadcast_tick_returns_steady table s :
  (forall c, none_of is_registration (during c)) ->
  result_of (broadcast_tick json_dumps py_str ws_send during table s) = Returned tt.
Proof.
  intros Hd. destruct (decide (ws_clients s = ∅)) as [He|Hne].
  - now rewrite broadcast_tick_idle.
  - now destruct (broadcast_tick_steady table s Hd Hne) as (H & _).
Qed.

End Tick.

(** *** The loop *)

Lemma broadcast_loop_step t rest s :
  _broadcast_loop json_dumps py_str (t :: rest) s
  = if running s then
      match
        broadcast_tick json_dumps py_str (turn_ws_send t) (turn_during t) (turn_table t) s
      with
      | (Returned _, s1, t1) =>
          match
            _broadcast_loop json_dumps py_str rest
              (interfere json_dumps py_str (turn_sleep t) s1)
          with
          | (r, s2, t2) => (r, s2, t1 ++ t2)
          end
      | (Raised e, s1, t1) => (Raised e, s1, t1)
      end
    else (Returned tt, s, []).
Proof.
  simpl. unfold bind at 1. unfold get_self. destruct (running s); [|reflexivity].
  simpl. unfold bind, suspended, modify_self.
  destruct (broadcast_tick json_dumps py_str (turn_ws_send t) (turn_during t)
              (turn_table t) s) as [[[[]|e] s1] t1]; [|reflexivity].
  now destruct (_broadcast_loop json_dumps py_str rest _) as [[r s2] t2].
Qed.

Lemma broadcast_loop_stopped turns s :
  running s = false -> _broadcast_loop json_dumps py_str turns s = (Returned tt, s, []).
Proof.
  intros Hr. destruct turns as [|t rest]; [reflexivity|].
  now rewrite broadcast_loop_step, Hr.
Qed.

Lemma broadcast_loop_general turns s :
  let r := _broadcast_loop json_dumps py_str turns s in
  (result_of r = Returned tt \/ result_of r = Raised set_changed_size) /\
  (count_events is_snapshot (trace_of r) <= length turns)%nat /\
  count_events is_dumps (trace_of r) = count_events is_snapshot (trace_of r).
Proof.
  revert s. induction turns as [|t rest IH]; intros s; cbv zeta.
  - simpl. split; [now left|]. unfold count_events. simpl. split; [lia | reflexivity].
  - rewrite broadcast_loop_step. destruct (running s).
    + pose proof (broadcast_tick_general (turn_ws_send t) (turn_during t) (turn_table t) s)
        as [Hres _].
      pose proof (broadcast_tick_counts (turn_ws_send t) (turn_during t) (turn_table t) s)
        as [Hc1 Hc2].
      cbv zeta in *. unfold result_of, trace_of in *.
      destruct (broadcast_tick json_dumps py_str (turn_ws_send t) (turn_during t)
                  (turn_table t) s) as [[[[]|e] s1] t1]; cbn [fst snd] in *.
      * specialize (IH (interfere json_dumps py_str (turn_sleep t) s1)). cbv zeta in IH.
        unfold result_of, trace_of in IH.
        destruct (_broadcast_loop json_dumps py_str rest _) as [[r s2] t2].
        cbn [fst snd] in *. destruct IH as (Hr & Hc3 & Hc4).
        split; [exact Hr|]. rewrite !count_events_app. simpl. split; lia.
      * split; [right; destruct Hres as [H|H]; [discriminate | exact H]|].
        simpl. split; lia.
    + simpl. split; [now left|]. unfold count_events. simpl. split; [lia | reflexivity].
Qed.

Lemma broadcast_loop_steady turns s :
  Forall steady_turn turns ->
  result_of (_broadcast_loop json_dumps py_str turns s) = Returned tt.
Proof.
  intros H. revert s. induction H as [|t rest Ht _ IH]; intros s; [reflexivity|].
  rewrite broadcast_loop_step. destruct (running s); [|reflexivity].
  pose proof (broadcast_tick_returns_steady (turn_ws_send t) (turn_during t)
                (turn_table t) s Ht) as Hr.
  unfold result_of in *.
  destruct (broadcast_tick json_dumps py_str (turn_ws_send t) (turn_during t)
              (turn_table t) s) as [[r1 s1] t1]; cbn [fst snd] in *. subst r1.
  specialize (IH (interfere json_dumps py_str (turn_sleep t) s1)).
  now destruct (_broadcast_loop json_dumps py_str rest _) as [[r s2] t2].
Qed.

(** A relation kept by what the others do during the awaits, and by
    the removal of the dead clients, is kept by the loop. *)
Lemma respects_broadcast_loop R `{!PreOrder R} turns :
  (forall s dead, R s (set_ws_clients (ws_clients s ∖ dead) s)) ->
  Forall (fun t =>
            (forall c,
               Forall (fun step =>
                         respects R (perform_act json_dumps py_str (fst step) (snd step)))
                 (turn_during t c)) /\
            Forall (fun step =>
                      respects R (perform_act json_dumps py_str (fst step) (snd step)))
              (turn_sleep t))
    turns ->
  respects R (_broadcast_loop json_dumps py_str turns).
Proof.
  intros Hreg H. induction H as [|t rest [Hd Hs] _ IH]; intros s; [reflexivity|].
  unfold state_of. rewrite broadcast_loop_step. destruct (running s); [|reflexivity].
  pose proof (respects_broadcast_tick (turn_ws_send t) (turn_during t) R (turn_table t)
                Hreg Hd s) as Ht.
  unfold state_of in *.
  destruct (broadcast_tick json_dumps py_str (turn_ws_send t) (turn_during t)
              (turn_table t) s) as [[[[]|e] s1] t1]; cbn [fst snd] in *; [|exact Ht].
  specialize (IH (interfere json_dumps py_str (turn_sleep t) s1)).
  pose proof (interfere_respects R (turn_sleep t) Hs s1) as Hsl.
  destruct (_broadcast_loop json_dumps py_str rest _) as [[r s2] t2]. cbn [fst snd] in *.
  etransitivity; [exact Ht|]. etransitivity; [exact Hsl | exact IH].
Qed.

Lemma broadcast_loop_quiet turns s :
  Forall quiet_turn turns ->
  registry_shrinks s (state_of (_broadcast_loop json_dumps py_str turns s)).
Proof.
  intros H. apply respects_broadcast_loop; [typeclasses eauto | |].
  - intros s0 dead. split; [reflexivity | simpl; set_solver].
  - induction H as [|t rest [Hd Hs] _ IH]; constructor; [|exact IH].
    split; [intros c; rewrite Hd; constructor | rewrite Hs; constructor].
Qed.

Lemma quiet_turn_steady t : quiet_turn t -> steady_turn t.
Proof. intros [Hd _] c. rewrite Hd. constructor. Qed.

Lemma state_dict_same_but_registry ty s s' :
  same_but_registry s s' -> state_dict ty s' = state_dict ty s.
Proof. unfold same_but_registry. intros ->. reflexivity. Qed.

Lemma idle_turn_respects t :
  idle_turn t ->
  (forall c,
     Forall (fun step =>
               respects same_but_registry
                 (perform_act json_dumps py_str (fst step) (snd step)))
       (turn_during t c)) /\
  Forall (fun step =>
            respects same_but_registry
              (perform_act json_dumps py_str (fst step) (snd step)))
    (turn_sleep t).
Proof.
  intros [Hd Hs]. split; [intros c|];
    (eapply acts_respect; [apply same_but_registry_perform_act | auto]).
Qed.

Lemma broadcast_loop_sends turns s c text raised :
  Forall idle_turn turns ->
  In (EvWsSend c text raised) (trace_of (_broadcast_loop json_dumps py_str turns s)) ->
  text = json_dumps (state_dict "update" s).
Proof.
  intros H. revert s. induction H as [|t rest Ht _ IH]; intros s; [intros []|].
  rewrite broadcast_loop_step. destruct (running s); [|intros []].
  destruct (idle_turn_respects t Ht) as [Hd Hs].
  pose proof (respects_broadcast_tick (turn_ws_send t) (turn_during t) same_but_registry
                (turn_table t) (fun s0 dead => eq_refl) Hd s) as Hsame.
  pose proof (broadcast_tick_one_text (turn_ws_send t) (turn_during t) (turn_table t)
                s c text raised) as Hsend.
  unfold state_of, trace_of in *.
  destruct (broadcast_tick json_dumps py_str (turn_ws_send t) (turn_during t)
              (turn_table t) s) as [[[[]|e] s1] t1]; cbn [fst snd] in *.
  - pose proof (interfere_respects same_but_registry (turn_sleep t) Hs s1) as Hsl.
    specialize (IH (interfere json_dumps py_str (turn_sleep t) s1)).
    destruct (_broadcast_loop json_dumps py_str rest _) as [[r s2] t2]. cbn [fst snd] in *.
    intros Hin. apply in_app_or in Hin as [Hin|Hin].
    + now apply Hsend in Hin as [-> _].
    + apply IH in Hin as ->.
      rewrite (state_dict_same_but_registry "update" s1 _ Hsl).
      now rewrite (state_dict_same_but_registry "update" s s1 Hsame).
  - intros Hin. now apply Hsend in Hin as [-> _].
Qed.

End Coroutines.

(** X15.  The broadcast loop, over any number of turns and whatever
    the other coroutines do during its awaits: it returns or ends with
    the [RuntimeError] of the set iterator; it takes at most one
    snapshot per turn and serialises each snapshot once; when
    [running] is false it does nothing.  When no subscriber is
    registered or discarded during the sends, it returns.  When nothing
    else runs during its awaits, the registry only loses subscribers
    and nothing else of the server object changes. *)
Theorem broadcast_loop_only_prunes
    (json_dumps py_str : pyval -> string) (turns : list turn) (s : SAMSIMServer) :
  let r := _broadcast_loop json_dumps py_str turns s in
  (result_of r = Returned tt \/
   result_of r = Raised (RuntimeError "Set changed size during iteration")) /\
  (count_events is_snapshot (trace_of r) <= length turns)%nat /\
  count_events is_dumps (trace_of r) = count_events is_snapshot (trace_of r) /\
  (running s = false -> r = (Returned tt, s, [])) /\
  (Forall steady_turn turns -> result_of r = Returned tt) /\
  (Forall quiet_turn turns ->
   result_of r = Returned tt /\
   state_of r = set_ws_clients (ws_clients (state_of r)) s /\
   ws_clients (state_of r) ⊆ ws_clients s).
Proof.
  intros r. destruct (broadcast_loop_general json_dumps py_str turns s) as (H1 & H2 & H3).
  fold r in H1, H2, H3.
  split; [exact H1|]. split; [exact H2|]. split; [exact H3|].
  split; [apply broadcast_loop_stopped|].
  split; [apply broadcast_loop_steady|].
  intros Hq. split.
  - apply broadcast_loop_steady. eapply List.Forall_impl; [|exact Hq].
    apply quiet_turn_steady.
  - apply (broadcast_loop_quiet json_dumps py_str turns s Hq).
Qed.

Lemma broadcast_loop_only_prunes_witness :
  let s := set_running true example_registry in
  let turns := [example_turn quiet; example_turn quiet] in
  let r := _broadcast_loop example_dumps example_dumps turns s in
  Forall quiet_turn turns /\
  result_of r = Returned tt /\
  (ws_clients (state_of r) ⊆ ws_clients s) /\
  (count_events is_snapshot (trace_of r) <= 2)%nat /\
  (running example_registry = false ->
   _broadcast_loop example_dumps example_dumps [example_turn quiet] example_registry
   = (Returned tt, example_registry, [])).
Proof.
  intros s turns r.
  assert (Hq : Forall quiet_turn turns)
    by (repeat constructor).
  split; [exact Hq|].
  destruct (broadcast_loop_only_prunes example_dumps example_dumps turns s)
    as (_ & H2 & _ & _ & _ & H6).
  destruct (H6 Hq) as (Hr & _ & Hsub).
  split; [exact Hr|]. split; [exact Hsub|]. split; [exact H2|].
  apply (broadcast_loop_only_prunes example_dumps example_dumps [example_turn quiet]
           example_registry).
Defined.

(** X23.  A tick during whose sends no subscriber is registered or
    discarded, over slots that list every registered subscriber once:
    it returns; it takes one snapshot and serialises it once; every
    registered subscriber, and nobody else, is sent that one text, once;
    and afterwards the registry holds exactly the subscribers whose
    send did not raise. *)
Theorem steady_tick_reaches_every_subscriber
    (json_dumps py_str : pyval -> string) (ws_send : nat -> string -> option exn)
    (during : nat -> list (sockets * act)) (table : list nat) (s : SAMSIMServer) :
  (forall c, none_of is_registration (during c)) ->
  NoDup table ->
  (forall c, c ∈ ws_clients s -> c ∈ table) ->
  ws_clients s <> ∅ ->
  let state := state_dict "update" s in
  let payload := json_dumps state in
  let r := broadcast_tick json_dumps py_str ws_send during table s in
  result_of r = Returned tt /\
  count_events is_snapshot (trace_of r) = 1%nat /\
  count_events is_dumps (trace_of r) = 1%nat /\
  count_events is_ws_send (trace_of r) = size (ws_clients s) /\
  (forall c, c ∈ ws_clients s ->
     In (EvWsSend c payload (send_raises ws_send c payload)) (trace_of r)) /\
  (forall c text raised, In (EvWsSend c text raised) (trace_of r) ->
     text = payload /\ c ∈ ws_clients s) /\
  (forall c, c ∈ ws_clients (state_of r)
             <-> c ∈ ws_clients s /\ send_raises ws_send c payload = false).
Proof.
  intros Hd Hnd Hall Hne state payload r.
  destruct (broadcast_tick_steady json_dumps py_str ws_send during table s Hd Hne)
    as (Hr & Ht & Hw).
  fold state payload r in Hr, Ht, Hw.
  destruct (live_registry table s Hnd Hall) as [Hl Hlen].
  split; [exact Hr|].
  split; [rewrite Ht, count_events_app, count_send_events_none; reflexivity|].
  split; [rewrite Ht, count_events_app, count_send_events_none; reflexivity|].
  split; [rewrite Ht, count_events_app, count_send_events, Hlen; reflexivity|].
  split; [|split].
  - intros c Hc. rewrite Ht. right. right. apply In_send_events.
    exists c. split; [reflexivity | now apply Hl].
  - intros c text raised Hin. rewrite Ht in Hin.
    destruct Hin as [H|[H|H]]; try discriminate.
    apply In_send_events in H as (c' & [= -> -> _] & Hc'). split; [reflexivity|].
    now apply Hl.
  - intros c. rewrite Hw, elem_of_difference, elem_of_collect_dead, Hl.
    destruct (send_raises ws_send c payload); split.
    + intros [Hc Hn]. exfalso. apply Hn. right. auto.
    + intros [_ ?]. discriminate.
    + intros [Hc _]. auto.
    + intros [Hc _]. split; [assumption|]. intros [H|[_ H]]; [set_solver | discriminate].
Qed.

Lemma steady_tick_reaches_every_subscriber_witness :
  let r := broadcast_tick example_dumps example_dumps example_ws_send quiet
             [1; 2; 3]%nat example_registry in
  result_of r = Returned tt /\
  count_events is_snapshot (trace_of r) = 1%nat /\
  count_events is_ws_send (trace_of r) = 3%nat /\
  (1%nat ∈ ws_clients (state_of r)) /\
  (2%nat ∉ ws_clients (state_of r)) /\
  (3%nat ∈ ws_clients (state_of r)).
Proof.
  intros r.
  assert (Hd : forall c, none_of is_registration (quiet c)) by (intros c; constructor).
  assert (Hnd : NoDup [1; 2; 3]%nat).
  { repeat constructor; set_solver. }
  assert (Hall : forall c, c ∈ ws_clients example_registry -> c ∈ [1; 2; 3]%nat).
  { intros c. simpl. set_solver. }
  assert (Hne : ws_clients example_registry <> ∅).
  { intros H. assert (Hin : 1%nat ∈ ws_clients example_registry) by (simpl; set_solver).
    rewrite H in Hin. set_solver. }
  destruct (steady_tick_reaches_every_subscriber example_dumps example_dumps
              example_ws_send quiet [1; 2; 3]%nat example_registry Hd Hnd Hall Hne)
    as (Hr & H1 & _ & H3 & _ & _ & Hreg).
  fold r in Hr, H1, H3, Hreg.
  split; [exact Hr|]. split; [exact H1|].
  split; [rewrite H3; reflexivity|].
  split; [apply Hreg; split; [simpl; set_solver | reflexivity]|].
  split; [intros H; apply Hreg in H as [_ H]; discriminate|].
  apply Hreg; split; [simpl; set_solver | reflexivity].
Defined.

(** ** Sessions *)

Lemma sites_wf_perform json_dumps py_str io o :
  respects (invariant_step sites_wf) (perform json_dumps py_str io o).
Proof.
  destruct o as [r|ws|ws message|ws|table during| |body].
  - apply sites_wf_receiver_turn.
  - apply (sites_wf_perform_act json_dumps py_str io (ActConnect ws)).
  - apply (sites_wf_perform_act json_dumps py_str io (ActMessage ws message)).
  - apply (sites_wf_perform_act json_dumps py_str io (ActDisconnect ws)).
  - simpl. apply respects_broadcast_tick; [typeclasses eauto | |].
    + intros s dead H. exact H.
    + intros c. apply all_acts_respect. apply sites_wf_perform_act.
  - apply (sites_wf_perform_act json_dumps py_str io ActApiStatus).
  - apply (sites_wf_perform_act json_dumps py_str io (ActApiCommand body)).
Qed.

Lemma session_sites_wf json_dumps py_str ops s :
  sites_wf s -> sites_wf (session json_dumps py_str ops s).
Proof.
  revert s. induction ops as [|[io o] ops IH]; intros s H; simpl; [exact H|].
  apply IH. now apply sites_wf_perform.
Qed.

Lemma ids_are_keys_lookup_str d (a : string) st :
  ids_are_keys d -> dict_get d (PStr a) = Some st -> site_id st = PStr a.
Proof.
  unfold ids_are_keys. induction d as [|[k0 st0] d IH]; simpl; [discriminate|].
  intros H. inversion H as [|? ? H0 Hd]; subst.
  destruct (key_eqb k0 (PStr a)) eqn:E.
  - intros [= ->]. apply key_eqb_str_inv in E. simpl in H0. congruence.
  - auto.
Qed.

(** X17.  Through any session the entity mapping stays a dictionary:
    no identifier is stored twice, and every record carries as
    [site_id] the key it is stored under, so that an entity of a
    snapshot shows as [siteId] the identifier it is listed under. *)
Theorem entity_mapping_stays_well_formed
    (json_dumps py_str : pyval -> string) (ops : list (sockets * op))
    (s : SAMSIMServer) (ty : string) :
  sites_wf s ->
  let s' := session json_dumps py_str ops s in
  ids_are_keys (sites s') /\
  keys_distinct (dict_keys (sites s')) /\
  (forall (a : string) entity,
     entity_of (state_dict ty s') (PStr a) = Some entity ->
     exists st, entity = site_dict st /\ site_id st = PStr a).
Proof.
  intros H s'. destruct (session_sites_wf json_dumps py_str ops s H) as [Hi Hd].
  fold s' in Hi, Hd. split; [exact Hi|]. split; [exact Hd|].
  intros a entity He. rewrite entity_of_state_dict in He.
  destruct (dict_get (sites s') (PStr a)) as [st|] eqn:E; [|discriminate].
  injection He as <-. exists st. split; [reflexivity|].
  eapply ids_are_keys_lookup_str; eassumption.
Qed.

Lemma entity_mapping_stays_well_formed_witness :
  sites_wf SAMSIMServer_init /\
  ids_are_keys
    (sites (session example_dumps example_dumps (example_before ++ example_after)
              SAMSIMServer_init)) /\
  keys_distinct
    (dict_keys (sites (session example_dumps example_dumps (example_before ++ example_after)
                         SAMSIMServer_init))).
Proof.
  assert (H0 : sites_wf SAMSIMServer_init) by (split; [constructor | exact I]).
  split; [exact H0|].
  destruct (entity_mapping_stays_well_formed example_dumps example_dumps
              (example_before ++ example_after) SAMSIMServer_init "update" H0)
    as (H1 & H2 & _).
  split; [exact H1 | exact H2].
Defined.

(** ** Who writes what *)

(** X18.  Only datagrams write the simulation state: a subscriber
    connecting, sending any frame or leaving, a broadcast tick during
    whose sends no datagram is received, and the two queries leave the
    connection flag, the mission clock, the pause flag, the world
    objects and every existing record as they were; and a turn of the
    receiver loop never touches the registry. *)
Theorem only_datagrams_write_simulation_state
    (json_dumps py_str : pyval -> string) (io : sockets) (o : op) (s : SAMSIMServer) :
  let s' := state_of (perform json_dumps py_str io o s) in
  let untouched :=
    dcs_connected s' = dcs_connected s /\
    mission_time s' = mission_time s /\
    paused s' = paused s /\
    world_objects s' = world_objects s /\
    (forall k st, dict_get (sites s) k = Some st -> dict_get (sites s') k = Some st) in
  match o with
  | OpReceive _ => ws_clients s' = ws_clients s
  | OpBroadcast _ during => (forall c, none_of is_receive (during c)) -> untouched
  | _ => untouched
  end.
Proof.
  intros s' untouched. subst s' untouched.
  destruct o as [r|ws|ws message|ws|table during| |body].
  - apply (same_registry_receiver_turn r s).
  - apply (same_simulation_perform_act json_dumps py_str io (ActConnect ws) eq_refl s).
  - apply (same_simulation_perform_act json_dumps py_str io (ActMessage ws message)
             eq_refl s).
  - apply (same_simulation_perform_act json_dumps py_str io (ActDisconnect ws) eq_refl s).
  - intros Hd.
    apply (respects_broadcast_tick json_dumps py_str (ws_send_of io) during
             same_simulation table).
    + intros s0 dead. repeat split. auto.
    + intros c. eapply acts_respect; [apply same_simulation_perform_act | apply Hd].
  - apply (same_simulation_perform_act json_dumps py_str io ActApiStatus eq_refl s).
  - apply (same_simulation_perform_act json_dumps py_str io (ActApiCommand body)
             eq_refl s).
Qed.

Lemma only_datagrams_write_simulation_state_witness :
  let during := fun _ : nat => [ (example_sockets, ActConnect 4%nat) ] in
  let s' := state_of (perform example_dumps example_dumps example_sockets
                        (OpBroadcast [1; 2; 3]%nat during) example_registry) in
  (forall c, none_of is_receive (during c)) /\
  dcs_connected s' = dcs_connected example_registry /\
  mission_time s' = mission_time example_registry /\
  paused s' = paused example_registry /\
  world_objects s' = world_objects example_registry.
Proof.
  intros during s'.
  assert (Hd : forall c, none_of is_receive (during c))
    by (intros c; repeat constructor).
  split; [exact Hd|].
  destruct (only_datagrams_write_simulation_state example_dumps example_dumps
              example_sockets (OpBroadcast [1; 2; 3]%nat during) example_registry Hd)
    as (H1 & H2 & H3 & H4 & _).
  repeat split; assumption.
Defined.

Lemma same_run_flags_perform json_dumps py_str io o :
  respects same_run_flags (perform json_dumps py_str io o).
Proof.
  destruct o as [r|ws|ws message|ws|table during| |body].
  - apply (same_run_flags_perform_act json_dumps py_str io (ActReceive r)).
  - apply (same_run_flags_perform_act json_dumps py_str io (ActConnect ws)).
  - apply (same_run_flags_perform_act json_dumps py_str io (ActMessage ws message)).
  - apply (same_run_flags_perform_act json_dumps py_str io (ActDisconnect ws)).
  - simpl. apply respects_broadcast_tick; [typeclasses eauto | |].
    + intros s dead. split; reflexivity.
    + intros c. apply all_acts_respect. apply same_run_flags_perform_act.
  - apply (same_run_flags_perform_act json_dumps py_str io ActApiStatus).
  - apply (same_run_flags_perform_act json_dumps py_str io (ActApiCommand body)).
Qed.

(** X19.  Nothing in a session assigns [running] or [last_dcs_update]:
    both are at the end what they were at the start, so that from the
    initial state [last_dcs_update] is still 0 however many updates
    arrived. *)
Theorem run_flags_are_never_written
    (json_dumps py_str : pyval -> string) (ops : list (sockets * op)) (s : SAMSIMServer) :
  running (session json_dumps py_str ops s) = running s /\
  last_dcs_update (session json_dumps py_str ops s) = last_dcs_update s /\
  last_dcs_update (session json_dumps py_str ops SAMSIMServer_init) = 0.
Proof.
  assert (H : forall s0, same_run_flags s0 (session json_dumps py_str ops s0)).
  { induction ops as [|[io o] ops IH]; intros s0; simpl; [reflexivity|].
    etransitivity; [apply (same_run_flags_perform json_dumps py_str io o s0) | apply IH]. }
  destruct (H s) as [H1 H2]. destruct (H SAMSIMServer_init) as [_ H3].
  repeat split; assumption.
Qed.

(** ** The connection flag *)

Lemma process_flag data s :
  dcs_connected (state_of (_process_dcs_data data s))
  = match flag_of data with
    | Some b => b
    | None => dcs_connected s
    end.
Proof.
  unfold flag_of. destruct (loads data) as [v|e] eqn:Hl.
  - destruct v as [| | | | | |m];
      try (destruct (process_not_applied data s) as (t & -> & _);
           [unfold not_applied; now rewrite Hl | reflexivity]).
    destruct (eq_str (dict_get_or m (PStr "type") (PStr "")) "init") eqn:E1.
    { rewrite (process_init data m s Hl (type_of_frame m "init" E1 ltac:(discriminate))).
      reflexivity. }
    destruct (eq_str (dict_get_or m (PStr "type") (PStr "")) "shutdown") eqn:E2.
    { rewrite (process_shutdown data m s Hl
                 (type_of_frame m "shutdown" E2 ltac:(discriminate))).
      reflexivity. }
    destruct (eq_str (dict_get_or m (PStr "type") (PStr "")) "status") eqn:E3.
    { pose proof (type_of_frame m "status" E3 ltac:(discriminate)) as Ht.
      rewrite (process_status_any _ _ _ Hl Ht).
      assert (Hr : respects same_but_sites
                     (try_except
                        (let! items := py_items (dict_get_or m (PStr "sites") (PDict [])) in
                         for_each items (fun item => update_site (fst item) (snd item)))
                        (fun e =>
                           match e with
                           | JSONDecodeError _ =>
                               log WARNING ("Invalid JSON from DCS: " ++ exn_str e)%string
                           | _ =>
                               log ERROR ("Error processing DCS data: " ++ exn_str e)%string
                           end))).
      { respects_walk same_but_sites_leaf. }
      specialize (Hr (status_header m s)).
      unfold try_except in *. rewrite apply_status_header.
      unfold same_but_sites in Hr. rewrite Hr. reflexivity. }
    destruct (process_not_applied data s) as (t & -> & _); [|reflexivity].
    unfold not_applied. rewrite Hl. cbv zeta. now rewrite E1, E2, E3.
  - destruct (process_not_applied data s) as (t & -> & _);
      [unfold not_applied; now rewrite Hl | reflexivity].
Qed.

(** C8.  A [status] message sets the connection flag, whatever the
    state before and whether or not the rest of the message could be
    applied.  The status query answers with the connection flag, the
    mission clock, the pause flag and the list of the known
    identifiers, with nothing else, and leaves the server object as it
    was.  So from the initial state the example [status] datagram
    followed by the status query gives the example answer. *)
Theorem status_query_example :
  (forall (data : received) (m : list (pyval * pyval)) (s : SAMSIMServer),
     loads data = LoadsOk (PDict m) ->
     dict_get m (PStr "type") = Some (PStr "status") ->
     let s1 := state_of (_process_dcs_data data s) in
     dcs_connected s1 = true /\
     _api_status s1
     = (Returned (PDict [ (PStr "dcsConnected", PBool true);
                          (PStr "missionTime", mission_time s1);
                          (PStr "paused", paused s1);
                          (PStr "sites", PList (dict_keys (sites s1))) ]),
        s1, [])) /\
  (forall s : SAMSIMServer,
     _api_status s
     = (Returned (PDict [ (PStr "dcsConnected", PBool (dcs_connected s));
                          (PStr "missionTime", mission_time s);
                          (PStr "paused", paused s);
                          (PStr "sites", PList (dict_keys (sites s))) ]),
        s, [])) /\
  (let s1 := state_of (_process_dcs_data example_datagram SAMSIMServer_init) in
   result_of (_process_dcs_data example_datagram SAMSIMServer_init) = Returned tt /\
   dcs_connected s1 = true /\
   _api_status s1
   = (Returned (PDict [ (PStr "dcsConnected", PBool true);
                        (PStr "missionTime", PInt 42);
                        (PStr "paused", PBool false);
                        (PStr "sites", PList [PStr "S1"]) ]),
      s1, [])).
Proof.
  assert (Hq : forall s : SAMSIMServer,
             _api_status s
             = (Returned (PDict [ (PStr "dcsConnected", PBool (dcs_connected s));
                                  (PStr "missionTime", mission_time s);
                                  (PStr "paused", paused s);
                                  (PStr "sites", PList (dict_keys (sites s))) ]),
                s, [])) by reflexivity.
  split; [|split; [exact Hq | repeat split]].
  intros data m s Hl Ht s1.
  assert (Hf : dcs_connected s1 = true).
  { subst s1. rewrite process_flag. unfold flag_of, dict_get_or. rewrite Hl, Ht.
    reflexivity. }
  split; [exact Hf|]. rewrite Hq, Hf. reflexivity.
Qed.

Lemma status_query_example_witness :
  let m := [ (PStr "type", PStr "status");
             (PStr "time", PInt 42);
             (PStr "paused", PBool false);
             (PStr "sites", PDict [ (PStr "S1", example_payload) ]) ] in
  loads example_datagram = LoadsOk (PDict m) /\
  dict_get m (PStr "type") = Some (PStr "status") /\
  dcs_connected (state_of (_process_dcs_data example_datagram SAMSIMServer_init)) = true.
Proof.
  intros m. split; [reflexivity|]. split; [reflexivity|].
  destruct status_query_example as (Hflag & _ & _).
  destruct (Hflag example_datagram m SAMSIMServer_init eq_refl eq_refl) as [H _].
  exact H.
Defined.

(** X20.  The connection flag is the one asked for by the last
    datagram that was an [init] (true), a [shutdown] (false) or a
    [status] (true, even when applying it then failed); datagrams of
    any other kind, and undecodable ones, leave it alone. *)
Theorem connection_flag_follows_last_signal
    (datagrams : list received) (s : SAMSIMServer) :
  dcs_connected (state_of (process_all datagrams s))
  = last_flag datagrams (dcs_connected s).
Proof.
  revert s. induction datagrams as [|data rest IH]; intros s; [reflexivity|].
  rewrite process_all_cons, IH, process_flag. reflexivity.
Qed.

(** ** From a datagram to the subscribers *)

(** X21.  A [status] update followed by a tick: in the snapshot of
    that tick each entity the update named reads exactly as the update
    reported it; whatever the tick sends, to whomever and whatever the
    other coroutines do meanwhile, is the serialisation of that
    snapshot; and when no subscriber is registered or discarded during
    the sends, every registered subscriber found in the slots is sent
    it. *)
Theorem update_then_tick_delivers_the_report
    (json_dumps py_str : pyval -> string) (ws_send : nat -> string -> option exn)
    (during : nat -> list (sockets * act)) (table : list nat)
    (data : received) (message : pyval) (s : SAMSIMServer)
    (k payload : pyval) :
  loads data = LoadsOk message ->
  status_update message = true ->
  In (k, payload) (sites_of message) ->
  let s1 := state_of (_process_dcs_data data s) in
  let snap := state_dict "update" s1 in
  let r := broadcast_tick json_dumps py_str ws_send during table s1 in
  entity_of snap k = Some (reported_entity (site_id_after (sites s) k) payload) /\
  (forall c text raised,
     In (EvWsSend c text raised) (trace_of r) -> text = json_dumps snap) /\
  ((forall c, none_of is_registration (during c)) ->
   forall c, c ∈ ws_clients s -> c ∈ table ->
     In (EvWsSend c (json_dumps snap) (send_raises ws_send c (json_dumps snap)))
        (trace_of r)).
Proof.
  intros Hl Hs Hin s1 snap r. split; [|split].
  - subst snap s1. rewrite entity_of_state_dict.
    rewrite (process_status_update _ _ _ Hl Hs).
    pose proof (sites_of_json_object _ Hs) as Hj.
    destruct message as [| | | | | |m]; try discriminate.
    unfold state_of, status_applied. simpl fst. simpl snd. simpl sites.
    rewrite (upsert_sites_lookup _ _ _ _ Hj Hin). reflexivity.
  - intros c text raised H.
    now apply (broadcast_tick_one_text json_dumps py_str ws_send during table s1) in H
      as [-> _].
  - intros Hd c Hc Ht.
    assert (Hc1 : c ∈ ws_clients s1).
    { destruct (same_registry_process data s) as (Hw & _). fold s1 in Hw. now rewrite Hw. }
    assert (Hne : ws_clients s1 <> ∅) by set_solver.
    destruct (broadcast_tick_steady json_dumps py_str ws_send during table s1 Hd Hne)
      as (_ & Htr & _).
    fold snap r in Htr. rewrite Htr. right. right. apply In_send_events.
    exists c. split; [reflexivity|]. apply elem_of_live. auto.
Qed.

Lemma update_then_tick_delivers_the_report_witness :
  let s := set_ws_clients {[ 3%nat ]} SAMSIMServer_init in
  let s1 := state_of (_process_dcs_data example_datagram s) in
  let snap := state_dict "update" s1 in
  status_update example_status = true /\
  (3%nat ∈ ws_clients s) /\
  In (EvWsSend 3%nat (example_dumps snap) false)
     (trace_of (broadcast_tick example_dumps example_dumps example_ws_send quiet
                  [3%nat] s1)) /\
  entity_of snap (PStr "S1") = Some (reported_entity (PStr "S1") example_payload).
Proof.
  intros s s1 snap. split; [reflexivity|].
  assert (Hc : 3%nat ∈ ws_clients s) by (simpl; set_solver).
  split; [exact Hc|].
  destruct (update_then_tick_delivers_the_report example_dumps example_dumps
              example_ws_send quiet [3%nat] example_datagram example_status s
              (PStr "S1") example_payload eq_refl eq_refl)
    as (He & _ & Hsent); [simpl; auto|].
  split; [|exact He].
  apply (Hsent (fun c => List.Forall_nil _) 3%nat Hc). constructor.
Defined.

(** X22.  As long as neither a datagram nor a subscriber's frame
    arrives during the awaits of the loop, every tick sends the same
    text, whoever is registered or discarded meanwhile: whatever the
    loop sends to a subscriber is the serialisation of the snapshot of
    the state the loop started in. *)
Theorem idle_ticks_repeat_the_payload
    (json_dumps py_str : pyval -> string) (turns : list turn)
    (s : SAMSIMServer) (c : nat) (text : string) (raised : bool) :
  Forall idle_turn turns ->
  In (EvWsSend c text raised) (trace_of (_broadcast_loop json_dumps py_str turns s)) ->
  text = json_dumps (state_dict "update" s).
Proof. apply broadcast_loop_sends. Qed.

Lemma idle_ticks_repeat_the_payload_witness :
  let s := set_running true example_registry in
  let turn := {| turn_ws_send := example_ws_send;
                 turn_table := [1; 3; 4]%nat;
                 turn_during := quiet;
                 turn_sleep := [ (example_sockets, ActConnect 4%nat) ] |} in
  let turns := [ example_turn quiet; turn; turn ] in
  let r := _broadcast_loop example_dumps example_dumps turns s in
  Forall idle_turn turns /\
  In (EvWsSend 4%nat "dict" false) (trace_of r) /\
  "dict" = example_dumps (state_dict "update" s).
Proof.
  intros s turn turns r.
  assert (Hi : Forall idle_turn turns).
  { repeat constructor. }
  assert (Hin : In (EvWsSend 4%nat "dict" false) (trace_of r)).
  { subst r turns turn s. vm_compute. auto 20. }
  split; [exact Hi|]. split; [exact Hin|].
  apply (idle_ticks_repeat_the_payload example_dumps example_dumps turns
           s 4%nat "dict" false Hi Hin).
Defined.
